(** * LS2D: the ERA5 reader and its large-scale forcings

    A shallow embedding of [src/read_ERA5.py] (class [Read_ERA]) and of the
    settings handling of [src/download_ERA5.py].

    Conventions of the embedding.
    - Python integers are [Z], array extents and positions are [nat].
    - numpy floats are idealised as the real numbers [R]: rounding and the
      non-finite values (nan, inf) are not represented.  numpy arithmetic
      never raises on them (it only warns), so the control flow of the code
      does not depend on this idealisation; the mean of an empty slice, nan
      in numpy, is the unspecified quotient [0 / 0] here.  Statements over
      [R] name the operations that the code performs, in its order; where
      a property would hold in exact arithmetic only, the interpolation is
      evaluated in binary64 as well (module [Binary64], on the kernel's
      IEEE 754 floats).
    - a numpy array is its shape together with its indexing function;
      slicing, broadcasting and reductions act on both, as numpy does.
    - an exception is a value of [exception]; code that can raise returns a
      [result]; code that assigns attributes of [self] runs in the state
      and exception monad [M], where the state survives a raise. *)

From Stdlib Require Import Reals Lra Lia ZArith List String Ascii Bool Arith.
From Stdlib Require Import Permutation Sorted.
From Stdlib Require Floats.
Import ListNotations.

(* ================================================================== *)
(** * Python: exceptions, indices and slices *)
(* ================================================================== *)

Module Py.

(** The exceptions that the modelled code can raise. *)
Inductive exception : Type :=
| IndexError                      (* index out of range (numpy array, str) *)
| KeyError                        (* missing dictionary key *)
| AttributeError                  (* attribute of self not set yet *)
| TypeError                       (* operation on a value of the wrong type *)
| BroadcastError                  (* numpy ValueError: operands could not be
                                     broadcast together / shape mismatch *)
| InterpError                     (* ValueError raised by scipy's interp1d
                                     constructor *)
| UnboundLocalError (name : string)
| AssertionError (msg : string)
| SystemExit.

Inductive result (A : Type) : Type :=
| Ok (a : A)
| Raise (e : exception).
Arguments Ok {A} a.
Arguments Raise {A} e.

Definition rbind {A B} (r : result A) (f : A -> result B) : result B :=
  match r with
  | Ok a => f a
  | Raise e => Raise e
  end.

Definition is_ok {A} (r : result A) : bool :=
  match r with Ok _ => true | Raise _ => false end.

(** [a[k]] on an axis of extent [n]: negative [k] counts from the end. *)
Definition index (n : nat) (k : Z) : result nat :=
  if (0 <=? k)%Z && (k <? Z.of_nat n)%Z then Ok (Z.to_nat k)
  else if (- Z.of_nat n <=? k)%Z && (k <? 0)%Z then Ok (Z.to_nat (k + Z.of_nat n))
  else Raise IndexError.

(** A slice [start:stop] (step 1); [None] is an omitted bound. *)
Record slice : Type := mkslice { start : option Z; stop : option Z }.

Definition full : slice := mkslice None None.
Definition range (a b : Z) : slice := mkslice (Some a) (Some b).
Definition from (a : Z) : slice := mkslice (Some a) None.
Definition upto (b : Z) : slice := mkslice None (Some b).

(** Bound adjustment of CPython's slice.indices for a positive step:
    a negative bound is taken from the end, then clipped to [0, n]. *)
Definition adjust (n : nat) (k : Z) : nat :=
  if (k <? 0)%Z then Z.to_nat (Z.max (k + Z.of_nat n) 0)
  else Z.to_nat (Z.min k (Z.of_nat n)).

Definition lo (n : nat) (s : slice) : nat :=
  match start s with Some a => adjust n a | None => 0 end.

Definition hi (n : nat) (s : slice) : nat :=
  match stop s with Some b => adjust n b | None => n end.

(** Number of selected positions; empty when the bounds cross. *)
Definition extent (n : nat) (s : slice) : nat := hi n s - lo n s.

(** [s[k]] on a str. *)
Definition str_item (s : string) (k : Z) : result ascii :=
  match index (String.length s) k with
  | Ok n => match String.get n s with
            | Some c => Ok c
            | None => Raise IndexError
            end
  | Raise e => Raise e
  end.

(** The values held by the settings dictionary. *)
Inductive value : Type :=
| Str (s : string)
| Float (x : R)
| Int (n : Z)
| Datetime (hours_since_1900 : R).

(** A dict, in insertion order. *)
Definition dict : Type := list (string * value).

Fixpoint dict_get (d : dict) (key : string) : result value :=
  match d with
  | [] => Raise KeyError
  | (k, x) :: r => if (k =? key)%string then Ok x else dict_get r key
  end.

(** [d[key] = x]: replaces the value of an existing key in place, or adds
    the key at the end. *)
Fixpoint dict_set (d : dict) (key : string) (x : value) : dict :=
  match d with
  | [] => [(key, x)]
  | (k, y) :: r =>
      if (k =? key)%string then (k, x) :: r else (k, y) :: dict_set r key x
  end.

End Py.

Import Py.

Declare Scope result_scope.
Delimit Scope result_scope with result.
Notation "x <- c ;; k" := (rbind c (fun x => k))
  (at level 61, c at next level, right associativity) : result_scope.

(* ================================================================== *)
(** * numpy: arrays, slicing, broadcasting, reductions *)
(* ================================================================== *)

Module Np.

Record ndarray1 : Type := mk1 { len1 : nat; get1 : nat -> R }.
Record ndarray2 : Type := mk2 { d20 : nat; d21 : nat; get2 : nat -> nat -> R }.
Record ndarray3 : Type :=
  mk3 { d30 : nat; d31 : nat; d32 : nat; get3 : nat -> nat -> nat -> R }.
Record ndarray4 : Type :=
  mk4 { d40 : nat; d41 : nat; d42 : nat; d43 : nat;
        get4 : nat -> nat -> nat -> nat -> R }.

Definition shape2 (a : ndarray2) : nat * nat := (d20 a, d21 a).
Definition shape3 (a : ndarray3) : nat * nat * nat := (d30 a, d31 a, d32 a).
Definition shape4 (a : ndarray4) : nat * nat * nat * nat :=
  (d40 a, d41 a, d42 a, d43 a).

(** Broadcasting of two extents along one axis. *)
Definition bdim (a b : nat) : option nat :=
  if a =? b then Some a
  else if a =? 1 then Some b
  else if b =? 1 then Some a
  else None.

(** Position read in an operand of extent [d] for position [i] of the
    broadcast result: an axis of extent 1 is repeated. *)
Definition bidx (d i : nat) : nat := if d =? 1 then 0 else i.

(** [a[s0, s1, s2, s3]] with four slices: a view, never an error. *)
Definition getitem4 (a : ndarray4) (s : slice * slice * slice * slice)
  : ndarray4 :=
  let '(s0, s1, s2, s3) := s in
  mk4 (extent (d40 a) s0) (extent (d41 a) s1)
      (extent (d42 a) s2) (extent (d43 a) s3)
      (fun t k j i =>
         get4 a (lo (d40 a) s0 + t) (lo (d41 a) s1 + k)
                (lo (d42 a) s2 + j) (lo (d43 a) s3 + i)).

Definition getitem3 (a : ndarray3) (s : slice * slice * slice) : ndarray3 :=
  let '(s0, s1, s2) := s in
  mk3 (extent (d30 a) s0) (extent (d31 a) s1) (extent (d32 a) s2)
      (fun t j i =>
         get3 a (lo (d30 a) s0 + t) (lo (d31 a) s1 + j) (lo (d32 a) s2 + i)).

(** Elementwise binary operation with broadcasting. *)
Definition binop4 (f : R -> R -> R) (a b : ndarray4) : result ndarray4 :=
  match bdim (d40 a) (d40 b), bdim (d41 a) (d41 b),
        bdim (d42 a) (d42 b), bdim (d43 a) (d43 b) with
  | Some n0, Some n1, Some n2, Some n3 =>
      Ok (mk4 n0 n1 n2 n3
            (fun t k j i =>
               f (get4 a (bidx (d40 a) t) (bidx (d41 a) k)
                         (bidx (d42 a) j) (bidx (d43 a) i))
                 (get4 b (bidx (d40 b) t) (bidx (d41 b) k)
                         (bidx (d42 b) j) (bidx (d43 b) i))))
  | _, _, _, _ => Raise BroadcastError
  end.

Definition binop2 (f : R -> R -> R) (a b : ndarray2) : result ndarray2 :=
  match bdim (d20 a) (d20 b), bdim (d21 a) (d21 b) with
  | Some n0, Some n1 =>
      Ok (mk2 n0 n1
            (fun t k =>
               f (get2 a (bidx (d20 a) t) (bidx (d21 a) k))
                 (get2 b (bidx (d20 b) t) (bidx (d21 b) k))))
  | _, _ => Raise BroadcastError
  end.

Definition add4 := binop4 Rplus.
Definition sub4 := binop4 Rminus.
Definition mul4 := binop4 Rmult.
Definition sub2 := binop2 Rminus.

(** Elementwise map: unary minus, and arithmetic with a Python scalar. *)
Definition map4 (f : R -> R) (a : ndarray4) : ndarray4 :=
  mk4 (d40 a) (d41 a) (d42 a) (d43 a) (fun t k j i => f (get4 a t k j i)).

Definition map2 (f : R -> R) (a : ndarray2) : ndarray2 :=
  mk2 (d20 a) (d21 a) (fun t k => f (get2 a t k)).

Definition neg4 : ndarray4 -> ndarray4 := map4 Ropp.
Definition smul4 (c : R) : ndarray4 -> ndarray4 := map4 (Rmult c).
Definition divs4 (a : ndarray4) (c : R) : ndarray4 := map4 (fun x => x / c)%R a.
Definition smul2 (c : R) : ndarray2 -> ndarray2 := map2 (Rmult c).

(** [sum_{m < n} f m]. *)
Fixpoint sum_upto (n : nat) (f : nat -> R) : R :=
  match n with
  | O => 0%R
  | S m => (sum_upto m f + f m)%R
  end.

(** [a.mean(axis=(2,3))]: the sum over the last two axes divided by the
    number of summed elements. *)
Definition mean23 (a : ndarray4) : ndarray2 :=
  mk2 (d40 a) (d41 a)
      (fun t k =>
         (sum_upto (d42 a) (fun j => sum_upto (d43 a) (fun i => get4 a t k j i))
          / INR (d42 a * d43 a))%R).

(** [a.mean(axis=(1,2))] of a 3-D array. *)
Definition mean12 (a : ndarray3) : ndarray1 :=
  mk1 (d30 a)
      (fun t =>
         (sum_upto (d31 a) (fun j => sum_upto (d32 a) (fun i => get3 a t j i))
          / INR (d31 a * d32 a))%R).

Definition zeros_like2 (a : ndarray2) : ndarray2 :=
  mk2 (d20 a) (d21 a) (fun _ _ => 0%R).

(** [a[t, :]] with an integer [t]. *)
Definition row2 (a : ndarray2) (t : nat) : result ndarray1 :=
  if t <? d20 a then Ok (mk1 (d21 a) (get2 a t)) else Raise IndexError.

(** [a[t, :] = v]: in-place assignment of one row; [v] of extent 1 is
    repeated along the row. *)
Definition setrow2 (a : ndarray2) (t : nat) (v : ndarray1) : result ndarray2 :=
  if t <? d20 a then
    if (len1 v =? d21 a) || (len1 v =? 1) then
      Ok (mk2 (d20 a) (d21 a)
            (fun t' k => if t' =? t then get1 v (bidx (len1 v) k)
                         else get2 a t' k))
    else Raise BroadcastError
  else Raise IndexError.

(** [a[k]] with an integer [k] on a 1-D array. *)
Definition item1 (a : ndarray1) (k : Z) : result R :=
  (n <- index (len1 a) k ;; Ok (get1 a n))%result.

Definition to_list1 (a : ndarray1) : list R := map (get1 a) (seq 0 (len1 a)).

End Np.

Import Np.

(* ================================================================== *)
(** * finite_difference: centred differences *)
(* ================================================================== *)

Module fd.

(** Modelled from the spec: the module [finite_difference] (imported as
    [fd]) is not among the sources.  The spec describes a centred
    difference with neighbour offsets at +-1 grid step (2nd order); the
    call sites pass the neighbour behind, the neighbour ahead and the grid
    spacing, in that order. *)
Definition grad2c (a b : ndarray4) (dx : R) : result ndarray4 :=
  (d <- sub4 b a ;; Ok (divs4 d (2 * dx)%R))%result.

(** Modelled from the spec: the 4th-order difference with offsets +-1 and
    +-2 and the standard 4-point centred coefficients 1, -8, 8, -1 over
    12 grid spacings; the arguments are the values at offsets -2, -1, +1
    and +2. *)
Definition grad4c (a b c d : ndarray4) (dx : R) : result ndarray4 :=
  (t1 <- sub4 a (smul4 8 b) ;;
   t2 <- add4 t1 (smul4 8 c) ;;
   t3 <- sub4 t2 d ;;
   Ok (divs4 t3 (12 * dx)%R))%result.

End fd.

(* ================================================================== *)
(** * scipy.interpolate.interp1d, linear, fill_value='extrapolate' *)
(* ================================================================== *)

Module interpolate.

(** A constructed interpolant: the sample points sorted by abscissa. *)
Definition interpolant : Type := list (R * R).

(** Stable sort of the samples on the abscissa (interp1d is called with
    its default assume_sorted=False and sorts with a stable argsort). *)
Fixpoint insert (p : R * R) (l : list (R * R)) : list (R * R) :=
  match l with
  | [] => [p]
  | q :: l' => if Rle_dec (fst p) (fst q) then p :: l else q :: insert p l'
  end.

Definition sort (l : list (R * R)) : list (R * R) := fold_right insert [] l.

(** The constructor: x and y must have equal length and, for the linear
    kind, at least one entry (current scipy; with a single sample the
    evaluation divides zero by zero, nan in numpy). *)
Definition interp1d (x y : ndarray1) : result interpolant :=
  if negb (len1 x =? len1 y) then Raise InterpError
  else if len1 x <? 1 then Raise InterpError
  else Ok (sort (combine (to_list1 x) (to_list1 y))).

(** numpy.searchsorted (side='left') on a sorted list: the position of
    the first entry that is not below [v]. *)
Fixpoint searchsorted (xs : list R) (v : R) : nat :=
  match xs with
  | [] => 0
  | x :: r => if Rlt_dec x v then S (searchsorted r v) else 0
  end.

Definition clip (a lo hi : nat) : nat := Nat.min (Nat.max a lo) hi.

(** Evaluation at one abscissa ([_call_linear]); with extrapolation
    enabled no bounds are checked and the end intervals are continued.
    With a single sample the clipped position is 0 and both neighbours
    are that sample ([lo] is -1, the last entry). *)
Definition call_linear (f : interpolant) (x_new : R) : R :=
  let xs := map fst f in
  let idx := clip (searchsorted xs x_new) 1 (List.length xs - 1) in
  let lo := idx - 1 in
  let hi := idx in
  let '(x_lo, y_lo) := nth lo f (0, 0)%R in
  let '(x_hi, y_hi) := nth hi f (0, 0)%R in
  let slope := ((y_hi - y_lo) / (x_hi - x_lo))%R in
  (slope * (x_new - x_lo) + y_lo)%R.

(** Evaluation at an array of abscissae: same shape as the argument. *)
Definition call (f : interpolant) (x_new : ndarray1) : ndarray1 :=
  mk1 (len1 x_new) (fun k => call_linear f (get1 x_new k)).

End interpolate.

Import interpolate.

(* ================================================================== *)
(** * The same interpolation in binary64 *)
(* ================================================================== *)

(** [interp1d] and its evaluation as in [interpolate], with numpy's
    float64 in place of the real numbers: the kernel's IEEE 754 binary64
    numbers, every operation rounded to nearest even.  A 1-D array is the
    list of its entries. *)
Module Binary64.

Import PrimFloat.

Definition interpolant : Type := list (float * float).

Fixpoint insert (p : float * float) (l : list (float * float))
  : list (float * float) :=
  match l with
  | [] => [p]
  | q :: l' => if (fst p <=? fst q)%float then p :: l else q :: insert p l'
  end.

Definition sort (l : list (float * float)) : list (float * float) :=
  fold_right insert [] l.

Definition interp1d (x y : list float) : result interpolant :=
  if negb (List.length x =? List.length y) then Raise InterpError
  else if List.length x <? 1 then Raise InterpError
  else Ok (sort (combine x y)).

Fixpoint searchsorted (xs : list float) (v : float) : nat :=
  match xs with
  | [] => 0
  | x :: r => if (x <? v)%float then S (searchsorted r v) else 0
  end.

Definition call_linear (f : interpolant) (x_new : float) : float :=
  let xs := map fst f in
  let idx := clip (searchsorted xs x_new) 1 (List.length xs - 1) in
  let lo := idx - 1 in
  let hi := idx in
  let '(x_lo, y_lo) := nth lo f (0, 0)%float in
  let '(x_hi, y_hi) := nth hi f (0, 0)%float in
  let slope := ((y_hi - y_lo) / (x_hi - x_lo))%float in
  (slope * (x_new - x_lo) + y_lo)%float.

Definition call (f : interpolant) (x_new : list float) : list float :=
  map (call_linear f) x_new.

(** One row of the interpolation onto the model levels:
    [interp1d(self.p_p, g_p[t,:], fill_value='extrapolate')(self.p_mean[t,:])]. *)
Definition interp_row (p_p g_p_t p_mean_t : list float) : result (list float) :=
  (f <- interp1d p_p g_p_t ;; Ok (call f p_mean_t))%result.

(** [xs[k]] for a position of the list. *)
Definition item (xs : list float) (k : nat) : float := nth k xs 0%float.

(** The axis [xs] is strictly decreasing and holds no nan, as the
    comparisons of binary64 decide: every entry is below each entry
    before it, and not the other way round. *)
Fixpoint strictly_decreasing (xs : list float) : bool :=
  match xs with
  | [] => true
  | x :: r =>
      negb (x <? x)%float
      && forallb (fun y => (y <? x)%float && negb (x <=? y)%float) r
      && strictly_decreasing r
  end.

(** [Spec.on_line] in binary64: [slope * (v - x_lo) + y_lo] with
    [slope = (y_hi - y_lo) / (x_hi - x_lo)], where [hi] is the level [l]
    and [lo] the level [l + 1]; every operation is rounded. *)
Definition on_line (xs ys : list float) (l : nat) (v : float) : float :=
  ((item ys l - item ys (S l)) / (item xs l - item xs (S l))
   * (v - item xs (S l)) + item ys (S l))%float.

End Binary64.

(* ================================================================== *)
(** * read_ERA5.py *)
(* ================================================================== *)

Module Read_ERA.

(** class Slice: the averaging domain, shifted by [j] rows and [i]
    columns when called. *)
Record Slice : Type :=
  mkSlice { istart : Z; iend : Z; jstart : Z; jend : Z }.

Definition Slice_call (s : Slice) (j i : Z) : slice * slice * slice * slice :=
  (full, full,
   range (jstart s + j) (jend s + j),
   range (istart s + i) (iend s + i)).

(** ** The attributes of a Read_ERA object *)

(** Attributes assigned by [__init__]: coordinate axes, the ingested
    fields (level axis bottom to top) and the quantities derived at load. *)
Record Source : Type := mkSource {
  lats : ndarray1;  lons : ndarray1;
  time : ndarray1;  time_fc : ndarray1;  time_sec : ndarray1;
  nfull : nat;  nhalf : nat;  nlat : nat;  nlon : nat;  ntime : nat;
  i : Z;  j : Z;
  (* model level analysis *)
  u : ndarray4;  v : ndarray4;  w : ndarray4;  T : ndarray4;  q : ndarray4;
  qc : ndarray4;  qi : ndarray4;  qr : ndarray4;  qs : ndarray4;
  (* surface *)
  Ts : ndarray3;  H : ndarray3;  wqs : ndarray3;  cc : ndarray3;
  z0m : ndarray3;  z0h : ndarray3;
  (* pressure levels *)
  z_p : ndarray4;  p_p : ndarray1;
  (* derived at load *)
  ql : ndarray4;  qt : ndarray4;  ps : ndarray3;  Tv : ndarray4;
  ph : ndarray4;  zh : ndarray4;  p : ndarray4;  z : ndarray4;
  exn : ndarray4;  th : ndarray4;  thl : ndarray4;  rho : ndarray4;
  wls : ndarray4;  U : ndarray4;
  Tvs : ndarray3;  rhos : ndarray3;  exns : ndarray3;  wths : ndarray3;
  fc : R;
  dthldt_sw : ndarray4;  dthldt_lw : ndarray4;
  dthldt_sw_cs : ndarray4;  dthldt_lw_cs : ndarray4
}.

(** Window means assigned at the start of [calculate_forcings].  Slicing
    and [mean] never raise, so the block of assignments runs as a whole
    and the group is set at once. *)
Record Means : Type := mkMeans {
  z_mean : ndarray2;  p_mean : ndarray2;  thl_mean : ndarray2;
  qt_mean : ndarray2;  u_mean : ndarray2;  v_mean : ndarray2;
  U_mean : ndarray2;  wls_mean : ndarray2;  rho_mean : ndarray2;
  ps_mean : ndarray1;  wth_mean : ndarray1;  wq_mean : ndarray1;
  cc_mean : ndarray1;  z0m_mean : ndarray1;  z0h_mean : ndarray1;
  dtthl_sw_mean : ndarray2;  dtthl_lw_mean : ndarray2;
  dtthl_sw_cs_mean : ndarray2;  dtthl_lw_cs_mean : ndarray2
}.

(** The forcing arrays; [None] while the attribute does not exist. *)
Record Forcings : Type := mkForcings {
  dtthl_advec : option ndarray2;  dtqt_advec : option ndarray2;
  dtu_advec : option ndarray2;    dtv_advec : option ndarray2;
  ug : option ndarray2;           vg : option ndarray2;
  dtu_coriolis : option ndarray2; dtv_coriolis : option ndarray2
}.

Definition no_forcings : Forcings :=
  mkForcings None None None None None None None None.

(** The object [self]: what [__init__] set, the window means once they
    exist, and the forcing arrays. *)
Record Era : Type := mkEra {
  src : Source;
  means : option Means;
  frc : Forcings
}.

(** The object as [__init__] leaves it. *)
Definition loaded (s : Source) : Era := mkEra s None no_forcings.

(** Attribute assignment [self.name = value]. *)
Definition set_means (m : Means) (e : Era) : Era :=
  mkEra (src e) (Some m) (frc e).

Definition set_frc (f : Forcings -> Forcings) (e : Era) : Era :=
  mkEra (src e) (means e) (f (frc e)).

Definition set_dtthl_advec (a : ndarray2) : Era -> Era :=
  set_frc (fun f => mkForcings (Some a) (dtqt_advec f) (dtu_advec f)
    (dtv_advec f) (ug f) (vg f) (dtu_coriolis f) (dtv_coriolis f)).
Definition set_dtqt_advec (a : ndarray2) : Era -> Era :=
  set_frc (fun f => mkForcings (dtthl_advec f) (Some a) (dtu_advec f)
    (dtv_advec f) (ug f) (vg f) (dtu_coriolis f) (dtv_coriolis f)).
Definition set_dtu_advec (a : ndarray2) : Era -> Era :=
  set_frc (fun f => mkForcings (dtthl_advec f) (dtqt_advec f) (Some a)
    (dtv_advec f) (ug f) (vg f) (dtu_coriolis f) (dtv_coriolis f)).
Definition set_dtv_advec (a : ndarray2) : Era -> Era :=
  set_frc (fun f => mkForcings (dtthl_advec f) (dtqt_advec f) (dtu_advec f)
    (Some a) (ug f) (vg f) (dtu_coriolis f) (dtv_coriolis f)).
Definition set_ug (a : ndarray2) : Era -> Era :=
  set_frc (fun f => mkForcings (dtthl_advec f) (dtqt_advec f) (dtu_advec f)
    (dtv_advec f) (Some a) (vg f) (dtu_coriolis f) (dtv_coriolis f)).
Definition set_vg (a : ndarray2) : Era -> Era :=
  set_frc (fun f => mkForcings (dtthl_advec f) (dtqt_advec f) (dtu_advec f)
    (dtv_advec f) (ug f) (Some a) (dtu_coriolis f) (dtv_coriolis f)).
Definition set_dtu_coriolis (a : ndarray2) : Era -> Era :=
  set_frc (fun f => mkForcings (dtthl_advec f) (dtqt_advec f) (dtu_advec f)
    (dtv_advec f) (ug f) (vg f) (Some a) (dtv_coriolis f)).
Definition set_dtv_coriolis (a : ndarray2) : Era -> Era :=
  set_frc (fun f => mkForcings (dtthl_advec f) (dtqt_advec f) (dtu_advec f)
    (dtv_advec f) (ug f) (vg f) (dtu_coriolis f) (Some a)).

(** ** State and exception monad of the methods of [self] *)

Definition M (A : Type) : Type := Era -> Era * result A.

Definition ret {A} (a : A) : M A := fun e => (e, Ok a).

Definition bind {A B} (m : M A) (f : A -> M B) : M B :=
  fun e =>
    match m e with
    | (e', Ok a) => f a e'
    | (e', Raise x) => (e', Raise x)
    end.

Definition lift {A} (r : result A) : M A := fun e => (e, r).
Definition self : M Era := fun e => (e, Ok e).
Definition assign (f : Era -> Era) : M unit := fun e => (f e, Ok tt).

(** Reading an attribute or a local name that may not be bound. *)
Definition attr {A} (o : option A) : M A :=
  lift (match o with Some a => Ok a | None => Raise AttributeError end).

Definition local {A} (name : string) (o : option A) : M A :=
  lift (match o with Some a => Ok a | None => Raise (UnboundLocalError name) end).

(** [for t in ts: body t]. *)
Fixpoint for_each (ts : list nat) (body : nat -> M unit) : M unit :=
  match ts with
  | [] => ret tt
  | t :: r => bind (body t) (fun _ => for_each r body)
  end.

Declare Scope M_scope.
Delimit Scope M_scope with M.
Notation "x <- c ;; k" := (bind c (fun x => k))
  (at level 61, c at next level, right associativity) : M_scope.
Notation "c ;; k" := (bind c (fun _ => k))
  (at level 61, right associativity) : M_scope.

(** ** __init__ *)

(** The caller's settings dictionary is passed by reference: a function
    that receives it returns the dictionary as it leaves it, also when it
    raises. *)

(** [if settings['ERA5_path'][-1] != '/': settings['ERA5_path'] += '/'] *)
Definition ensure_trailing_slash (settings : dict) : dict * result unit :=
  match dict_get settings "ERA5_path" with
  | Raise e => (settings, Raise e)
  | Ok (Str path) =>
      match str_item path (-1) with
      | Raise e => (settings, Raise e)
      | Ok c =>
          if negb (Ascii.eqb c "/")
          then (dict_set settings "ERA5_path" (Str (path ++ "/")), Ok tt)
          else (settings, Ok tt)
      end
  | Ok _ => (settings, Raise TypeError)
  end.

Section InitSettings.

(** Functions of the module [time_tools] (imported as [tt]), which is not
    among the sources: rounding a date down to the hour and the lists of
    analysis and forecast days needed for a period. *)
Variable lower_to_hour : value -> result value.
Variable get_required_analysis : value -> value -> result (list value).
Variable get_required_forecast : value -> value -> result (list value).

(** What [__init__] does to the settings, up to the check of the output
    directory.  Everything after that check only reads the dictionary. *)
Definition init_settings (settings : dict) : dict * result unit :=
  match (d <- dict_get settings "start_date" ;;
         start <- lower_to_hour d ;;
         d <- dict_get settings "end_date" ;;
         end_ <- lower_to_hour d ;;
         _ <- get_required_analysis start end_ ;;
         _ <- get_required_forecast start end_ ;;
         Ok tt)%result with
  | Raise e => (settings, Raise e)
  | Ok _ => ensure_trailing_slash settings
  end.

End InitSettings.

(** [np.all(a == b)] on 1-D arrays: elementwise with broadcasting; when
    the shapes cannot be broadcast, [a == b] itself raises numpy's
    ValueError (current numpy; old versions warned and returned the
    scalar False). *)
Definition all_equal (a b : ndarray1) : result bool :=
  match bdim (len1 a) (len1 b) with
  | Some n =>
      Ok (forallb (fun k => if Req_dec_T (get1 a (bidx (len1 a) k))
                                         (get1 b (bidx (len1 b) k))
                            then true else false)
                  (seq 0 n))
  | None => Raise BroadcastError
  end.

(** The time axes: [self.time_sec = (self.time - self.time[0]) * 3600.]
    followed by the check that analysis and forecast times are synced.
    Returns [time_sec]. *)
Definition init_times (time time_fc : ndarray1) : result ndarray1 :=
  (t0 <- item1 time 0 ;;
   let time_sec := mk1 (len1 time) (fun k => (get1 time k - t0) * 3600)%R in
   synced <- all_equal time time_fc ;;
   if (synced : bool) then Ok time_sec
   else Raise (AssertionError "Analysis and forecast times are not synced"))%result.

(** Full level pressure and height from the half level values:
    [0.5 * (xh[:,1:,:,:] + xh[:,:-1:,:])]. *)
Definition full_level (xh : ndarray4) : result ndarray4 :=
  (a <- add4 (getitem4 xh (full, from 1, full, full))
             (getitem4 xh (full, upto (-1), full, full)) ;;
   Ok (smul4 0.5 a))%result.

(** [np.deg2rad]. *)
Definition deg2rad (x : R) : R := (x * (PI / 180))%R.

(** Coriolis parameter:
    [self.fc = 2 * 7.2921e-5 * np.sin(np.deg2rad(settings['central_lat']))]. *)
Definition init_fc (settings : dict) : result R :=
  (x <- dict_get settings "central_lat" ;;
   match x with
   | Float lat => Ok (2 * 7.2921e-5 * sin (deg2rad lat))%R
   | Int n => Ok (2 * 7.2921e-5 * sin (deg2rad (IZR n)))%R
   | _ => Raise TypeError
   end)%result.

(** ** calculate_forcings *)

Section CalculateForcings.

(** Names of modules that are not among the sources: the constant
    [IFS_tools.grav] and the great-circle distances
    [spatial_tools.dlon (lon1, lon2, lat)] and [spatial_tools.dlat (lat1, lat2)]. *)
Variable grav : R.
Variable dlon : R -> R -> R -> R.
Variable dlat : R -> R -> R.

(** Horizontal grid spacing at the centre (assumed constant in the
    averaging domain). *)
Definition grid_spacing (s : Source) : result (R * R) :=
  (lon_m <- item1 (lons s) (i s - 1) ;;
   lon_p <- item1 (lons s) (i s + 1) ;;
   lat_c <- item1 (lats s) (j s) ;;
   let dx := Rabs (dlon lon_m lon_p lat_c / 2) in
   lat_p <- item1 (lats s) (j s + 1) ;;
   lat_m <- item1 (lats s) (j s - 1) ;;
   let dy := Rabs (dlat lat_p lat_m / 2) in
   Ok (dx, dy))%result.

(** The window means of all averaged fields. *)
Definition window_means (s : Source)
    (center4d : slice * slice * slice * slice)
    (center3d : slice * slice * slice) : Means :=
  {| z_mean   := mean23 (getitem4 (z s) center4d);
     p_mean   := mean23 (getitem4 (p s) center4d);
     thl_mean := mean23 (getitem4 (thl s) center4d);
     qt_mean  := mean23 (getitem4 (qt s) center4d);
     u_mean   := mean23 (getitem4 (u s) center4d);
     v_mean   := mean23 (getitem4 (v s) center4d);
     U_mean   := mean23 (getitem4 (U s) center4d);
     wls_mean := mean23 (getitem4 (wls s) center4d);
     rho_mean := mean23 (getitem4 (rho s) center4d);
     ps_mean  := mean12 (getitem3 (ps s) center3d);
     wth_mean := mean12 (getitem3 (wths s) center3d);
     wq_mean  := mean12 (getitem3 (wqs s) center3d);
     cc_mean  := mean12 (getitem3 (cc s) center3d);
     z0m_mean := mean12 (getitem3 (z0m s) center3d);
     z0h_mean := mean12 (getitem3 (z0h s) center3d);
     dtthl_sw_mean    := mean23 (getitem4 (dthldt_sw s) center4d);
     dtthl_lw_mean    := mean23 (getitem4 (dthldt_lw s) center4d);
     dtthl_sw_cs_mean := mean23 (getitem4 (dthldt_sw_cs s) center4d);
     dtthl_lw_cs_mean := mean23 (getitem4 (dthldt_lw_cs s) center4d) |}.

(** The advective tendency of the field [S], method '2nd':
    [( -u[s(0,0)] * grad2c(S[s(0,-1)], S[s(0,+1)], dx) -
       -v[s(0,0)] * grad2c(S[s(+1,0)], S[s(-1,0)], dy) ).mean(axis=(2,3))].
    The line break falls between the binary minus and a unary minus. *)
Definition advec_2nd (s : Source) (sl : Slice) (S : ndarray4) (dx dy : R)
  : result ndarray2 :=
  (gx <- fd.grad2c (getitem4 S (Slice_call sl 0 (-1)))
                   (getitem4 S (Slice_call sl 0 1)) dx ;;
   ax <- mul4 (neg4 (getitem4 (u s) (Slice_call sl 0 0))) gx ;;
   gy <- fd.grad2c (getitem4 S (Slice_call sl 1 0))
                   (getitem4 S (Slice_call sl (-1) 0)) dy ;;
   ay <- mul4 (neg4 (getitem4 (v s) (Slice_call sl 0 0))) gy ;;
   d <- sub4 ax ay ;;
   Ok (mean23 d))%result.

(** The same with method '4th'. *)
Definition advec_4th (s : Source) (sl : Slice) (S : ndarray4) (dx dy : R)
  : result ndarray2 :=
  (gx <- fd.grad4c (getitem4 S (Slice_call sl 0 (-2)))
                   (getitem4 S (Slice_call sl 0 (-1)))
                   (getitem4 S (Slice_call sl 0 1))
                   (getitem4 S (Slice_call sl 0 2)) dx ;;
   ax <- mul4 (neg4 (getitem4 (u s) (Slice_call sl 0 0))) gx ;;
   gy <- fd.grad4c (getitem4 S (Slice_call sl 2 0))
                   (getitem4 S (Slice_call sl 1 0))
                   (getitem4 S (Slice_call sl (-1) 0))
                   (getitem4 S (Slice_call sl (-2) 0)) dy ;;
   ay <- mul4 (neg4 (getitem4 (v s) (Slice_call sl 0 0))) gy ;;
   d <- sub4 ax ay ;;
   Ok (mean23 d))%result.

(** Geostrophic wind on the pressure levels, method '2nd'. *)
Definition vg_p_2nd (s : Source) (sl : Slice) (dx : R) : result ndarray2 :=
  (g <- fd.grad2c (getitem4 (z_p s) (Slice_call sl 0 (-1)))
                  (getitem4 (z_p s) (Slice_call sl 0 1)) dx ;;
   Ok (mean23 (smul4 (grav / fc s) g)))%result.

Definition ug_p_2nd (s : Source) (sl : Slice) (dy : R) : result ndarray2 :=
  (g <- fd.grad2c (getitem4 (z_p s) (Slice_call sl 1 0))
                  (getitem4 (z_p s) (Slice_call sl (-1) 0)) dy ;;
   Ok (mean23 (smul4 ((- grav) / fc s) g)))%result.

(** Geostrophic wind on the pressure levels, method '4th'. *)
Definition vg_p_4th (s : Source) (sl : Slice) (dx : R) : result ndarray2 :=
  (g <- fd.grad4c (getitem4 (z_p s) (Slice_call sl 0 (-2)))
                  (getitem4 (z_p s) (Slice_call sl 0 (-1)))
                  (getitem4 (z_p s) (Slice_call sl 0 1))
                  (getitem4 (z_p s) (Slice_call sl 0 2)) dx ;;
   Ok (mean23 (smul4 (grav / fc s) g)))%result.

Definition ug_p_4th (s : Source) (sl : Slice) (dy : R) : result ndarray2 :=
  (g <- fd.grad4c (getitem4 (z_p s) (Slice_call sl 2 0))
                  (getitem4 (z_p s) (Slice_call sl 1 0))
                  (getitem4 (z_p s) (Slice_call sl (-1) 0))
                  (getitem4 (z_p s) (Slice_call sl (-2) 0)) dy ;;
   Ok (mean23 (smul4 ((- grav) / fc s) g)))%result.

(** The branch on [method]: assigns the four advective tendencies and
    binds the local names [ug_p] and [vg_p]; with any other method
    nothing is assigned and the two names stay unbound. *)
Definition method_branch (s : Source) (sl : Slice) (method : string)
    (dx dy : R) : M (option ndarray2 * option ndarray2) :=
  (if (method =? "2nd")%string then
     a <- lift (advec_2nd s sl (thl s) dx dy) ;; assign (set_dtthl_advec a) ;;
     a <- lift (advec_2nd s sl (qt s) dx dy) ;;  assign (set_dtqt_advec a) ;;
     a <- lift (advec_2nd s sl (u s) dx dy) ;;   assign (set_dtu_advec a) ;;
     a <- lift (advec_2nd s sl (v s) dx dy) ;;   assign (set_dtv_advec a) ;;
     vg_p <- lift (vg_p_2nd s sl dx) ;;
     ug_p <- lift (ug_p_2nd s sl dy) ;;
     ret (Some ug_p, Some vg_p)
   else if (method =? "4th")%string then
     a <- lift (advec_4th s sl (thl s) dx dy) ;; assign (set_dtthl_advec a) ;;
     a <- lift (advec_4th s sl (qt s) dx dy) ;;  assign (set_dtqt_advec a) ;;
     a <- lift (advec_4th s sl (u s) dx dy) ;;   assign (set_dtu_advec a) ;;
     a <- lift (advec_4th s sl (v s) dx dy) ;;   assign (set_dtv_advec a) ;;
     vg_p <- lift (vg_p_4th s sl dx) ;;
     ug_p <- lift (ug_p_4th s sl dy) ;;
     ret (Some ug_p, Some vg_p)
   else ret (None, None))%M.

(** One row of the interpolation onto the model levels:
    [interp1d(self.p_p, g_p[t,:], fill_value='extrapolate')(self.p_mean[t,:])]. *)
Definition interp_row (s : Source) (name : string) (g_p : option ndarray2)
    (t : nat) : M ndarray1 :=
  (g <- local name g_p ;;
   y <- lift (row2 g t) ;;
   f <- lift (interp1d (p_p s) y) ;;
   e <- self ;;
   m <- attr (means e) ;;
   x <- lift (row2 (p_mean m) t) ;;
   ret (call f x))%M.

(** The body of the loop over the time steps.  [self.ug] and [self.vg]
    were created by [zeros_like] and share no memory with another
    attribute, so the in-place assignment of a row replaces the value of
    that one attribute. *)
Definition interp_step (s : Source) (ug_p vg_p : option ndarray2) (t : nat)
  : M unit :=
  (r <- interp_row s "ug_p" ug_p t ;;
   e <- self ;;
   a <- attr (ug (frc e)) ;;
   a' <- lift (setrow2 a t r) ;;
   assign (set_ug a') ;;
   r <- interp_row s "vg_p" vg_p t ;;
   e <- self ;;
   a <- attr (vg (frc e)) ;;
   a' <- lift (setrow2 a t r) ;;
   assign (set_vg a'))%M.

Definition calculate_forcings (n_av : Z) (method : string) : M unit :=
  (e <- self ;;
   let s := src e in
   (* start and end indices of the averaging domain *)
   let istart := (i s - n_av)%Z in
   let iend   := (i s + n_av + 1)%Z in
   let jstart := (j s - n_av)%Z in
   let jend   := (j s + n_av + 1)%Z in
   let center4d := (full, full, range jstart jend, range istart iend) in
   let center3d := (full, range jstart jend, range istart iend) in
   (* 1. mean values of the central averaging domain *)
   assign (set_means (window_means s center4d center3d)) ;;
   (* horizontal grid spacing *)
   dxy <- lift (grid_spacing s) ;;
   let dx := fst dxy in
   let dy := snd dxy in
   g_p <- method_branch s (mkSlice istart iend jstart jend) method dx dy ;;
   let ug_p := fst g_p in
   let vg_p := snd g_p in
   (* interpolation of the geostrophic wind onto the model levels *)
   e <- self ;;
   m <- attr (means e) ;;
   assign (set_ug (zeros_like2 (p_mean m))) ;;
   e <- self ;;
   m <- attr (means e) ;;
   assign (set_vg (zeros_like2 (p_mean m))) ;;
   for_each (seq 0 (ntime s)) (interp_step s ug_p vg_p) ;;
   (* momentum tendency coriolis *)
   e <- self ;;
   m <- attr (means e) ;;
   g <- attr (vg (frc e)) ;;
   d <- lift (sub2 (v_mean m) g) ;;
   assign (set_dtu_coriolis (smul2 (fc s) d)) ;;
   e <- self ;;
   m <- attr (means e) ;;
   g <- attr (ug (frc e)) ;;
   d <- lift (sub2 (u_mean m) g) ;;
   assign (set_dtv_coriolis (smul2 (- fc s) d)))%M.

End CalculateForcings.

End Read_ERA.

(* ================================================================== *)
(** * download_ERA5.py *)
(* ================================================================== *)

Module Download.

Section DownloadERA5.

(** The state of the file system: [os.path.isdir]. *)
Variable isdir : string -> bool.

(** What [download_ERA5] does to the settings, up to the check of the
    output directory: the header line reads 'start_date' and 'end_date'; a
    missing output directory ends the program; then the directory name is
    checked as in [__init__].  The rest of the function builds separate
    dictionaries for the download queue and only reads [settings]. *)
Definition download_ERA5 (settings : dict) : dict * result unit :=
  match dict_get settings "start_date" with
  | Raise e => (settings, Raise e)
  | Ok _ =>
      match dict_get settings "end_date" with
      | Raise e => (settings, Raise e)
      | Ok _ =>
          match dict_get settings "ERA5_path" with
          | Raise e => (settings, Raise e)
          | Ok (Str path) =>
              if negb (isdir path) then (settings, Raise SystemExit)
              else Read_ERA.ensure_trailing_slash settings
          | Ok (Int _) =>
              (* an int is taken as a file descriptor; no descriptor of the
                 process is an open directory, so this is no directory *)
              (settings, Raise SystemExit)
          | Ok _ => (settings, Raise TypeError)
          end
      end
  end.

End DownloadERA5.

End Download.

(* ================================================================== *)
(** * The quantities the specification speaks of *)
(* ================================================================== *)

Module Spec.

Import Read_ERA.

(** Stencil margin: 1 for the 2nd order, 2 for the 4th order. *)
Definition margin (method : string) : Z :=
  if (method =? "2nd")%string then 1%Z else 2%Z.

Definition supported (method : string) : bool :=
  (method =? "2nd")%string || (method =? "4th")%string.

(** Number of grid points of the averaging window in each direction. *)
Definition width (n_av : Z) : nat := Z.to_nat (2 * n_av + 1).

(** Arithmetic mean of [F] over the window of [W] x [W] grid points whose
    first row is [j0] and first column is [i0]. *)
Definition window_mean (j0 i0 W : nat) (F : nat -> nat -> R) : R :=
  (sum_upto W (fun dj => sum_upto W (fun di => F (j0 + dj)%nat (i0 + di)%nat))
   / INR (W * W))%R.

(** Centred differences at the grid point (row [j], column [i]).  Columns
    run west to east.  Rows run north to south, as in the ERA5 files and
    as the boxes [north] (rows before [j]) and [south] (rows after [j]) of
    [calculate_forcings] name them, so the derivative towards the north
    takes the row before minus the row after. *)
Definition ddx2 (S : ndarray4) (dx : R) (t k j i : nat) : R :=
  ((get4 S t k j (i + 1)%nat - get4 S t k j (i - 1)%nat) / (2 * dx))%R.

Definition ddy2 (S : ndarray4) (dy : R) (t k j i : nat) : R :=
  ((get4 S t k (j - 1)%nat i - get4 S t k (j + 1)%nat i) / (2 * dy))%R.

Definition ddx4 (S : ndarray4) (dx : R) (t k j i : nat) : R :=
  ((get4 S t k j (i - 2)%nat - 8 * get4 S t k j (i - 1)%nat
    + 8 * get4 S t k j (i + 1)%nat - get4 S t k j (i + 2)%nat) / (12 * dx))%R.

Definition ddy4 (S : ndarray4) (dy : R) (t k j i : nat) : R :=
  ((get4 S t k (j + 2)%nat i - 8 * get4 S t k (j + 1)%nat i
    + 8 * get4 S t k (j - 1)%nat i - get4 S t k (j - 2)%nat i) / (12 * dy))%R.

Definition ddx (method : string) : ndarray4 -> R -> nat -> nat -> nat -> nat -> R :=
  if (method =? "2nd")%string then ddx2 else ddx4.

Definition ddy (method : string) : ndarray4 -> R -> nat -> nat -> nat -> nat -> R :=
  if (method =? "2nd")%string then ddy2 else ddy4.

(** The centre plus the window plus [m] further grid points stays within
    the horizontal grid on all four sides. *)
Definition in_bounds (s : Source) (n_av m : Z) : Prop :=
  (0 <= n_av /\
   0 <= i s - n_av - m /\ i s + n_av + m < Z.of_nat (nlon s) /\
   0 <= j s - n_av - m /\ j s + n_av + m < Z.of_nat (nlat s))%Z.

(** All fields share the time, latitude and longitude axes; model level
    fields have [nfull] levels, the pressure level field one level per
    entry of [p_p]. *)
Definition model_shape (s : Source) (a : ndarray4) : Prop :=
  d40 a = ntime s /\ d41 a = nfull s /\ d42 a = nlat s /\ d43 a = nlon s.

Record wf (s : Source) : Prop := mkwf {
  wf_lons : len1 (lons s) = nlon s;
  wf_lats : len1 (lats s) = nlat s;
  wf_u : model_shape s (u s);
  wf_v : model_shape s (v s);
  wf_thl : model_shape s (thl s);
  wf_qt : model_shape s (qt s);
  wf_p : model_shape s (p s);
  wf_z_p : d40 (z_p s) = ntime s /\ d41 (z_p s) = len1 (p_p s) /\
           d42 (z_p s) = nlat s /\ d43 (z_p s) = nlon s
}.

(** First row and column of the averaging window. *)
Definition j0 (s : Source) (n_av : Z) : nat := Z.to_nat (j s - n_av).
Definition i0 (s : Source) (n_av : Z) : nat := Z.to_nat (i s - n_av).

(** A 2-D array of the given shape with the given entries. *)
Definition is2 (a : ndarray2) (n0 n1 : nat) (F : nat -> nat -> R) : Prop :=
  d20 a = n0 /\ d21 a = n1 /\
  forall t k, t < n0 -> k < n1 -> get2 a t k = F t k.

Definition is4 (a : ndarray4) (n0 n1 n2 n3 : nat)
    (F : nat -> nat -> nat -> nat -> R) : Prop :=
  d40 a = n0 /\ d41 a = n1 /\ d42 a = n2 /\ d43 a = n3 /\
  forall t k j i, t < n0 -> k < n1 -> j < n2 -> i < n3 ->
                  get4 a t k j i = F t k j i.

(** The averaging domain as [calculate_forcings] passes it to [Slice],
    and its slicing tuples [center4d] and [center3d]. *)
Definition the_slice (s : Source) (n_av : Z) : Slice :=
  mkSlice (i s - n_av) (i s + n_av + 1) (j s - n_av) (j s + n_av + 1).

Definition centre4 (s : Source) (n_av : Z) : slice * slice * slice * slice :=
  (full, full, range (j s - n_av) (j s + n_av + 1),
   range (i s - n_av) (i s + n_av + 1)).

Definition centre3 (s : Source) (n_av : Z) : slice * slice * slice :=
  (full, range (j s - n_av) (j s + n_av + 1),
   range (i s - n_av) (i s + n_av + 1)).

(** A grid position moved by a signed offset. *)
Definition shift (x : nat) (d : Z) : nat := Z.to_nat (Z.of_nat x + d).

(** A function of the grid position, read at the points of the window. *)
Definition on_window (s : Source) (n_av : Z)
    (F : nat -> nat -> nat -> nat -> R) : nat -> nat -> nat -> nat -> R :=
  fun t k jj ii => F t k (j0 s n_av + jj)%nat (i0 s n_av + ii)%nat.

(** Advective tendency of the scalar [S] at one grid point, as the
    specification writes it: [-u (dS/dx) - v (dS/dy)]. *)
Definition advection (method : string) (s : Source) (S : ndarray4)
    (dx dy : R) (t k j i : nat) : R :=
  (- get4 (u s) t k j i * ddx method S dx t k j i
   - get4 (v s) t k j i * ddy method S dy t k j i)%R.

(** The same expression as the code writes it, with the second product
    negated before it is subtracted. *)
Definition advection_code (method : string) (s : Source) (S : ndarray4)
    (dx dy : R) (t k j i : nat) : R :=
  (- get4 (u s) t k j i * ddx method S dx t k j i
   - (- get4 (v s) t k j i * ddy method S dy t k j i))%R.

(** Geostrophic wind on a pressure level at one grid point:
    [ug = -(g/f) dZ/dy], [vg = (g/f) dZ/dx]. *)
Definition geo_u (grav : R) (s : Source) (method : string) (dy : R)
    (t k j i : nat) : R :=
  (- (grav / fc s) * ddy method (z_p s) dy t k j i)%R.

Definition geo_v (grav : R) (s : Source) (method : string) (dx : R)
    (t k j i : nat) : R :=
  (grav / fc s * ddx method (z_p s) dx t k j i)%R.

(** Grid spacing from the neighbours of the centre. *)
Definition dx_of (dlon : R -> R -> R -> R) (s : Source) : R :=
  Rabs (dlon (get1 (lons s) (Z.to_nat (i s - 1)))
             (get1 (lons s) (Z.to_nat (i s + 1)))
             (get1 (lats s) (Z.to_nat (j s))) / 2).

Definition dy_of (dlat : R -> R -> R) (s : Source) : R :=
  Rabs (dlat (get1 (lats s) (Z.to_nat (j s + 1)))
             (get1 (lats s) (Z.to_nat (j s - 1))) / 2).

(** The object after the four advective tendencies were assigned, and
    after the model-level geostrophic wind arrays were (re)assigned. *)
Definition with_advec (a1 a2 a3 a4 : ndarray2) (e : Era) : Era :=
  set_dtv_advec a4 (set_dtu_advec a3 (set_dtqt_advec a2 (set_dtthl_advec a1 e))).

Definition with_geo (a b : ndarray2) (e : Era) : Era :=
  mkEra (src e) (means e)
    (mkForcings (dtthl_advec (frc e)) (dtqt_advec (frc e)) (dtu_advec (frc e))
       (dtv_advec (frc e)) (Some a) (Some b)
       (dtu_coriolis (frc e)) (dtv_coriolis (frc e))).

(** The samples handed to interp1d at time [t]: the pressure levels [x]
    and the values of the pressure-level array [g] on them. *)
Definition samples (x : ndarray1) (g : ndarray2) (t : nat) : list (R * R) :=
  combine (to_list1 x) (to_list1 (mk1 (len1 x) (get2 g t))).

(** The value interpolated to the mean pressure of model level [k]. *)
Definition interp_value (s : Source) (m : Means) (g : ndarray2) (t k : nat) : R :=
  call_linear (sort (samples (p_p s) g t)) (get2 (p_mean m) t k).

(** The value at [v] as [_call_linear] computes it from the samples on
    the pressure levels [l] and [l + 1] of a decreasing axis:
    [slope * (v - x_lo) + y_lo] with [slope = (y_hi - y_lo) / (x_hi - x_lo)],
    where [hi] is the level [l] and [lo] the level [l + 1]. *)
Definition on_line (x : ndarray1) (g : ndarray2) (t l : nat) (v : R) : R :=
  ((get2 g t l - get2 g t (S l)) / (get1 x l - get1 x (S l))
   * (v - get1 x (S l)) + get2 g t (S l))%R.

(** Rows [ts] of [a'] hold the values interpolated from [g]; the other
    rows are those of [a]. *)
Definition rows_done (s : Source) (m : Means) (ts : list nat)
    (g a a' : ndarray2) : Prop :=
  d20 a' = ntime s /\ d21 a' = nfull s /\
  forall t k, t < ntime s -> k < nfull s ->
    (In t ts -> get2 a' t k = interp_value s m g t k) /\
    (~ In t ts -> get2 a' t k = get2 a t k).

(** Two extents that numpy can broadcast along one axis. *)
Definition broadcastable (a b : nat) : Prop := a = b \/ a = 1 \/ b = 1.

(** A strictly decreasing axis, like the pressure levels after the flip. *)
Definition decreasing (x : ndarray1) : Prop :=
  forall a b, a < b -> b < len1 x -> (get1 x b < get1 x a)%R.

(** Orders on samples by abscissa. *)
Definition key_le (p q : R * R) : Prop := (fst p <= fst q)%R.
Definition key_lt (p q : R * R) : Prop := (fst p < fst q)%R.
Definition key_gt (p q : R * R) : Prop := (fst q < fst p)%R.

(** Shape of a pressure-level array bound to a local name, if bound. *)
Definition geo_shape (s : Source) (o : option ndarray2) : Prop :=
  forall g, o = Some g -> d20 g = ntime s /\ d21 g = len1 (p_p s).

(** The ways the interpolation loop can end. *)
Inductive loop_end : result unit -> Prop :=
| loop_done : loop_end (Ok tt)
| loop_interp : loop_end (Raise InterpError)
| loop_unbound name : loop_end (Raise (UnboundLocalError name)).

(** An [M] computation that leaves the attributes set by [__init__]
    untouched, whatever its outcome. *)
Definition preserves_src {A} (c : M A) : Prop :=
  forall e, src (fst (c e)) = src e.

(** A directory name that ends with a slash. *)
Definition ends_with_slash (path : string) : Prop :=
  exists pre, path = (pre ++ "/")%string.

End Spec.

(* ================================================================== *)
(** * A small grid for concrete runs *)
(* ================================================================== *)

Module Sample.

Import Read_ERA Spec.

Definition grav : R := 9.80665.
Definition dlon (lon1 lon2 lat : R) : R := (100000 * (lon2 - lon1))%R.
Definition dlat (lat1 lat2 : R) : R := (100000 * (lat2 - lat1))%R.

Definition num (n : nat) : R := IZR (Z.of_nat n).

Definition const4 (n1 : nat) (c : R) : ndarray4 := mk4 2 n1 5 5 (fun _ _ _ _ => c).
Definition const3 (c : R) : ndarray3 := mk3 2 5 5 (fun _ _ _ => c).

(** Two times, two model levels, three pressure levels (1000, 925 and
    850 hPa), 5 x 5 grid points one degree (100 km) apart with latitudes
    from north to south; centre (row [jc], column [ic]); uniform wind
    ([u0], [v0]); dry air, so that [thl] is [th], increasing by 1 K per
    row towards the north; Coriolis parameter [f].  Full levels are the
    means of the half levels; the fields that the functions of
    [IFS_tools] deliver ([Tv], [exn], [zh]) have sample values. *)
Definition grid (ic jc : Z) (u0 v0 f : R) : Source :=
  let theta := mk4 2 2 5 5 (fun t k j i => 300 + (4 - num j))%R in
  {| lats := mk1 5 (fun j => 4 - num j)%R;
     lons := mk1 5 (fun i => num i);
     time := mk1 2 (fun t => 1019736 + num t)%R;
     time_fc := mk1 2 (fun t => 1019736 + num t)%R;
     time_sec := mk1 2 (fun t => num t * 3600)%R;
     nfull := 2; nhalf := 3; nlat := 5; nlon := 5; ntime := 2;
     i := ic; j := jc;
     u := const4 2 u0; v := const4 2 v0; w := const4 2 0;
     T := theta; q := const4 2 0.005;
     qc := const4 2 0; qi := const4 2 0; qr := const4 2 0; qs := const4 2 0;
     Ts := const3 288; H := const3 0; wqs := const3 0; cc := const3 0;
     z0m := const3 0.1; z0h := const3 0.01;
     z_p := mk4 2 3 5 5
              (fun t l j i => 100 + 650 * num l + 10 * (4 - num j) + 5 * num i)%R;
     p_p := mk1 3 (fun l => 100000 - 7500 * num l)%R;
     ql := const4 2 0; qt := const4 2 0.005; ps := const3 101000;
     Tv := const4 2 289;
     ph := mk4 2 3 5 5
             (fun t k j i => match k with 0 => 101000 | 1 => 84000 | _ => 70000 end)%R;
     zh := mk4 2 3 5 5 (fun t k j i => 1400 * num k)%R;
     p := mk4 2 2 5 5 (fun t k j i => match k with 0 => 92500 | _ => 77000 end)%R;
     z := mk4 2 2 5 5 (fun t k j i => 700 + 1400 * num k)%R;
     exn := const4 2 1; th := theta; thl := theta;
     rho := const4 2 1.2; wls := const4 2 0;
     U := const4 2 (sqrt (u0 * u0 + v0 * v0));
     Tvs := const3 289; rhos := const3 1.2; exns := const3 1; wths := const3 0;
     fc := f;
     dthldt_sw := const4 2 0; dthldt_lw := const4 2 0;
     dthldt_sw_cs := const4 2 0; dthldt_lw_cs := const4 2 0 |}.

(** Centre in the middle of the grid, southerly wind of 1 m/s. *)
Definition inner : Source := grid 2 2 0 1 0.0001.

(** The same with a westerly component of 3 m/s. *)
Definition inner_uv : Source := grid 2 2 3 1 0.0001.

(** The same with the Coriolis parameter of the latitude of Cabauw. *)
Definition at_cabauw : Source :=
  grid 2 2 0 1 (2 * 7.2921e-5 * sin (deg2rad 51.971)).

(** Centre in the first and in the last column. *)
Definition west_edge : Source := grid 0 2 0 1 0.0001.
Definition east_edge : Source := grid 4 2 0 1 0.0001.

(** [calculate_forcings(n_av, method)] on the freshly loaded object. *)
Definition run (s : Source) (n_av : Z) (method : string) : Era * result unit :=
  calculate_forcings grav dlon dlat n_av method (loaded s).

(** The object [inner] after the window means for [n_av = 1] were set. *)
Definition inner_means : Means :=
  window_means inner (centre4 inner 1) (centre3 inner 1).

Definition inner_averaged : Era := set_means inner_means (loaded inner).

(** A pressure-level array: 10, 8 and 6 m/s on the three levels. *)
Definition wind_profile : ndarray2 := mk2 2 3 (fun t l => 10 - 2 * num l)%R.

(** Hourly analysis times, and forecast times that are one hour late. *)
Definition an_times : ndarray1 := mk1 3 (fun t => 1019736 + num t)%R.
Definition late_times : ndarray1 := mk1 3 (fun t => 1019737 + num t)%R.

(** Forecast times that are one hour late and one record short. *)
Definition short_times : ndarray1 := mk1 2 (fun t => 1019737 + num t)%R.

(** The settings of the example at the end of read_ERA5.py, for a given
    output directory. *)
Definition settings_of (path : string) : dict :=
  [ ("central_lat", Float 51.971); ("central_lon", Float 4.927);
    ("area_size", Int 2); ("case_name", Str "cabauw");
    ("ERA5_path", Str path);
    ("start_date", Datetime 1019736); ("end_date", Datetime 1019760) ]%string.

(** Stand-ins for the functions of [time_tools]: dates are already full
    hours, and one analysis and one forecast day are needed. *)
Definition lower_to_hour (d : value) : result value :=
  match d with
  | Datetime h => Ok (Datetime h)
  | _ => Raise AttributeError
  end.

Definition required_days (start end_ : value) : result (list value) :=
  Ok [start].

Definition init_settings : dict -> dict * result unit :=
  Read_ERA.init_settings lower_to_hour required_days required_days.

(** A file system with every directory, and one with none. *)
Definition all_dirs (path : string) : bool := true.
Definition no_dirs (path : string) : bool := false.

End Sample.

(* ================================================================== *)
(** * Python: loops, dictionary updates *)
(* ================================================================== *)

Module PyLoop.

(** [for a in l: body] on a state that the body updates: the loop stops at
    the first raise. *)
Fixpoint for_in {A S : Type} (l : list A) (body : A -> S -> result S) (st : S)
  : result S :=
  match l with
  | [] => Ok st
  | a :: r => (st' <- body a st ;; for_in r body st')%result
  end.

(** [d.update(other)]: every key of [other], in its order, is assigned. *)
Definition dict_update (d other : dict) : dict :=
  fold_left (fun acc kv => dict_set acc (fst kv) (snd kv)) other d.

(** [x == 'literal'] for a value of the settings. *)
Definition eq_str (x : value) (s : string) : bool :=
  match x with
  | Str t => (t =? s)%string
  | _ => false
  end.

End PyLoop.

Import PyLoop.

(* ================================================================== *)
(** * numpy: functions used at load *)
(* ================================================================== *)

Module NpLoad.

Definition map1 (f : R -> R) (a : ndarray1) : ndarray1 :=
  mk1 (len1 a) (fun k => f (get1 a k)).

(** [a[s]] with one slice on a 1-D array: a view, never an error. *)
Definition getitem1 (a : ndarray1) (s : slice) : ndarray1 :=
  mk1 (extent (len1 a) s) (fun k => get1 a (lo (len1 a) s + k)).

(** Position of the first minimum among the first [n] values of [f]: a
    later value replaces the running minimum only when it is smaller. *)
Fixpoint argmin_upto (n : nat) (f : nat -> R) : nat :=
  match n with
  | O => 0
  | S m => let k := argmin_upto m f in
           if Rlt_dec (f m) (f k) then m else k
  end.

(** [a.argmin()]: the position of the first occurrence of the minimum;
    [None] is the ValueError that numpy raises for an empty array. *)
Definition argmin (a : ndarray1) : option nat :=
  if len1 a =? 0 then None else Some (argmin_upto (len1 a) (get1 a)).

(** [np.flip(a, axis=0)] on a 1-D array and [np.flip(a, axis=1)] on a 4-D
    array: the same entries in reverse order along that axis. *)
Definition flip0 (a : ndarray1) : ndarray1 :=
  mk1 (len1 a) (fun k => get1 a (len1 a - 1 - k)).

Definition flip1 (a : ndarray4) : ndarray4 :=
  mk4 (d40 a) (d41 a) (d42 a) (d43 a)
      (fun t k j i => get4 a t (d41 a - 1 - k) j i).

Definition div4 := binop4 Rdiv.

(** [np.zeros((n0, n1, n2, n3))] *)
Definition zeros4 (n0 n1 n2 n3 : nat) : ndarray4 :=
  mk4 n0 n1 n2 n3 (fun _ _ _ _ => 0%R).

(** [a[t, j, i]] with non-negative integers on a 3-D array. *)
Definition item3 (a : ndarray3) (t j i : nat) : result R :=
  if (t <? d30 a) && (j <? d31 a) && (i <? d32 a) then Ok (get3 a t j i)
  else Raise IndexError.

(** [a[t, :, j, i]] with non-negative integers: the column of levels. *)
Definition col4 (a : ndarray4) (t j i : nat) : result ndarray1 :=
  if (t <? d40 a) && (j <? d42 a) && (i <? d43 a)
  then Ok (mk1 (d41 a) (fun k => get4 a t k j i))
  else Raise IndexError.

(** [a[t, :, j, i] = v]: in-place assignment of one column; [v] of extent
    1 is repeated along the column. *)
Definition setcol4 (a : ndarray4) (t j i : nat) (v : ndarray1)
  : result ndarray4 :=
  if (t <? d40 a) && (j <? d42 a) && (i <? d43 a) then
    if (len1 v =? d41 a) || (len1 v =? 1) then
      Ok (mk4 (d40 a) (d41 a) (d42 a) (d43 a)
            (fun t' k j' i' =>
               if (t' =? t) && (j' =? j) && (i' =? i)
               then get1 v (bidx (len1 v) k)
               else get4 a t' k j' i'))
    else Raise BroadcastError
  else Raise IndexError.

End NpLoad.

Import NpLoad.

(* ================================================================== *)
(** * read_ERA5.py: what __init__ reads and derives *)
(* ================================================================== *)

Module Load.

(** [np.abs(a - x).argmin()]: the position on the axis [a] nearest to
    [x] (the time indices [t0_an], [t1_an], [t0_fc], [t1_fc] and the grid
    point [self.i], [self.j]). *)
Definition nearest (a : ndarray1) (x : R) : option nat :=
  argmin (map1 Rabs (map1 (fun v => v - x)%R a)).

(** The time slices [np.s_[t0:t1+1]]. *)
Definition time_slice (t0 t1 : nat) : slice :=
  range (Z.of_nat t0) (Z.of_nat t1 + 1).

(** The time axes of the object: the records of the model-level analysis
    and forecast files selected by the two time slices, followed by
    [time_sec] and the check that they are synced (see
    [Read_ERA.init_times]). *)
Definition read_times (fma_time fmf_time : ndarray1) (t_an t_fc : slice)
  : result ndarray1 :=
  Read_ERA.init_times (getitem1 fma_time t_an) (getitem1 fmf_time t_fc).

(** A model-level or pressure-level field:
    [np.flip(f.variables[name][t_an, :, :, :], axis=1)], the height axis
    reversed from top-to-bottom to bottom-to-top. *)
Definition read_levels (var : ndarray4) (t_an : slice) : ndarray4 :=
  flip1 (getitem4 var (t_an, full, full, full)).

(** [self.p_p = np.flip(fpa.variables['level'][:], axis=0) * 100.] *)
Definition read_p_p (level : ndarray1) : ndarray1 :=
  map1 (fun x => x * 100)%R (flip0 (getitem1 level full)).

(** The radiative tendencies: read from the forecast file with the
    analysis time slice, [np.flip(fmf.variables[name][t_an, :, :, :], axis=1)],
    and converted from T to thl, [dTdt / self.exn]. *)
Definition read_dthldt (fmf_var : ndarray4) (t_an : slice) (exn : ndarray4)
  : result ndarray4 :=
  div4 (read_levels fmf_var t_an) exn.

Section HalfLevels.

(** Functions of [IFS_tools], which is not among the sources: the half
    level pressures for a surface pressure, and the half level heights for
    a column of half level pressures and of virtual temperatures. *)
Variable calc_half_level_pressure : R -> ndarray1.
Variable calc_half_level_Zg : ndarray1 -> ndarray1 -> ndarray1.

(** The body of the loops over time, latitude and longitude: the columns
    of [self.ph] and [self.zh] at one time and grid point. *)
Definition half_level_column (ps : ndarray3) (Tv : ndarray4) (t la lo : nat)
    (st : ndarray4 * ndarray4) : result (ndarray4 * ndarray4) :=
  let '(ph, zh) := st in
  (x <- item3 ps t la lo ;;
   ph <- setcol4 ph t la lo (calc_half_level_pressure x) ;;
   ph_col <- col4 ph t la lo ;;
   Tv_col <- col4 Tv t la lo ;;
   zh <- setcol4 zh t la lo (calc_half_level_Zg ph_col Tv_col) ;;
   Ok (ph, zh))%result.

(** Half level pressure and height: two arrays of zeros, filled column by
    column. *)
Definition init_half_levels (ntime nhalf nlat nlon : nat)
    (ps : ndarray3) (Tv : ndarray4) : result (ndarray4 * ndarray4) :=
  for_in (seq 0 ntime)
    (fun t st =>
       for_in (seq 0 nlat)
         (fun la st =>
            for_in (seq 0 nlon) (fun lo st => half_level_column ps Tv t la lo st)
                   st)
         st)
    (zeros4 ntime nhalf nlat nlon, zeros4 ntime nhalf nlat nlon).

End HalfLevels.

Section Derived.

(** Constants of [IFS_tools], which is not among the sources. *)
Variables Lv cpd Rd grav : R.

(** [self.ql = self.qc + self.qi + self.qr + self.qs] *)
Definition init_ql (qc qi qr qs : ndarray4) : result ndarray4 :=
  (a <- add4 qc qi ;; b <- add4 a qr ;; add4 b qs)%result.

(** [self.qt = self.q + self.ql] *)
Definition init_qt (q ql : ndarray4) : result ndarray4 := add4 q ql.

(** [self.th = (self.T / self.exn)] *)
Definition init_th (T exn : ndarray4) : result ndarray4 := div4 T exn.

(** [self.thl = self.th - IFS_tools.Lv / (IFS_tools.cpd * self.exn) * self.ql] *)
Definition init_thl (th exn ql : ndarray4) : result ndarray4 :=
  (c <- mul4 (map4 (fun x => Lv / x)%R (smul4 cpd exn)) ql ;;
   sub4 th c)%result.

(** [self.rho = self.p / (IFS_tools.Rd * self.Tv)] *)
Definition init_rho (p Tv : ndarray4) : result ndarray4 :=
  div4 p (smul4 Rd Tv).

(** [self.wls = -self.w / (self.rho * IFS_tools.grav)] *)
Definition init_wls (w rho : ndarray4) : result ndarray4 :=
  div4 (neg4 w) (map4 (fun x => x * grav)%R rho).

(** [self.U = (self.u**2. + self.v**2)**0.5]: the power with exponent 2
    is the square, the power with exponent 0.5 of a sum of squares its
    square root. *)
Definition init_U (u v : ndarray4) : result ndarray4 :=
  (a <- add4 (map4 Rsqr u) (map4 Rsqr v) ;; Ok (map4 sqrt a))%result.

End Derived.

End Load.

(* ================================================================== *)
(** * download_ERA5.py: the download queue and the requests *)
(* ================================================================== *)

Module Ecmwf.

(** Decimal digits of a non-negative int, and the format specification
    [0wd]: the digits, padded with zeros on the left to [w] characters. *)
Fixpoint digits (fuel n : nat) (acc : string) : string :=
  match fuel with
  | O => acc
  | S f =>
      let acc' := String (ascii_of_nat (48 + n mod 10)) acc in
      if n <? 10 then acc' else digits f (n / 10) acc'
  end.

Definition str_of_nat (n : nat) : string := digits (S n) n "".

Fixpoint zeros (k : nat) : string :=
  match k with
  | O => ""
  | S k' => String "0" (zeros k')
  end.

Definition format_0d (w n : nat) : string :=
  let s := str_of_nat n in (zeros (w - String.length s) ++ s)%string.

(** ["{0:04d}-{1:02d}-{2:02d}".format(year, month, day)] *)
Definition format_date (year month day : nat) : string :=
  (format_0d 4 year ++ "-" ++ format_0d 2 month ++ "-" ++ format_0d 2 day)%string.

Section Requests.

(** The calendar attributes of a datetime object, and the file naming
    convention [ERA5_file_path] of the module [conventions], which is not
    among the sources. *)
Variables year month day : R -> nat.
Variable ERA5_file_path : nat -> nat -> nat -> value -> value -> value -> string.

(** [date.year, date.month, date.day] *)
Definition date_attrs (date : value) : result (nat * nat * nat) :=
  match date with
  | Datetime h => Ok (year h, month h, day h)
  | _ => Raise AttributeError
  end.

(** ** download_ERA5_file *)

(** Python's [+] and [-] on values of the settings, and the text of
    ["{}/{}/{}/{}".format(...)] (floating-point sums and the decimal form
    of a float are not modelled). *)
Variables add sub : value -> value -> result value.
Variable format_area : value -> value -> value -> value -> string.

(** The request settings shared by all file types. *)
Definition shared_request (settings : dict) (nc_file : string) : result dict :=
  (d <- dict_get settings "date" ;; ymd <- date_attrs d ;;
   let '(y, m, dd) := ymd in
   lat <- dict_get settings "lat" ;; size <- dict_get settings "size" ;;
   north <- add lat size ;;
   lon <- dict_get settings "lon" ;; size <- dict_get settings "size" ;;
   west <- sub lon size ;;
   lat <- dict_get settings "lat" ;; size <- dict_get settings "size" ;;
   south <- sub lat size ;;
   lon <- dict_get settings "lon" ;; size <- dict_get settings "size" ;;
   east <- add lon size ;;
   Ok [ ("class", Str "ea");
        ("dataset", Str "era5");
        ("date", Str (format_date y m dd));
        ("expver", Str "1");
        ("stream", Str "oper");
        ("grid", Str "0.3/0.3");
        ("area", Str (format_area north west south east));
        ("format", Str "netcdf");
        ("target", Str nc_file) ])%result%string.

Definition model_levels : string :=
  "1/2/3/4/5/6/7/8/9/10/11/12/13/14/15/16/17/18/19/20/21/22/23/24/25/26/27/28/29/30/31/32/33/34/35/36/37/38/39/40/41/42/43/44/45/46/47/48/49/50/51/52/53/54/55/56/57/58/59/60/61/62/63/64/65/66/67/68/69/70/71/72/73/74/75/76/77/78/79/80/81/82/83/84/85/86/87/88/89/90/91/92/93/94/95/96/97/98/99/100/101/102/103/104/105/106/107/108/109/110/111/112/113/114/115/116/117/118/119/120/121/122/123/124/125/126/127/128/129/130/131/132/133/134/135/136/137".

Definition all_hours : string :=
  "00:00:00/01:00:00/02:00:00/03:00:00/04:00:00/05:00:00/06:00:00/07:00:00/08:00:00/09:00:00/10:00:00/11:00:00/12:00:00/13:00:00/14:00:00/15:00:00/16:00:00/17:00:00/18:00:00/19:00:00/20:00:00/21:00:00/22:00:00/23:00:00".

(** The settings added for the level type and the analysis or forecast. *)
Definition model_an_request : dict :=
  [ ("levtype", Str "ml");
    ("levelist", Str model_levels);
    ("param", Str "75/76/129/130/131/132/133/135/152/246/247/248");
    ("time", Str all_hours);
    ("type", Str "an") ]%string.

Definition model_fc_request : dict :=
  [ ("levtype", Str "ml");
    ("levelist", Str model_levels);
    ("param", Str "129/152/235001/235002/235003/235004");
    ("step", Str "0/1/2/3/4/5/6/7/8/9/10/11");
    ("time", Str "06:00:00/18:00:00");
    ("type", Str "fc") ]%string.

Definition pressure_an_request : dict :=
  [ ("levtype", Str "pl");
    ("levelist", Str "1/2/3/5/7/10/20/30/50/70/100/125/150/175/200/225/250/300/350/400/450/500/550/600/650/700/750/775/800/825/850/875/900/925/950/975/1000");
    ("param", Str "129.128");
    ("time", Str all_hours);
    ("type", Str "an") ]%string.

Definition surface_an_request : dict :=
  [ ("levtype", Str "sfc");
    ("param", Str "78.128/79.128/89.228/90.228/134.128/136.128/137.128/151.128/159.128/164.128/165.128/166.128/167.128/168.128/186.128/187.128/188.128/229.128/230.128/231.128/232.128/235.128/244.128/245.128/246.228/247.228/34.128/35.128/36.128/37.128/38.128/39.128/40.128/41.128/42.128/139.128/170.128/172.128/183.128/236.128");
    ("time", Str all_hours);
    ("type", Str "an") ]%string.

(** The chain of comparisons of [settings['ftype']]: the request is
    updated for the four known file types and left as it is otherwise. *)
Definition update_for_ftype (settings request : dict) : result dict :=
  (ftype <- dict_get settings "ftype" ;;
   if eq_str ftype "model_an" then Ok (dict_update request model_an_request)
   else
     ftype <- dict_get settings "ftype" ;;
     if eq_str ftype "model_fc" then Ok (dict_update request model_fc_request)
     else
       ftype <- dict_get settings "ftype" ;;
       if eq_str ftype "pressure_an"
       then Ok (dict_update request pressure_an_request)
       else
         ftype <- dict_get settings "ftype" ;;
         if eq_str ftype "surface_an"
         then Ok (dict_update request surface_an_request)
         else Ok request)%result.

(** The name of the NetCDF file of a queue entry. *)
Definition nc_file_of (settings : dict) : result string :=
  (d <- dict_get settings "date" ;; ymd <- date_attrs d ;;
   let '(y, m, dd) := ymd in
   path <- dict_get settings "path" ;;
   case <- dict_get settings "case" ;;
   ftype <- dict_get settings "ftype" ;;
   Ok (ERA5_file_path y m dd path case ftype))%result.

(** What [sys.stdout] refers to. *)
Inductive stream : Type :=
| Terminal
| LogFile (name : string).

(** How the function ends: besides the Python exceptions of the settings
    handling, opening the log file can fail in the operating system and
    the api can fail. *)
Inductive failure : Type :=
| Exception (e : exception)
| OSError
| APIError.

Inductive outcome : Type :=
| Done
| Failed (f : failure).

Definition of_result {A} (r : result A) : A + failure :=
  match r with
  | Ok a => inl a
  | Raise e => inr (Exception e)
  end.

(** The file system and the ECMWF api: whether [open(name, 'w')]
    succeeds, whether [ECMWFDataServer()] can be created, and what
    [server.retrieve(request)] does. *)
Variable can_open : string -> bool.
Variable server_created : bool.
Variable retrieve : dict -> outcome.

(** [download_ERA5_file(settings)], from the value of [sys.stdout] before
    the call to its value after the call. *)
Definition download_ERA5_file (settings : dict) (stdout : stream)
  : stream * outcome :=
  match of_result (_ <- dict_get settings "date" ;;
                   _ <- dict_get settings "ftype" ;;
                   nc_file_of settings)%result with
  | inr f => (stdout, Failed f)
  | inl nc_file =>
      let log_file := (nc_file ++ ".log")%string in
      let old_stdout := stdout in
      if negb (can_open log_file) then (stdout, Failed OSError)
      else
        let stdout := LogFile log_file in
        if negb server_created then (stdout, Failed APIError)
        else
          match of_result (request <- shared_request settings nc_file ;;
                           update_for_ftype settings request)%result with
          | inr f => (stdout, Failed f)
          | inl request =>
              match retrieve request with
              | Failed f => (stdout, Failed f)
              | Done => (old_stdout, Done)
              end
          end
  end.

(** ** download_ERA5 *)

Variables isdir isfile : string -> bool.

(** Functions of the module [time_tools], which is not among the sources. *)
Variable lower_to_hour : value -> result value.
Variable get_required_analysis : value -> value -> result (list value).
Variable get_required_forecast : value -> value -> result (list value).

(** [settings_tmp = download_settings.copy()] followed by
    [settings_tmp.update({'date': date, 'ftype': ftype})]: the update acts
    on the copy, [download_settings] itself stays as it is. *)
Definition queue_entry (download_settings : dict) (date : value) (ftype : string)
  : dict :=
  dict_update download_settings [("date", date); ("ftype", Str ftype)]%string.

(** The body of the loops over dates and file types: a file that is not
    found locally is appended to the download queue. *)
Definition check_local (settings download_settings : dict)
    (date : value) (ftype : string) (queue : list dict) : result (list dict) :=
  (ymd <- date_attrs date ;;
   let '(y, m, dd) := ymd in
   path <- dict_get settings "ERA5_path" ;;
   case <- dict_get settings "case_name" ;;
   let file_name := ERA5_file_path y m dd path case (Str ftype) in
   if isfile file_name then Ok queue
   else Ok (queue ++ [queue_entry download_settings date ftype]))%result.

Definition check_dates (settings download_settings : dict)
    (dates : list value) (ftypes : list string) (queue : list dict)
  : result (list dict) :=
  for_in dates
    (fun date q =>
       for_in ftypes (check_local settings download_settings date) q)
    queue.

(** [download_ERA5(settings)] up to the call of [pool.map]: the caller's
    dictionary as the function leaves it, and the download queue that is
    handed to the pool of download processes. *)
Definition download_queue (settings : dict) : dict * result (list dict) :=
  match Download.download_ERA5 isdir settings with
  | (settings, Raise e) => (settings, Raise e)
  | (settings, Ok _) =>
      (settings,
       (d <- dict_get settings "start_date" ;; start <- lower_to_hour d ;;
        d <- dict_get settings "end_date" ;; end_ <- lower_to_hour d ;;
        an_dates <- get_required_analysis start end_ ;;
        fc_dates <- get_required_forecast start end_ ;;
        lat <- dict_get settings "central_lat" ;;
        lon <- dict_get settings "central_lon" ;;
        size <- dict_get settings "area_size" ;;
        path <- dict_get settings "ERA5_path" ;;
        case <- dict_get settings "case_name" ;;
        let download_settings :=
          [ ("lat", lat); ("lon", lon); ("size", size); ("path", path);
            ("case", case) ]%string in
        queue <- check_dates settings download_settings an_dates
                   ["model_an"; "pressure_an"; "surface_an"]%string [] ;;
        check_dates settings download_settings fc_dates
          ["model_fc"]%string queue)%result)
  end.

End Requests.

End Ecmwf.

(* ================================================================== *)
(** * Predicates of the statements about the code *)
(* ================================================================== *)

Module Props.

Import Read_ERA Spec.

(** Orders of a coordinate axis. *)
Definition nondecreasing (a : ndarray1) : Prop :=
  forall m n, m <= n -> n < len1 a -> (get1 a m <= get1 a n)%R.

Definition increasing (a : ndarray1) : Prop :=
  forall m n, m < n -> n < len1 a -> (get1 a m < get1 a n)%R.

(** Distance of the entry at position [k] of the axis [a] from [x]. *)
Definition distance (a : ndarray1) (x : R) (k : nat) : R :=
  Rabs (get1 a k - x).

(** A 1-D array of the given length with the given entries. *)
Definition is1 (a : ndarray1) (n : nat) (F : nat -> R) : Prop :=
  len1 a = n /\ forall k, k < n -> get1 a k = F k.

(** Two arrays of the same shape. *)
Definition same_shape4 (a b : ndarray4) : Prop :=
  d40 a = d40 b /\ d41 a = d41 b /\ d42 a = d42 b /\ d43 a = d43 b.

(** A property of the entries of an array. *)
Definition all4 (P : R -> Prop) (a : ndarray4) : Prop :=
  forall t k j i, t < d40 a -> k < d41 a -> j < d42 a -> i < d43 a ->
                  P (get4 a t k j i).

(** A 3-D field on the time, latitude and longitude axes of the object. *)
Definition surface_shape (s : Source) (a : ndarray3) : Prop :=
  d30 a = ntime s /\ d31 a = nlat s /\ d32 a = nlon s.

(** An [M] computation that leaves the window means untouched, whatever
    its outcome. *)
Definition preserves_means {A} (c : M A) : Prop :=
  forall e, means (fst (c e)) = means e.



(** The file types of the analysis files, and the files that a period
    with the analysis days [an] and the forecast days [fc] needs, in the
    order of the loops of [download_ERA5]. *)
Definition analysis_ftypes : list string :=
  ["model_an"; "pressure_an"; "surface_an"]%string.

Definition known_ftypes : list string :=
  ["model_an"; "model_fc"; "pressure_an"; "surface_an"]%string.

Definition required_files (an fc : list R) : list (R * string) :=
  flat_map (fun h => map (pair h) analysis_ftypes) an
  ++ map (fun h => (h, "model_fc"%string)) fc.

(** The keys that the update for a file type assigns. *)
Definition ftype_keys : list string :=
  ["levtype"; "levelist"; "param"; "step"; "time"; "type"]%string.

(** The number written by a string of decimal digits. *)
Definition decimal_value (s : string) : N :=
  fold_left (fun n c => 10 * n + (N_of_ascii c - 48))%N
            (list_ascii_of_string s) 0%N.

(** The positions visited by the loops over time, latitude and longitude,
    in their order. *)
Definition grid_points (ntime nlat nlon : nat) : list (nat * nat * nat) :=
  flat_map (fun t =>
              flat_map (fun la => map (fun lo => (t, la, lo)) (seq 0 nlon))
                       (seq 0 nlat))
           (seq 0 ntime).

(** An array with the given four extents. *)
Definition has_shape4 (a : ndarray4) (n0 n1 n2 n3 : nat) : Prop :=
  d40 a = n0 /\ d41 a = n1 /\ d42 a = n2 /\ d43 a = n3.

End Props.

(* ================================================================== *)
(** * Data for concrete runs of the load and of the download *)
(* ================================================================== *)

Module Examples.

Import Read_ERA Spec.

(** The time axis of a file with six hourly records. *)
Definition file_times : ndarray1 :=
  mk1 6 (fun t => 1019736 + Sample.num t)%R.

(** The pressure levels of a file, in hPa, from low to high pressure. *)
Definition file_levels : ndarray1 :=
  mk1 3 (fun l => 850 + 75 * Sample.num l)%R.

(** A forecast field with three records, and the Exner function of an
    object with two times. *)
Definition forecast_field : ndarray4 :=
  mk4 3 2 5 5 (fun t k j i => 0.0001 * Sample.num t + 0.00001 * Sample.num k)%R.

Definition exner : ndarray4 := Sample.const4 2 0.97.

(** Thermodynamic fields of one shape. *)
Definition temperature : ndarray4 := Sample.const4 2 288.
Definition humidity : ndarray4 := Sample.const4 2 0.005.
Definition cloud_water : ndarray4 := Sample.const4 2 0.001.
Definition no_water : ndarray4 := Sample.const4 2 0.
Definition pressure : ndarray4 := Sample.const4 2 90000.
Definition virtual_temperature : ndarray4 := Sample.const4 2 289.
Definition rising : ndarray4 := Sample.const4 2 (-0.1).



(** The object after an earlier call with another window and method. *)
Definition used : Era := fst (Sample.run Sample.inner 0 "4th").

(** Stand-ins for the calendar, for the file naming convention and for
    the file system: every date is the first of May 2016, a file is named
    by directory, case and file type, and the model-level analysis is the
    only file found locally. *)
Definition year (h : R) : nat := 2016.
Definition month (h : R) : nat := 5.
Definition day (h : R) : nat := 1.

Definition ERA5_file_path (y m d : nat) (path case ftype : value) : string :=
  match path, case, ftype with
  | Str p, Str c, Str f => (p ++ c ++ "_" ++ f ++ ".nc")%string
  | _, _, _ => ""%string
  end.

Definition isfile (name : string) : bool :=
  (name =? "/data/ERA5/cabauw_model_an.nc")%string.

Definition settings : dict := Sample.settings_of "/data/ERA5/".

Definition base : dict :=
  [ ("lat", Float 51.971); ("lon", Float 4.927); ("size", Int 2);
    ("path", Str "/data/ERA5/"); ("case", Str "cabauw") ]%string.

Definition entry (ftype : string) : dict :=
  List.app base [("date"%string, Datetime 1019736); ("ftype"%string, Str ftype)].

Definition queue : list dict :=
  [entry "pressure_an"; entry "surface_an"; entry "model_fc"]%string.

Definition download_queue : dict -> dict * result (list dict) :=
  Ecmwf.download_queue year month day ERA5_file_path Sample.all_dirs isfile
    Sample.lower_to_hour Sample.required_days Sample.required_days.

(** Settings whose start date is a text, not a datetime object, with an
    output directory written without the final slash. *)
Definition settings_text_date : dict :=
  [ ("central_lat", Float 51.971); ("central_lon", Float 4.927);
    ("area_size", Int 2); ("case_name", Str "cabauw");
    ("ERA5_path", Str "/data/ERA5");
    ("start_date", Str "2016-05-01"); ("end_date", Datetime 1019760) ]%string.

(** Stand-ins for the functions of [IFS_tools]: three half levels. *)
Definition calc_half_level_pressure (x : R) : ndarray1 :=
  mk1 3 (fun k => x - 15000 * Sample.num k)%R.

Definition calc_half_level_Zg (ph_col Tv_col : ndarray1) : ndarray1 :=
  mk1 3 (fun k => 1400 * Sample.num k)%R.

End Examples.

(* ================================================================== *)
(** * Properties *)
(* ================================================================== *)

Import Py Np interpolate Read_ERA Spec.

(** ** Slices, broadcasting and sums *)

Lemma adjust_inside n k : (0 <= k <= Z.of_nat n)%Z -> adjust n k = Z.to_nat k.
Proof.
  intros H. unfold adjust.
  destruct (k <? 0)%Z eqn:E; [apply Z.ltb_lt in E; lia|].
  f_equal. lia.
Qed.

Lemma index_inside n k : (0 <= k < Z.of_nat n)%Z -> index n k = Ok (Z.to_nat k).
Proof.
  intros H. unfold index.
  destruct (Z.leb_spec 0 k); [|lia]. destruct (Z.ltb_spec k (Z.of_nat n)); [|lia].
  reflexivity.
Qed.

Lemma index_outside n k : (Z.of_nat n <= k)%Z -> index n k = Raise IndexError.
Proof.
  intros H. unfold index.
  destruct (Z.ltb_spec k (Z.of_nat n)); [lia|]. rewrite andb_false_r.
  destruct (Z.ltb_spec k 0); [lia|]. now rewrite andb_false_r.
Qed.

Lemma index_last n : 0 < n -> index n (-1) = Ok (n - 1).
Proof.
  intros H. unfold index. cbn [Z.leb Z.compare andb].
  destruct (Z.leb_spec (- Z.of_nat n) (-1)); [|lia]. cbn [Z.ltb Z.compare andb].
  f_equal. lia.
Qed.

Lemma item1_inside a k :
  (0 <= k < Z.of_nat (len1 a))%Z -> item1 a k = Ok (get1 a (Z.to_nat k)).
Proof. intros H. unfold item1. now rewrite index_inside. Qed.

Lemma bidx_lt d i : i < d -> bidx d i = i.
Proof.
  intros H. unfold bidx. destruct (d =? 1) eqn:E; [|reflexivity].
  apply Nat.eqb_eq in E. lia.
Qed.

Lemma bdim_same n : bdim n n = Some n.
Proof. unfold bdim. now rewrite Nat.eqb_refl. Qed.

Lemma sum_upto_ext n f g :
  (forall m, m < n -> f m = g m) -> sum_upto n f = sum_upto n g.
Proof.
  induction n as [|n IH]; intros H; simpl; [reflexivity|].
  rewrite IH by (intros; apply H; lia). rewrite H by lia. reflexivity.
Qed.

Lemma shift_p1 x : shift x 1 = x + 1.  Proof. unfold shift; lia. Qed.
Lemma shift_m1 x : shift x (-1) = x - 1.  Proof. unfold shift; lia. Qed.
Lemma shift_p2 x : shift x 2 = x + 2.  Proof. unfold shift; lia. Qed.
Lemma shift_m2 x : shift x (-2) = x - 2.  Proof. unfold shift; lia. Qed.
Lemma shift_0 x : shift x 0 = x.  Proof. unfold shift; lia. Qed.

(** ** Arrays of a known shape with known entries *)

Lemma is4_binop f a b n0 n1 n2 n3 F G :
  is4 a n0 n1 n2 n3 F -> is4 b n0 n1 n2 n3 G ->
  exists c, binop4 f a b = Ok c /\
            is4 c n0 n1 n2 n3 (fun t k j i => f (F t k j i) (G t k j i)).
Proof.
  intros (a0 & a1 & a2 & a3 & Ha) (b0 & b1 & b2 & b3 & Hb).
  unfold binop4. rewrite a0, a1, a2, a3, b0, b1, b2, b3, !bdim_same.
  eexists. split; [reflexivity|].
  repeat split; simpl. intros t k j i Ht Hk Hj Hi.
  rewrite !bidx_lt by assumption. now rewrite Ha, Hb.
Qed.

Lemma is4_map f a n0 n1 n2 n3 F :
  is4 a n0 n1 n2 n3 F ->
  is4 (map4 f a) n0 n1 n2 n3 (fun t k j i => f (F t k j i)).
Proof.
  intros (a0 & a1 & a2 & a3 & Ha). repeat split; simpl; try assumption.
  intros. now rewrite Ha.
Qed.

Lemma is2_mean23 a n0 n1 n2 n3 F :
  is4 a n0 n1 n2 n3 F ->
  is2 (mean23 a) n0 n1
      (fun t k => (sum_upto n2 (fun j => sum_upto n3 (fun i => F t k j i))
                   / INR (n2 * n3))%R).
Proof.
  intros (a0 & a1 & a2 & a3 & Ha). repeat split; simpl; try assumption.
  intros t k Ht Hk. rewrite a2, a3. f_equal.
  apply sum_upto_ext; intros j Hj. apply sum_upto_ext; intros i Hi.
  now apply Ha.
Qed.

Lemma is2_window_mean a n0 n1 W j0 i0 F :
  is4 a n0 n1 W W (fun t k jj ii => F t k (j0 + jj) (i0 + ii)) ->
  is2 (mean23 a) n0 n1 (fun t k => window_mean j0 i0 W (F t k)).
Proof. intros H. apply is2_mean23 in H. exact H. Qed.

Lemma is2_ext a n0 n1 F G :
  is2 a n0 n1 F -> (forall t k, t < n0 -> k < n1 -> F t k = G t k) ->
  is2 a n0 n1 G.
Proof.
  intros (h0 & h1 & H) HFG. repeat split; try assumption.
  intros. rewrite H by assumption. now apply HFG.
Qed.

(** A slice of the last two axes that stays within the array. *)
Lemma is4_window S n0 n1 nj ni (js je is_ ie : Z) :
  d40 S = n0 -> d41 S = n1 -> d42 S = nj -> d43 S = ni ->
  (0 <= js <= je)%Z -> (je <= Z.of_nat nj)%Z ->
  (0 <= is_ <= ie)%Z -> (ie <= Z.of_nat ni)%Z ->
  is4 (getitem4 S (full, full, range js je, range is_ ie))
      n0 n1 (Z.to_nat (je - js)) (Z.to_nat (ie - is_))
      (fun t k j i => get4 S t k (Z.to_nat js + j) (Z.to_nat is_ + i)).
Proof.
  intros h0 h1 h2 h3 Hj Hje Hi Hie.
  unfold is4, getitem4, extent, lo, hi; simpl.
  rewrite h0, h1, h2, h3.
  rewrite !adjust_inside by lia.
  repeat split; try lia.
Qed.

Lemma in_bounds_weaken s n_av m m' :
  (0 <= m' <= m)%Z -> in_bounds s n_av m -> in_bounds s n_av m'.
Proof. unfold in_bounds. lia. Qed.

Lemma margin_pos method : (1 <= margin method)%Z.
Proof. unfold margin. destruct (_ =? _)%string; lia. Qed.

(** The window shifted by [dj] rows and [di] columns, within the margin. *)
Lemma is4_stencil s n_av m S n0 n1 dj di :
  in_bounds s n_av m ->
  d40 S = n0 -> d41 S = n1 -> d42 S = nlat s -> d43 S = nlon s ->
  (- m <= dj <= m)%Z -> (- m <= di <= m)%Z ->
  is4 (getitem4 S (Slice_call (the_slice s n_av) dj di))
      n0 n1 (width n_av) (width n_av)
      (fun t k jj ii => get4 S t k (shift (j0 s n_av + jj) dj)
                                   (shift (i0 s n_av + ii) di)).
Proof.
  intros (Hn & Hi1 & Hi2 & Hj1 & Hj2) h0 h1 h2 h3 Hdj Hdi.
  unfold Slice_call, the_slice; simpl.
  pose proof (is4_window S n0 n1 (nlat s) (nlon s)
    (j s - n_av + dj) (j s + n_av + 1 + dj) (i s - n_av + di) (i s + n_av + 1 + di)
    h0 h1 h2 h3) as H.
  destruct H as (e0 & e1 & e2 & e3 & Hget); try lia.
  unfold is4. unfold width.
  split; [exact e0|]. split; [exact e1|].
  split; [etransitivity; [exact e2|lia]|].
  split; [etransitivity; [exact e3|lia]|].
  intros t k jj ii Ht Hk Hjj Hii.
  etransitivity; [apply Hget; lia|].
  unfold shift, j0, i0. f_equal; lia.
Qed.

(** ** Centred differences on the window *)

Ltac step_with H :=
  let c := fresh "c" in let E := fresh "E" in let Hc := fresh "Hc" in
  destruct H as (c & E & Hc); rewrite E; cbn [rbind].

Lemma is4_grad2c a b dx n0 n1 n2 n3 F G :
  is4 a n0 n1 n2 n3 F -> is4 b n0 n1 n2 n3 G ->
  exists c, fd.grad2c a b dx = Ok c /\
    is4 c n0 n1 n2 n3 (fun t k j i => (G t k j i - F t k j i) / (2 * dx))%R.
Proof.
  intros Ha Hb. unfold fd.grad2c, sub4.
  step_with (is4_binop Rminus b a _ _ _ _ _ _ Hb Ha).
  eexists. split; [reflexivity|].
  apply (is4_map (fun x => x / (2 * dx))%R) in Hc. exact Hc.
Qed.

Lemma is4_grad4c a b c d dx n0 n1 n2 n3 A B C D :
  is4 a n0 n1 n2 n3 A -> is4 b n0 n1 n2 n3 B ->
  is4 c n0 n1 n2 n3 C -> is4 d n0 n1 n2 n3 D ->
  exists r, fd.grad4c a b c d dx = Ok r /\
    is4 r n0 n1 n2 n3
      (fun t k j i => (A t k j i - 8 * B t k j i + 8 * C t k j i - D t k j i)
                      / (12 * dx))%R.
Proof.
  intros Ha Hb Hc Hd. unfold fd.grad4c, sub4, add4, smul4.
  pose proof (is4_map (Rmult 8) _ _ _ _ _ _ Hb) as Hb8.
  pose proof (is4_map (Rmult 8) _ _ _ _ _ _ Hc) as Hc8.
  step_with (is4_binop Rminus _ _ _ _ _ _ _ _ Ha Hb8).
  step_with (is4_binop Rplus _ _ _ _ _ _ _ _ Hc0 Hc8).
  step_with (is4_binop Rminus _ _ _ _ _ _ _ _ Hc1 Hd).
  eexists. split; [reflexivity|].
  apply (is4_map (fun x => x / (12 * dx))%R) in Hc2. exact Hc2.
Qed.

Section Stencils.

Variable s : Source.
Variable n_av : Z.
Variable S : ndarray4.
Variables n0 n1 : nat.
Hypothesis S0 : d40 S = n0.
Hypothesis S1 : d41 S = n1.
Hypothesis S2 : d42 S = nlat s.
Hypothesis S3 : d43 S = nlon s.

Tactic Notation "at_offsets" constr(m) constr(Hb) "as" ident(H) :=
  pose proof (fun dj di => is4_stencil s n_av m S _ _ dj di Hb S0 S1 S2 S3) as H.

Ltac by_shifts H :=
  repeat (split; [assumption|]); intros; rewrite H by assumption;
  unfold on_window, ddx2, ddy2, ddx4, ddy4;
  now rewrite ?shift_p1, ?shift_m1, ?shift_p2, ?shift_m2, ?shift_0.

Lemma centre_value :
  in_bounds s n_av 0 ->
  is4 (getitem4 S (Slice_call (the_slice s n_av) 0 0)) n0 n1
      (width n_av) (width n_av) (on_window s n_av (get4 S)).
Proof.
  intros Hb.
  pose proof (is4_stencil s n_av 0 S _ _ 0 0 Hb S0 S1 S2 S3
                ltac:(lia) ltac:(lia)) as (e0 & e1 & e2 & e3 & H).
  by_shifts H.
Qed.

Lemma gradx_2nd dx :
  in_bounds s n_av 1 ->
  exists g, fd.grad2c (getitem4 S (Slice_call (the_slice s n_av) 0 (-1)))
                      (getitem4 S (Slice_call (the_slice s n_av) 0 1)) dx = Ok g /\
            is4 g n0 n1 (width n_av) (width n_av) (on_window s n_av (ddx2 S dx)).
Proof.
  intros Hb. at_offsets 1%Z Hb as H.
  destruct (is4_grad2c _ _ dx _ _ _ _ _ _
              (H 0%Z (-1)%Z ltac:(lia) ltac:(lia))
              (H 0%Z 1%Z ltac:(lia) ltac:(lia)))
    as (g & E & (e0 & e1 & e2 & e3 & Hg)).
  exists g. split; [exact E|]. by_shifts Hg.
Qed.

Lemma grady_2nd dy :
  in_bounds s n_av 1 ->
  exists g, fd.grad2c (getitem4 S (Slice_call (the_slice s n_av) 1 0))
                      (getitem4 S (Slice_call (the_slice s n_av) (-1) 0)) dy = Ok g /\
            is4 g n0 n1 (width n_av) (width n_av) (on_window s n_av (ddy2 S dy)).
Proof.
  intros Hb. at_offsets 1%Z Hb as H.
  destruct (is4_grad2c _ _ dy _ _ _ _ _ _
              (H 1%Z 0%Z ltac:(lia) ltac:(lia))
              (H (-1)%Z 0%Z ltac:(lia) ltac:(lia)))
    as (g & E & (e0 & e1 & e2 & e3 & Hg)).
  exists g. split; [exact E|]. by_shifts Hg.
Qed.

Lemma gradx_4th dx :
  in_bounds s n_av 2 ->
  exists g, fd.grad4c (getitem4 S (Slice_call (the_slice s n_av) 0 (-2)))
                      (getitem4 S (Slice_call (the_slice s n_av) 0 (-1)))
                      (getitem4 S (Slice_call (the_slice s n_av) 0 1))
                      (getitem4 S (Slice_call (the_slice s n_av) 0 2)) dx = Ok g /\
            is4 g n0 n1 (width n_av) (width n_av) (on_window s n_av (ddx4 S dx)).
Proof.
  intros Hb. at_offsets 2%Z Hb as H.
  destruct (is4_grad4c _ _ _ _ dx _ _ _ _ _ _ _ _
              (H 0%Z (-2)%Z ltac:(lia) ltac:(lia))
              (H 0%Z (-1)%Z ltac:(lia) ltac:(lia))
              (H 0%Z 1%Z ltac:(lia) ltac:(lia))
              (H 0%Z 2%Z ltac:(lia) ltac:(lia)))
    as (g & E & (e0 & e1 & e2 & e3 & Hg)).
  exists g. split; [exact E|]. by_shifts Hg.
Qed.

Lemma grady_4th dy :
  in_bounds s n_av 2 ->
  exists g, fd.grad4c (getitem4 S (Slice_call (the_slice s n_av) 2 0))
                      (getitem4 S (Slice_call (the_slice s n_av) 1 0))
                      (getitem4 S (Slice_call (the_slice s n_av) (-1) 0))
                      (getitem4 S (Slice_call (the_slice s n_av) (-2) 0)) dy = Ok g /\
            is4 g n0 n1 (width n_av) (width n_av) (on_window s n_av (ddy4 S dy)).
Proof.
  intros Hb. at_offsets 2%Z Hb as H.
  destruct (is4_grad4c _ _ _ _ dy _ _ _ _ _ _ _ _
              (H 2%Z 0%Z ltac:(lia) ltac:(lia))
              (H 1%Z 0%Z ltac:(lia) ltac:(lia))
              (H (-1)%Z 0%Z ltac:(lia) ltac:(lia))
              (H (-2)%Z 0%Z ltac:(lia) ltac:(lia)))
    as (g & E & (e0 & e1 & e2 & e3 & Hg)).
  exists g. split; [exact E|]. by_shifts Hg.
Qed.

End Stencils.

Lemma centre_mean s n_av S :
  in_bounds s n_av 0 -> model_shape s S ->
  is2 (mean23 (getitem4 S (centre4 s n_av))) (ntime s) (nfull s)
      (fun t k => window_mean (j0 s n_av) (i0 s n_av) (width n_av) (get4 S t k)).
Proof.
  intros (Hn & Hi1 & Hi2 & Hj1 & Hj2) (s0 & s1 & s2 & s3).
  apply (is2_window_mean _ _ _ _ _ _ (fun t k => get4 S t k)).
  destruct (is4_window S _ _ _ _ (j s - n_av) (j s + n_av + 1)
              (i s - n_av) (i s + n_av + 1) s0 s1 s2 s3)
    as (e0 & e1 & e2 & e3 & H); try lia.
  split; [exact e0|]. split; [exact e1|].
  split; [etransitivity; [exact e2|unfold width; lia]|].
  split; [etransitivity; [exact e3|unfold width; lia]|].
  intros t k jj ii Ht Hk Hjj Hii. apply H; unfold width in *; lia.
Qed.

(** ** What the stencil expressions of calculate_forcings evaluate to *)

Section Tendencies.

Variable grav : R.
Variable s : Source.
Variable n_av : Z.
Hypothesis Hwf : wf s.

Lemma minus_wind_on_window (w : ndarray4) :
  model_shape s w -> in_bounds s n_av 0 ->
  is4 (neg4 (getitem4 w (Slice_call (the_slice s n_av) 0 0)))
      (ntime s) (nfull s) (width n_av) (width n_av)
      (fun t k jj ii => - on_window s n_av (get4 w) t k jj ii)%R.
Proof.
  intros (w0 & w1 & w2 & w3) Hb.
  apply (is4_map Ropp). now apply centre_value.
Qed.

Lemma advec_2nd_value S dx dy :
  in_bounds s n_av 1 -> model_shape s S ->
  exists r, advec_2nd s (the_slice s n_av) S dx dy = Ok r /\
    is2 r (ntime s) (nfull s)
      (fun t k => window_mean (j0 s n_av) (i0 s n_av) (width n_av)
                    (advection_code "2nd" s S dx dy t k)).
Proof.
  intros Hb (s0 & s1 & s2 & s3).
  assert (Hb0 : in_bounds s n_av 0)
    by (apply (in_bounds_weaken s n_av 1); [lia|exact Hb]).
  pose proof (minus_wind_on_window (u s) (wf_u s Hwf) Hb0) as HU.
  pose proof (minus_wind_on_window (v s) (wf_v s Hwf) Hb0) as HV.
  unfold advec_2nd, mul4, sub4.
  destruct (gradx_2nd s n_av S _ _ s0 s1 s2 s3 dx Hb) as (gx & Egx & Hgx).
  rewrite Egx; cbn [rbind].
  step_with (is4_binop Rmult _ _ _ _ _ _ _ _ HU Hgx).
  destruct (grady_2nd s n_av S _ _ s0 s1 s2 s3 dy Hb) as (gy & Egy & Hgy).
  rewrite Egy; cbn [rbind].
  step_with (is4_binop Rmult _ _ _ _ _ _ _ _ HV Hgy).
  step_with (is4_binop Rminus _ _ _ _ _ _ _ _ Hc Hc0).
  eexists. split; [reflexivity|].
  apply (is2_window_mean _ _ _ _ _ _
           (fun t k => advection_code "2nd" s S dx dy t k)).
  exact Hc1.
Qed.

Lemma advec_4th_value S dx dy :
  in_bounds s n_av 2 -> model_shape s S ->
  exists r, advec_4th s (the_slice s n_av) S dx dy = Ok r /\
    is2 r (ntime s) (nfull s)
      (fun t k => window_mean (j0 s n_av) (i0 s n_av) (width n_av)
                    (advection_code "4th" s S dx dy t k)).
Proof.
  intros Hb (s0 & s1 & s2 & s3).
  assert (Hb0 : in_bounds s n_av 0)
    by (apply (in_bounds_weaken s n_av 2); [lia|exact Hb]).
  pose proof (minus_wind_on_window (u s) (wf_u s Hwf) Hb0) as HU.
  pose proof (minus_wind_on_window (v s) (wf_v s Hwf) Hb0) as HV.
  unfold advec_4th, mul4, sub4.
  destruct (gradx_4th s n_av S _ _ s0 s1 s2 s3 dx Hb) as (gx & Egx & Hgx).
  rewrite Egx; cbn [rbind].
  step_with (is4_binop Rmult _ _ _ _ _ _ _ _ HU Hgx).
  destruct (grady_4th s n_av S _ _ s0 s1 s2 s3 dy Hb) as (gy & Egy & Hgy).
  rewrite Egy; cbn [rbind].
  step_with (is4_binop Rmult _ _ _ _ _ _ _ _ HV Hgy).
  step_with (is4_binop Rminus _ _ _ _ _ _ _ _ Hc Hc0).
  eexists. split; [reflexivity|].
  apply (is2_window_mean _ _ _ _ _ _
           (fun t k => advection_code "4th" s S dx dy t k)).
  exact Hc1.
Qed.

Lemma vg_p_2nd_value dx :
  in_bounds s n_av 1 ->
  exists r, vg_p_2nd grav s (the_slice s n_av) dx = Ok r /\
    is2 r (ntime s) (len1 (p_p s))
      (fun t k => window_mean (j0 s n_av) (i0 s n_av) (width n_av)
                    (geo_v grav s "2nd" dx t k)).
Proof.
  intros Hb. destruct (wf_z_p s Hwf) as (z0 & z1 & z2 & z3).
  unfold vg_p_2nd.
  destruct (gradx_2nd s n_av (z_p s) _ _ z0 z1 z2 z3 dx Hb) as (g & E & Hg).
  rewrite E; cbn [rbind]. eexists; split; [reflexivity|].
  apply (is4_map (Rmult (grav / fc s))) in Hg.
  apply (is2_window_mean _ _ _ _ _ _ (fun t k => geo_v grav s "2nd" dx t k)).
  exact Hg.
Qed.

Lemma vg_p_4th_value dx :
  in_bounds s n_av 2 ->
  exists r, vg_p_4th grav s (the_slice s n_av) dx = Ok r /\
    is2 r (ntime s) (len1 (p_p s))
      (fun t k => window_mean (j0 s n_av) (i0 s n_av) (width n_av)
                    (geo_v grav s "4th" dx t k)).
Proof.
  intros Hb. destruct (wf_z_p s Hwf) as (z0 & z1 & z2 & z3).
  unfold vg_p_4th.
  destruct (gradx_4th s n_av (z_p s) _ _ z0 z1 z2 z3 dx Hb) as (g & E & Hg).
  rewrite E; cbn [rbind]. eexists; split; [reflexivity|].
  apply (is4_map (Rmult (grav / fc s))) in Hg.
  apply (is2_window_mean _ _ _ _ _ _ (fun t k => geo_v grav s "4th" dx t k)).
  exact Hg.
Qed.

(** The code multiplies by [-grav / fc]; the specification writes
    [-(g/f)]. *)
Lemma minus_quotient (g f x : R) : ((- g) / f * x = - (g / f) * x)%R.
Proof. unfold Rdiv. ring. Qed.

Lemma ug_p_2nd_value dy :
  in_bounds s n_av 1 ->
  exists r, ug_p_2nd grav s (the_slice s n_av) dy = Ok r /\
    is2 r (ntime s) (len1 (p_p s))
      (fun t k => window_mean (j0 s n_av) (i0 s n_av) (width n_av)
                    (geo_u grav s "2nd" dy t k)).
Proof.
  intros Hb. destruct (wf_z_p s Hwf) as (z0 & z1 & z2 & z3).
  unfold ug_p_2nd.
  destruct (grady_2nd s n_av (z_p s) _ _ z0 z1 z2 z3 dy Hb) as (g & E & Hg).
  rewrite E; cbn [rbind]. eexists; split; [reflexivity|].
  apply (is4_map (Rmult ((- grav) / fc s))) in Hg.
  apply is2_mean23 in Hg. eapply is2_ext; [exact Hg|].
  intros t k _ _. cbv beta. unfold window_mean. f_equal.
  apply sum_upto_ext; intros jj _. apply sum_upto_ext; intros ii _.
  apply minus_quotient.
Qed.

Lemma ug_p_4th_value dy :
  in_bounds s n_av 2 ->
  exists r, ug_p_4th grav s (the_slice s n_av) dy = Ok r /\
    is2 r (ntime s) (len1 (p_p s))
      (fun t k => window_mean (j0 s n_av) (i0 s n_av) (width n_av)
                    (geo_u grav s "4th" dy t k)).
Proof.
  intros Hb. destruct (wf_z_p s Hwf) as (z0 & z1 & z2 & z3).
  unfold ug_p_4th.
  destruct (grady_4th s n_av (z_p s) _ _ z0 z1 z2 z3 dy Hb) as (g & E & Hg).
  rewrite E; cbn [rbind]. eexists; split; [reflexivity|].
  apply (is4_map (Rmult ((- grav) / fc s))) in Hg.
  apply is2_mean23 in Hg. eapply is2_ext; [exact Hg|].
  intros t k _ _. cbv beta. unfold window_mean. f_equal.
  apply sum_upto_ext; intros jj _. apply sum_upto_ext; intros ii _.
  apply minus_quotient.
Qed.

(** The branch on a supported method, with the window and its margin
    inside the grid: all four tendencies are assigned and both local
    names are bound. *)
Lemma method_branch_ok e method dx dy :
  supported method = true -> in_bounds s n_av (margin method) ->
  let wmean := window_mean (j0 s n_av) (i0 s n_av) (width n_av) in
  exists a1 a2 a3 a4 ugp vgp,
    method_branch grav s (the_slice s n_av) method dx dy e
      = (with_advec a1 a2 a3 a4 e, Ok (Some ugp, Some vgp)) /\
    is2 a1 (ntime s) (nfull s)
        (fun t k => wmean (advection_code method s (thl s) dx dy t k)) /\
    is2 a2 (ntime s) (nfull s)
        (fun t k => wmean (advection_code method s (qt s) dx dy t k)) /\
    is2 a3 (ntime s) (nfull s)
        (fun t k => wmean (advection_code method s (u s) dx dy t k)) /\
    is2 a4 (ntime s) (nfull s)
        (fun t k => wmean (advection_code method s (v s) dx dy t k)) /\
    is2 ugp (ntime s) (len1 (p_p s)) (fun t k => wmean (geo_u grav s method dy t k)) /\
    is2 vgp (ntime s) (len1 (p_p s)) (fun t k => wmean (geo_v grav s method dx t k)).
Proof.
  intros Hm Hb wmean. unfold supported in Hm. unfold method_branch.
  destruct (method =? "2nd")%string eqn:E2.
  - apply String.eqb_eq in E2; subst method.
    change (margin "2nd") with 1%Z in Hb.
    destruct (advec_2nd_value (thl s) dx dy Hb (wf_thl s Hwf)) as (a1 & E1 & H1).
    destruct (advec_2nd_value (qt s) dx dy Hb (wf_qt s Hwf)) as (a2 & E2 & H2).
    destruct (advec_2nd_value (u s) dx dy Hb (wf_u s Hwf)) as (a3 & E3 & H3).
    destruct (advec_2nd_value (v s) dx dy Hb (wf_v s Hwf)) as (a4 & E4 & H4).
    destruct (vg_p_2nd_value dx Hb) as (vgp & Ev & Hv).
    destruct (ug_p_2nd_value dy Hb) as (ugp & Eu & Hu).
    exists a1, a2, a3, a4, ugp, vgp.
    split; [|repeat (split; [assumption|]); assumption].
    cbv [bind lift assign ret]. rewrite E1, E2, E3, E4, Ev, Eu. reflexivity.
  - simpl in Hm. apply String.eqb_eq in Hm; subst method.
    change (margin "4th") with 2%Z in Hb.
    destruct (advec_4th_value (thl s) dx dy Hb (wf_thl s Hwf)) as (a1 & E1 & H1).
    destruct (advec_4th_value (qt s) dx dy Hb (wf_qt s Hwf)) as (a2 & E2' & H2).
    destruct (advec_4th_value (u s) dx dy Hb (wf_u s Hwf)) as (a3 & E3 & H3).
    destruct (advec_4th_value (v s) dx dy Hb (wf_v s Hwf)) as (a4 & E4 & H4).
    destruct (vg_p_4th_value dx Hb) as (vgp & Ev & Hv).
    destruct (ug_p_4th_value dy Hb) as (ugp & Eu & Hu).
    exists a1, a2, a3, a4, ugp, vgp.
    split; [|repeat (split; [assumption|]); assumption].
    cbv [bind lift assign ret]. cbn [String.eqb Ascii.eqb Bool.eqb].
    rewrite E1, E2', E3, E4, Ev, Eu. reflexivity.
Qed.

End Tendencies.

(** ** Linear interpolation with extrapolation *)

Lemma insert_perm p l : Permutation (insert p l) (p :: l).
Proof.
  induction l as [|q l IH]; simpl; [reflexivity|].
  destruct (Rle_dec (fst p) (fst q)); [reflexivity|].
  rewrite IH. apply perm_swap.
Qed.

Lemma sort_perm l : Permutation (sort l) l.
Proof.
  induction l as [|p l IH]; simpl; [reflexivity|].
  unfold sort in *. simpl. rewrite insert_perm. now constructor.
Qed.

Lemma insert_sorted p l :
  StronglySorted key_le l -> StronglySorted key_le (insert p l).
Proof.
  induction 1 as [|q l Hs IH Hq]; simpl.
  - constructor; constructor.
  - destruct (Rle_dec (fst p) (fst q)) as [Hle|Hgt].
    + constructor; [constructor; assumption|].
      constructor; [exact Hle|].
      eapply Forall_impl; [|exact Hq]. unfold key_le; intros; lra.
    + constructor; [exact IH|].
      eapply Permutation_Forall; [symmetry; apply insert_perm|].
      constructor; [unfold key_le; lra|exact Hq].
Qed.

Lemma sort_sorted l : StronglySorted key_le (sort l).
Proof.
  induction l as [|p l IH]; [constructor|].
  unfold sort in *; simpl. now apply insert_sorted.
Qed.

Lemma sorted_nodup_strict l :
  StronglySorted key_le l -> NoDup (map fst l) -> StronglySorted key_lt l.
Proof.
  induction 1 as [|q l Hs IH Hq]; intros Hnd; [constructor|].
  simpl in Hnd. inversion Hnd as [|? ? Hnotin Hnd']; subst.
  constructor; [now apply IH|].
  rewrite Forall_forall in *. intros r Hr.
  specialize (Hq r Hr). unfold key_le, key_lt in *.
  destruct (Req_dec (fst q) (fst r)) as [E|N]; [|lra].
  exfalso. apply Hnotin. rewrite E. now apply in_map.
Qed.

Lemma searchsorted_member f m :
  StronglySorted key_lt f -> m < List.length f ->
  searchsorted (map fst f) (fst (nth m f (0, 0)%R)) = m.
Proof.
  intros Hs. revert m. induction Hs as [|q l Hs IH Hq]; intros m Hm.
  - simpl in Hm; lia.
  - destruct m as [|m]; simpl.
    + destruct (Rlt_dec (fst q) (fst q)); [lra|reflexivity].
    + simpl in Hm. assert (Hlt : (fst q < fst (nth m l (0, 0)%R))%R).
      { rewrite Forall_forall in Hq. apply Hq. apply nth_In. lia. }
      destruct (Rlt_dec (fst q) (fst (nth m l (0, 0)%R))); [|contradiction].
      f_equal. apply IH. lia.
Qed.

Lemma strict_nth f a b :
  StronglySorted key_lt f -> a < b -> b < List.length f ->
  (fst (nth a f (0, 0)%R) < fst (nth b f (0, 0)%R))%R.
Proof.
  intros Hs. revert a b. induction Hs as [|q l Hs IH Hq]; intros a b Hab Hb.
  - simpl in Hb; lia.
  - destruct b as [|b]; [lia|]. simpl in Hb.
    destruct a as [|a]; simpl.
    + rewrite Forall_forall in Hq. apply Hq. apply nth_In. lia.
    + apply IH; lia.
Qed.

(** Exact match: at the abscissa of a sample the interpolant returns the
    ordinate of that sample. *)
Lemma call_linear_member f m :
  StronglySorted key_lt f -> 2 <= List.length f -> m < List.length f ->
  call_linear f (fst (nth m f (0, 0)%R)) = snd (nth m f (0, 0)%R).
Proof.
  intros Hs Hn Hm. unfold call_linear.
  rewrite (searchsorted_member f m Hs Hm), length_map. unfold clip.
  destruct m as [|m].
  - replace (Nat.min (Nat.max 0 1) (List.length f - 1)) with 1 by lia.
    cbn [Nat.sub]. destruct (nth 0 f (0, 0)%R) as [x y].
    destruct (nth 1 f (0, 0)%R) as [x1 y1]. cbn [fst snd].
    replace (x - x)%R with 0%R by ring. ring.
  - replace (Nat.min (Nat.max (S m) 1) (List.length f - 1)) with (S m) by lia.
    replace (S m - 1) with m by lia.
    pose proof (strict_nth f m (S m) Hs ltac:(lia) Hm) as Hlt.
    destruct (nth m f (0, 0)%R) as [x0 y0].
    destruct (nth (S m) f (0, 0)%R) as [x y]. cbn [fst snd] in *.
    field. lra.
Qed.

(** Below the lowest and above the highest abscissa the first and the
    last interval are continued. *)
Lemma call_linear_below f x :
  2 <= List.length f -> (x <= fst (nth 0 f (0, 0)%R))%R ->
  call_linear f x =
  ((snd (nth 1 f (0, 0)) - snd (nth 0 f (0, 0)))
   / (fst (nth 1 f (0, 0)) - fst (nth 0 f (0, 0)))
   * (x - fst (nth 0 f (0, 0))) + snd (nth 0 f (0, 0)))%R.
Proof.
  intros Hn Hx. unfold call_linear.
  assert (E : searchsorted (map fst f) x = 0).
  { destruct f as [|q f]; [reflexivity|]. simpl in *.
    destruct (Rlt_dec (fst q) x); [lra|reflexivity]. }
  rewrite E, length_map. unfold clip.
  replace (Nat.min (Nat.max 0 1) (List.length f - 1)) with 1 by lia.
  cbn [Nat.sub]. destruct (nth 0 f (0, 0)%R) as [x0 y0].
  destruct (nth 1 f (0, 0)%R) as [x1 y1]. reflexivity.
Qed.

Lemma searchsorted_above xs x :
  Forall (fun a => a < x)%R xs -> searchsorted xs x = List.length xs.
Proof.
  induction 1 as [|a xs Ha _ IH]; simpl; [reflexivity|].
  destruct (Rlt_dec a x); [now rewrite IH|contradiction].
Qed.

Lemma call_linear_above f x :
  2 <= List.length f -> Forall (fun q => fst q < x)%R f ->
  let n := List.length f in
  call_linear f x =
  ((snd (nth (n - 1) f (0, 0)) - snd (nth (n - 2) f (0, 0)))
   / (fst (nth (n - 1) f (0, 0)) - fst (nth (n - 2) f (0, 0)))
   * (x - fst (nth (n - 2) f (0, 0))) + snd (nth (n - 2) f (0, 0)))%R.
Proof.
  intros Hn Hx n. unfold call_linear.
  rewrite searchsorted_above, !length_map
    by (apply Forall_map; exact Hx).
  unfold clip. fold n.
  replace (Nat.min (Nat.max n 1) (n - 1)) with (n - 1) by lia.
  replace (n - 1 - 1) with (n - 2) by lia.
  destruct (nth (n - 2) f (0, 0)%R) as [x0 y0].
  destruct (nth (n - 1) f (0, 0)%R) as [x1 y1]. reflexivity.
Qed.

Lemma insert_last a l :
  Forall (fun q => fst q < fst a)%R l -> insert a l = l ++ [a].
Proof.
  induction 1 as [|q l Hq _ IH]; simpl; [reflexivity|].
  destruct (Rle_dec (fst a) (fst q)); [lra|]. now rewrite IH.
Qed.

Lemma sort_decreasing l : StronglySorted key_gt l -> sort l = rev l.
Proof.
  induction 1 as [|a l _ IH Ha]; [reflexivity|].
  unfold sort in *. simpl. rewrite IH. apply insert_last.
  apply Forall_rev. exact Ha.
Qed.

Lemma combine_map {A B C} (f : A -> B) (g : A -> C) l :
  combine (map f l) (map g l) = map (fun a => (f a, g a)) l.
Proof. induction l; simpl; congruence. Qed.

Lemma decreasing_sorted (F : nat -> R * R) n a :
  (forall x y, a <= x -> x < y -> y < a + n -> (fst (F y) < fst (F x))%R) ->
  StronglySorted key_gt (map F (seq a n)).
Proof.
  revert a. induction n as [|n IH]; intros a H; simpl; [constructor|].
  constructor.
  - apply IH. intros x y Hx Hxy Hy. apply H; lia.
  - apply Forall_forall. intros q Hq. apply in_map_iff in Hq.
    destruct Hq as (y & <- & Hy). apply in_seq in Hy.
    unfold key_gt. apply H; lia.
Qed.

Lemma nth_map_seq (F : nat -> R * R) n k d :
  k < n -> nth k (map F (seq 0 n)) d = F k.
Proof.
  intros Hk. rewrite (nth_indep _ d (F 0)) by (rewrite length_map, length_seq; lia).
  rewrite map_nth. f_equal. rewrite seq_nth; lia.
Qed.

Lemma samples_map x g t :
  samples x g t = map (fun l => (get1 x l, get2 g t l)) (seq 0 (len1 x)).
Proof. unfold samples, to_list1. cbn [len1 get1]. apply combine_map. Qed.

Lemma samples_keys x g t : map fst (samples x g t) = to_list1 x.
Proof.
  rewrite samples_map, map_map. unfold to_list1. apply map_ext. reflexivity.
Qed.

Lemma samples_length x g t : List.length (samples x g t) = len1 x.
Proof. now rewrite samples_map, length_map, length_seq. Qed.

Lemma sort_samples_decreasing x g t :
  decreasing x -> sort (samples x g t) = rev (samples x g t).
Proof.
  intros Hd. apply sort_decreasing. rewrite samples_map.
  apply decreasing_sorted. intros a b _ Hab Hb. cbn [fst]. apply Hd; lia.
Qed.

Lemma nth_rev_samples x g t k :
  k < len1 x ->
  nth k (rev (samples x g t)) (0, 0)%R
  = (get1 x (len1 x - S k), get2 g t (len1 x - S k)).
Proof.
  intros Hk. rewrite rev_nth by (rewrite samples_length; lia).
  rewrite samples_length, samples_map. rewrite nth_map_seq by lia. reflexivity.
Qed.

(** Above the highest pressure level (index 0 of the decreasing axis) the
    line through the two highest-pressure samples is continued. *)
Lemma interp_above x g t v :
  decreasing x -> 2 <= len1 x -> (get1 x 0 < v)%R ->
  call_linear (sort (samples x g t)) v =
  ((get2 g t 0 - get2 g t 1) / (get1 x 0 - get1 x 1) * (v - get1 x 1)
   + get2 g t 1)%R.
Proof.
  intros Hd Hn Hv. rewrite sort_samples_decreasing by assumption.
  rewrite call_linear_above.
  - rewrite length_rev, samples_length, !nth_rev_samples by lia.
    cbn [fst snd].
    replace (len1 x - S (len1 x - 1)) with 0 by lia.
    replace (len1 x - S (len1 x - 2)) with 1 by lia. reflexivity.
  - rewrite length_rev, samples_length. exact Hn.
  - apply Forall_rev. rewrite samples_map. apply Forall_forall.
    intros q Hq. apply in_map_iff in Hq. destruct Hq as (l & <- & Hl).
    apply in_seq in Hl. cbn [fst].
    destruct l as [|l]; [exact Hv|].
    pose proof (Hd 0 (S l) ltac:(lia) ltac:(lia)). lra.
Qed.

(** Below the lowest pressure level (the last index) the line through the
    two lowest-pressure samples is continued. *)
Lemma interp_below x g t v :
  decreasing x -> 2 <= len1 x -> (v < get1 x (len1 x - 1))%R ->
  let n := len1 x in
  call_linear (sort (samples x g t)) v =
  ((get2 g t (n - 2) - get2 g t (n - 1)) / (get1 x (n - 2) - get1 x (n - 1))
   * (v - get1 x (n - 1)) + get2 g t (n - 1))%R.
Proof.
  intros Hd Hn Hv n. rewrite sort_samples_decreasing by assumption.
  rewrite call_linear_below.
  - rewrite !nth_rev_samples by lia. cbn [fst snd]. fold n.
    reflexivity.
  - rewrite length_rev, samples_length. exact Hn.
  - rewrite nth_rev_samples by lia. cbn [fst].
    lra.
Qed.

(** Between two neighbouring pressure levels. *)
Lemma decreasing_nodup x : decreasing x -> NoDup (to_list1 x).
Proof.
  intros Hdec. unfold to_list1.
  apply (NoDup_nth (map (get1 x) (seq 0 (len1 x))) 0%R).
  rewrite length_map, length_seq. intros a b Ha Hb E.
  rewrite !(nth_indep _ 0%R (get1 x 0)) in E
    by (rewrite length_map, length_seq; lia).
  rewrite !map_nth, !seq_nth in E by lia. cbn [Nat.add] in E.
  destruct (Nat.lt_trichotomy a b) as [Hlt|[Heq|Hgt]]; [|exact Heq|].
  - pose proof (Hdec a b Hlt Hb). lra.
  - pose proof (Hdec b a Hgt Ha). lra.
Qed.

Lemma searchsorted_between f m x :
  StronglySorted key_lt f -> S m < List.length f ->
  (fst (nth m f (0, 0)%R) < x <= fst (nth (S m) f (0, 0)%R))%R ->
  searchsorted (map fst f) x = S m.
Proof.
  intros Hs. revert m. induction Hs as [|q l Hs IH Hq]; intros m Hm Hx.
  - simpl in Hm; lia.
  - simpl in Hm. destruct m as [|m].
    + cbn [nth] in Hx. cbn [map searchsorted].
      destruct (Rlt_dec (fst q) x) as [_|N]; [|lra]. f_equal.
      destruct l as [|q1 l]; [simpl in Hm; lia|]. cbn [nth] in Hx.
      cbn [map searchsorted]. destruct (Rlt_dec (fst q1) x); [lra|reflexivity].
    + cbn [nth] in Hx. cbn [map searchsorted].
      assert (Hlt : (fst q < fst (nth m l (0, 0)%R))%R).
      { rewrite Forall_forall in Hq. apply Hq. apply nth_In. lia. }
      destruct (Rlt_dec (fst q) x) as [_|N]; [|lra]. f_equal.
      apply IH; [lia|exact Hx].
Qed.

Lemma call_linear_between f m x :
  StronglySorted key_lt f -> S m < List.length f ->
  (fst (nth m f (0, 0)%R) <= x <= fst (nth (S m) f (0, 0)%R))%R ->
  call_linear f x =
  ((snd (nth (S m) f (0, 0)) - snd (nth m f (0, 0)))
   / (fst (nth (S m) f (0, 0)) - fst (nth m f (0, 0)))
   * (x - fst (nth m f (0, 0))) + snd (nth m f (0, 0)))%R.
Proof.
  intros Hs Hm [Hlo Hhi].
  destruct (Req_dec x (fst (nth m f (0, 0)%R))) as [E|N].
  - rewrite E at 1. rewrite call_linear_member by (try assumption; lia).
    rewrite E. unfold Rdiv. ring.
  - unfold call_linear.
    rewrite (searchsorted_between f m x Hs Hm) by lra.
    rewrite length_map. unfold clip.
    replace (Nat.min (Nat.max (S m) 1) (List.length f - 1)) with (S m) by lia.
    replace (S m - 1) with m by lia.
    destruct (nth m f (0, 0)%R) as [x0 y0].
    destruct (nth (S m) f (0, 0)%R) as [x1 y1]. reflexivity.
Qed.

Lemma samples_strict x g t :
  decreasing x -> StronglySorted key_lt (sort (samples x g t)).
Proof.
  intros Hd. apply sorted_nodup_strict; [apply sort_sorted|].
  eapply Permutation_NoDup.
  - apply Permutation_map. symmetry. apply sort_perm.
  - rewrite samples_keys. now apply decreasing_nodup.
Qed.

Lemma interp_between x g t l v :
  decreasing x -> S l < len1 x ->
  (get1 x (S l) <= v <= get1 x l)%R ->
  call_linear (sort (samples x g t)) v =
  ((get2 g t l - get2 g t (S l)) / (get1 x l - get1 x (S l))
   * (v - get1 x (S l)) + get2 g t (S l))%R.
Proof.
  intros Hd Hl Hv.
  pose proof (samples_strict x g t Hd) as Hs.
  rewrite sort_samples_decreasing in * by assumption.
  assert (Hlen : List.length (rev (samples x g t)) = len1 x)
    by (rewrite length_rev; apply samples_length).
  assert (E0 : nth (len1 x - S (S l)) (rev (samples x g t)) (0, 0)%R
               = (get1 x (S l), get2 g t (S l))).
  { rewrite nth_rev_samples by lia. repeat f_equal; lia. }
  assert (E1 : nth (S (len1 x - S (S l))) (rev (samples x g t)) (0, 0)%R
               = (get1 x l, get2 g t l)).
  { rewrite nth_rev_samples by lia. repeat f_equal; lia. }
  rewrite (call_linear_between _ (len1 x - S (S l)) v Hs)
    by (rewrite ?Hlen, ?E0, ?E1; cbn [fst]; try lia; lra).
  rewrite E0, E1. reflexivity.
Qed.

(** ** The interpolation loop *)

(** One row of the interpolation: the constructor accepts the pressure
    levels and the call returns one value per model level. *)
Lemma interp_row_value s m g name t e :
  means e = Some m ->
  t < d20 g -> t < d20 (p_mean m) ->
  d21 g = len1 (p_p s) -> 2 <= len1 (p_p s) ->
  interp_row s name (Some g) t e
  = (e, Ok (mk1 (d21 (p_mean m)) (fun k => interp_value s m g t k))).
Proof.
  intros Hm Ht Ht' G1 Hn. unfold interp_row.
  cbv [bind lift local self attr ret row2 interp1d].
  destruct (Nat.ltb_spec t (d20 g)) as [_|]; [|lia].
  cbn [len1]. rewrite G1, Nat.eqb_refl. cbn [negb].
  destruct (Nat.ltb_spec (len1 (p_p s)) 1) as [|_]; [lia|].
  rewrite Hm.
  destruct (Nat.ltb_spec t (d20 (p_mean m))) as [_|]; [|lia].
  reflexivity.
Qed.

Section Loop.

Variable s : Source.
Variable m : Means.
Variables ugp vgp : ndarray2.
Variable e0 : Era.
Hypothesis Hmeans : means e0 = Some m.
Hypothesis Hp0 : d20 (p_mean m) = ntime s.
Hypothesis Hp1 : d21 (p_mean m) = nfull s.
Hypothesis Hu0 : d20 ugp = ntime s.
Hypothesis Hu1 : d21 ugp = len1 (p_p s).
Hypothesis Hv0 : d20 vgp = ntime s.
Hypothesis Hv1 : d21 vgp = len1 (p_p s).
Hypothesis Hpres : 2 <= len1 (p_p s).

Lemma interp_row_ok name g e t :
  means e = Some m ->
  d20 g = ntime s -> d21 g = len1 (p_p s) -> t < ntime s ->
  interp_row s name (Some g) t e
  = (e, Ok (mk1 (nfull s) (fun k => interp_value s m g t k))).
Proof.
  intros Hm G0 G1 Ht.
  rewrite (interp_row_value s m g name t e Hm) by lia.
  now rewrite Hp1.
Qed.

Lemma rows_done_step t ts g a a' :
  t < ntime s ->
  rows_done s m ts g
    (mk2 (ntime s) (nfull s)
       (fun t' k => if t' =? t
                    then get1 (mk1 (nfull s) (fun k => interp_value s m g t k))
                              (bidx (nfull s) k)
                    else get2 a t' k)) a' ->
  rows_done s m (t :: ts) g a a'.
Proof.
  intros Ht (A0 & A1 & HA). split; [exact A0|]. split; [exact A1|].
  intros t' k Ht' Hk. destruct (HA t' k Ht' Hk) as [Hin Hout].
  destruct (in_dec Nat.eq_dec t' ts) as [I|NI].
  - split; [intros _; now apply Hin|intros N; exfalso; apply N; now right].
  - split.
    + intros [->|I]; [|contradiction].
      rewrite Hout by assumption. cbn [get2].
      rewrite Nat.eqb_refl. cbn [get1]. now rewrite bidx_lt.
    + intros N. rewrite Hout by assumption. cbn [get2].
      destruct (Nat.eqb_spec t' t) as [->|_]; [exfalso; apply N; now left|].
      reflexivity.
Qed.

Lemma interp_loop_ok ts :
  Forall (fun t => t < ntime s) ts ->
  forall a b,
    d20 a = ntime s -> d21 a = nfull s ->
    d20 b = ntime s -> d21 b = nfull s ->
    exists a' b',
      for_each ts (interp_step s (Some ugp) (Some vgp)) (with_geo a b e0)
      = (with_geo a' b' e0, Ok tt) /\
      rows_done s m ts ugp a a' /\ rows_done s m ts vgp b b'.
Proof.
  induction 1 as [|t ts Ht Hts IH]; intros a b A0 A1 B0 B1.
  - exists a, b. split; [reflexivity|].
    split; (split; [assumption|]; split; [assumption|]);
      intros t k _ _; (split; [intros []|reflexivity]).
  - cbn [for_each]. unfold bind at 1. unfold interp_step.
    unfold bind at 1.
    rewrite (interp_row_ok "ug_p" ugp (with_geo a b e0) t Hmeans Hu0 Hu1 Ht).
    cbv [bind self attr lift assign].
    cbn [frc ug vg with_geo]. unfold setrow2. rewrite A0, A1.
    destruct (Nat.ltb_spec t (ntime s)) as [_|]; [|lia].
    cbn [len1]. rewrite Nat.eqb_refl. cbn [orb].
    set (a1 := mk2 (ntime s) (nfull s) _).
    change (set_ug a1 (with_geo a b e0)) with (with_geo a1 b e0).
    rewrite (interp_row_ok "vg_p" vgp (with_geo a1 b e0) t Hmeans Hv0 Hv1 Ht).
    cbn [frc ug vg with_geo]. rewrite B0, B1.
    destruct (Nat.ltb_spec t (ntime s)) as [_|]; [|lia].
    cbn [len1]. rewrite Nat.eqb_refl. cbn [orb].
    set (b1 := mk2 (ntime s) (nfull s) _).
    change (set_vg b1 (with_geo a1 b e0)) with (with_geo a1 b1 e0).
    destruct (IH a1 b1 eq_refl eq_refl eq_refl eq_refl)
      as (a' & b' & Erun & Ha & Hb).
    exists a', b'. split; [exact Erun|].
    split; apply rows_done_step; assumption.
Qed.

End Loop.

(** ** A complete run inside the grid *)

Section Run.

Variable grav : R.
Variable dlon : R -> R -> R -> R.
Variable dlat : R -> R -> R.

Lemma grid_spacing_ok s n_av m :
  wf s -> (1 <= m)%Z -> in_bounds s n_av m ->
  grid_spacing dlon dlat s = Ok (dx_of dlon s, dy_of dlat s).
Proof.
  intros Hwf Hm (Hn & Hi1 & Hi2 & Hj1 & Hj2). unfold grid_spacing.
  rewrite !item1_inside
    by (rewrite ?(wf_lons s Hwf), ?(wf_lats s Hwf); lia).
  reflexivity.
Qed.

Lemma sub2_same f a b n0 n1 :
  d20 a = n0 -> d21 a = n1 -> d20 b = n0 -> d21 b = n1 ->
  exists d, binop2 f a b = Ok d /\
            is2 d n0 n1 (fun t k => f (get2 a t k) (get2 b t k)).
Proof.
  intros a0 a1 b0 b1. unfold binop2. rewrite a0, a1, b0, b1, !bdim_same.
  eexists; split; [reflexivity|]. split; [reflexivity|]. split; [reflexivity|].
  intros t k Ht Hk. cbn [get2]. now rewrite !bidx_lt.
Qed.

Lemma calculate_forcings_run e n_av method :
  let s := src e in
  let m := window_means s (centre4 s n_av) (centre3 s n_av) in
  let wmean := window_mean (j0 s n_av) (i0 s n_av) (width n_av) in
  let dx := dx_of dlon s in
  let dy := dy_of dlat s in
  wf s -> supported method = true -> in_bounds s n_av (margin method) ->
  2 <= len1 (p_p s) ->
  exists a1 a2 a3 a4 ugp vgp ug_ vg_ du dv,
    calculate_forcings grav dlon dlat n_av method e
    = (mkEra s (Some m)
         (mkForcings (Some a1) (Some a2) (Some a3) (Some a4)
                     (Some ug_) (Some vg_) (Some du) (Some dv)), Ok tt) /\
    method_branch grav s (the_slice s n_av) method dx dy (set_means m e)
    = (with_advec a1 a2 a3 a4 (set_means m e), Ok (Some ugp, Some vgp)) /\
    is2 a1 (ntime s) (nfull s)
        (fun t k => wmean (advection_code method s (thl s) dx dy t k)) /\
    is2 a2 (ntime s) (nfull s)
        (fun t k => wmean (advection_code method s (qt s) dx dy t k)) /\
    is2 a3 (ntime s) (nfull s)
        (fun t k => wmean (advection_code method s (u s) dx dy t k)) /\
    is2 a4 (ntime s) (nfull s)
        (fun t k => wmean (advection_code method s (v s) dx dy t k)) /\
    is2 ugp (ntime s) (len1 (p_p s)) (fun t k => wmean (geo_u grav s method dy t k)) /\
    is2 vgp (ntime s) (len1 (p_p s)) (fun t k => wmean (geo_v grav s method dx t k)) /\
    is2 ug_ (ntime s) (nfull s) (interp_value s m ugp) /\
    is2 vg_ (ntime s) (nfull s) (interp_value s m vgp) /\
    is2 du (ntime s) (nfull s)
        (fun t k => fc s * (get2 (v_mean m) t k - get2 vg_ t k))%R /\
    is2 dv (ntime s) (nfull s)
        (fun t k => - fc s * (get2 (u_mean m) t k - get2 ug_ t k))%R.
Proof.
  intros s m wmean dx dy Hwf Hm Hb Hpres.
  assert (Hb0 : in_bounds s n_av 0).
  { apply (in_bounds_weaken s n_av (margin method)); [|exact Hb].
    pose proof (margin_pos method); lia. }
  destruct (method_branch_ok grav s n_av Hwf (set_means m e) method dx dy Hm Hb)
    as (a1 & a2 & a3 & a4 & ugp & vgp & Ebr & H1 & H2 & H3 & H4 & Hu & Hv).
  pose proof (centre_mean s n_av (p s) Hb0 (wf_p s Hwf)) as (P0 & P1 & _).
  pose proof (centre_mean s n_av (u s) Hb0 (wf_u s Hwf)) as (U0 & U1 & _).
  pose proof (centre_mean s n_av (v s) Hb0 (wf_v s Hwf)) as (V0 & V1 & _).
  change (mean23 (getitem4 (p s) (centre4 s n_av))) with (p_mean m) in P0, P1.
  change (mean23 (getitem4 (u s) (centre4 s n_av))) with (u_mean m) in U0, U1.
  change (mean23 (getitem4 (v s) (centre4 s n_av))) with (v_mean m) in V0, V1.
  set (e1 := with_advec a1 a2 a3 a4 (set_means m e)).
  assert (Hmeans : means e1 = Some m) by reflexivity.
  destruct Hu as (Hu0 & Hu1 & Hu). destruct Hv as (Hv0 & Hv1 & Hv).
  destruct (interp_loop_ok s m ugp vgp e1 Hmeans P0 P1 Hu0 Hu1 Hv0 Hv1 Hpres
              (seq 0 (ntime s))
              ltac:(apply Forall_forall; intros x Hx; apply in_seq in Hx; lia)
              (zeros_like2 (p_mean m)) (zeros_like2 (p_mean m)) P0 P1 P0 P1)
    as (ug_ & vg_ & Eloop & (A0 & A1 & HA) & (B0 & B1 & HB)).
  exists a1, a2, a3, a4, ugp, vgp, ug_, vg_.
  destruct (sub2_same Rminus (v_mean m) vg_ _ _ V0 V1 B0 B1)
    as (du & Edu & D0 & D1 & HDu).
  destruct (sub2_same Rminus (u_mean m) ug_ _ _ U0 U1 A0 A1)
    as (dv & Edv & D0' & D1' & HDv).
  exists (smul2 (fc s) du), (smul2 (- fc s) dv).
  split.
  { unfold calculate_forcings.
    unfold bind at 1. unfold self at 1. fold s.
    unfold bind at 1. unfold assign at 1.
    change (window_means s _ _) with m.
    unfold bind at 1. unfold lift at 1.
    rewrite (grid_spacing_ok s n_av (margin method) Hwf (margin_pos method) Hb).
    cbn [fst snd]. fold dx dy.
    unfold bind at 1.
    change (mkSlice _ _ _ _) with (the_slice s n_av).
    rewrite Ebr. fold e1. cbn [fst snd].
    unfold bind at 1. unfold self at 1.
    unfold bind at 1. rewrite Hmeans. unfold attr at 1, lift at 1.
    unfold bind at 1. unfold assign at 1.
    unfold bind at 1. unfold self at 1.
    unfold bind at 1. unfold attr at 1, lift at 1.
    change (means (set_ug _ e1)) with (Some m); cbv beta iota.
    unfold bind at 1. unfold assign at 1.
    change (set_vg (zeros_like2 (p_mean m)) (set_ug (zeros_like2 (p_mean m)) e1))
      with (with_geo (zeros_like2 (p_mean m)) (zeros_like2 (p_mean m)) e1).
    unfold bind at 1. rewrite Eloop.
    cbv [bind self attr lift assign].
    cbn [means frc ug vg with_geo]. rewrite Hmeans. unfold sub2. rewrite Edu.
    cbn [means frc ug vg with_geo set_dtu_coriolis set_frc]. rewrite Hmeans, Edv.
    reflexivity. }
  split; [exact Ebr|].
  repeat (split; [assumption|]).
  split; [repeat split; assumption|].
  split; [repeat split; assumption|].
  split.
  { split; [exact A0|]. split; [exact A1|]. intros t k Ht Hk.
    apply (HA t k Ht Hk). apply in_seq. lia. }
  split.
  { split; [exact B0|]. split; [exact B1|]. intros t k Ht Hk.
    apply (HB t k Ht Hk). apply in_seq. lia. }
  split.
  - split; [exact D0|]. split; [exact D1|]. intros t k Ht Hk.
    cbn [smul2 map2 get2]. now rewrite HDu.
  - split; [exact D0'|]. split; [exact D1'|]. intros t k Ht Hk.
    cbn [smul2 map2 get2]. now rewrite HDv.
Qed.

End Run.

(** ** Failure modes *)

(** Success of the stencil arithmetic depends on the shapes only. *)
Ltac shapes :=
  repeat (cbn [rbind d40 d41 d42 d43 getitem4 map4 neg4 smul4 divs4 mean23
               Slice_call istart iend jstart jend];
          match goal with
          | |- context [match bdim ?a ?b with _ => _ end] =>
              destruct (bdim a b)
          | |- Raise _ = Ok _ -> _ => discriminate
          | |- exists _, Ok ?x = Ok _ => intros; exists x; reflexivity
          | |- _ -> exists _, Ok ?x = Ok _ => intros; exists x; reflexivity
          | |- _ -> exists _, Raise _ = Ok _ => fail 1
          end).

Lemma advec_2nd_shape s sl S S' dx dy a :
  d40 S' = d40 S -> d41 S' = d41 S -> d42 S' = d42 S -> d43 S' = d43 S ->
  advec_2nd s sl S dx dy = Ok a ->
  exists a', advec_2nd s sl S' dx dy = Ok a'.
Proof.
  intros e0 e1 e2 e3. revert a.
  unfold advec_2nd, fd.grad2c, sub4, mul4, binop4.
  cbn [rbind d40 d41 d42 d43 getitem4 map4 neg4 smul4 divs4 mean23
               Slice_call istart iend jstart jend].
  rewrite e0, e1, e2, e3. intros a.
  shapes.
Qed.

Lemma advec_4th_shape s sl S S' dx dy a :
  d40 S' = d40 S -> d41 S' = d41 S -> d42 S' = d42 S -> d43 S' = d43 S ->
  advec_4th s sl S dx dy = Ok a ->
  exists a', advec_4th s sl S' dx dy = Ok a'.
Proof.
  intros e0 e1 e2 e3. revert a.
  unfold advec_4th, fd.grad4c, sub4, add4, mul4, binop4.
  cbn [rbind d40 d41 d42 d43 getitem4 map4 neg4 smul4 divs4 mean23
               Slice_call istart iend jstart jend].
  rewrite e0, e1, e2, e3. intros a.
  shapes.
Qed.

Ltac shapes_dims :=
  repeat (cbn [rbind d40 d41 d42 d43 d20 d21 getitem4 map4 neg4 smul4 divs4 mean23
               Slice_call istart iend jstart jend];
          rewrite ?bdim_same;
          match goal with
          | |- context [match bdim ?a ?b with _ => _ end] =>
              destruct (bdim a b)
          | |- Raise _ = Ok _ -> _ => discriminate
          | |- _ -> exists _, Ok _ = Ok _ /\ _ =>
              intros; eexists; split; [reflexivity|split; unfold extent, hi, lo; cbn; lia]
          | |- _ -> exists _, Raise _ = Ok _ /\ _ => fail 1
          end).

Section GeoShape.
Variable grav : R.

Lemma vg_p_2nd_shape s sl S dx dy a :
  d42 (z_p s) = d42 S -> d43 (z_p s) = d43 S ->
  advec_2nd s sl S dx dy = Ok a ->
  exists r, vg_p_2nd grav s sl dx = Ok r /\
            d20 r = d40 (z_p s) /\ d21 r = d41 (z_p s).
Proof.
  intros e2 e3. revert a.
  unfold advec_2nd, vg_p_2nd, fd.grad2c, sub4, mul4, binop4.
  cbn [rbind d40 d41 d42 d43 getitem4 map4 neg4 smul4 divs4 mean23
               Slice_call istart iend jstart jend].
  rewrite e2, e3, !bdim_same. intros a. shapes_dims.
Qed.

Lemma ug_p_2nd_shape s sl S dx dy a :
  d42 (z_p s) = d42 S -> d43 (z_p s) = d43 S ->
  advec_2nd s sl S dx dy = Ok a ->
  exists r, ug_p_2nd grav s sl dy = Ok r /\
            d20 r = d40 (z_p s) /\ d21 r = d41 (z_p s).
Proof.
  intros e2 e3. revert a.
  unfold advec_2nd, ug_p_2nd, fd.grad2c, sub4, mul4, binop4.
  cbn [rbind d40 d41 d42 d43 getitem4 map4 neg4 smul4 divs4 mean23
               Slice_call istart iend jstart jend].
  rewrite e2, e3, !bdim_same. intros a. shapes_dims.
Qed.

Lemma vg_p_4th_shape s sl S dx dy a :
  d42 (z_p s) = d42 S -> d43 (z_p s) = d43 S ->
  advec_4th s sl S dx dy = Ok a ->
  exists r, vg_p_4th grav s sl dx = Ok r /\
            d20 r = d40 (z_p s) /\ d21 r = d41 (z_p s).
Proof.
  intros e2 e3. revert a.
  unfold advec_4th, vg_p_4th, fd.grad4c, sub4, add4, mul4, binop4.
  cbn [rbind d40 d41 d42 d43 getitem4 map4 neg4 smul4 divs4 mean23
               Slice_call istart iend jstart jend].
  rewrite e2, e3, !bdim_same. intros a. shapes_dims.
Qed.

Lemma ug_p_4th_shape s sl S dx dy a :
  d42 (z_p s) = d42 S -> d43 (z_p s) = d43 S ->
  advec_4th s sl S dx dy = Ok a ->
  exists r, ug_p_4th grav s sl dy = Ok r /\
            d20 r = d40 (z_p s) /\ d21 r = d41 (z_p s).
Proof.
  intros e2 e3. revert a.
  unfold advec_4th, ug_p_4th, fd.grad4c, sub4, add4, mul4, binop4.
  cbn [rbind d40 d41 d42 d43 getitem4 map4 neg4 smul4 divs4 mean23
               Slice_call istart iend jstart jend].
  rewrite e2, e3, !bdim_same. intros a. shapes_dims.
Qed.

End GeoShape.

Section Cases.
Variable grav : R.
Variable s : Source.
Hypothesis Hwf : wf s.

Lemma method_branch_cases sl method dx dy e1 :
  (exists x, method_branch grav s sl method dx dy e1 = (e1, Raise x)) \/
  (exists e2 ugp vgp,
      method_branch grav s sl method dx dy e1 = (e2, Ok (ugp, vgp)) /\
      src e2 = src e1 /\ means e2 = means e1 /\
      geo_shape s ugp /\ geo_shape s vgp).
Proof.
  destruct (wf_thl s Hwf) as (t0 & t1 & t2 & t3).
  destruct (wf_qt s Hwf) as (q0 & q1 & q2 & q3).
  destruct (wf_u s Hwf) as (u0 & u1 & u2 & u3).
  destruct (wf_v s Hwf) as (v0 & v1 & v2 & v3).
  destruct (wf_z_p s Hwf) as (z0 & z1 & z2 & z3).
  unfold method_branch.
  destruct (method =? "2nd")%string.
  - destruct (advec_2nd s sl (thl s) dx dy) as [a1|x] eqn:E1.
    + right.
      destruct (advec_2nd_shape s sl (thl s) (qt s) dx dy a1) as (a2 & E2);
        try congruence.
      destruct (advec_2nd_shape s sl (thl s) (u s) dx dy a1) as (a3 & E3);
        try congruence.
      destruct (advec_2nd_shape s sl (thl s) (v s) dx dy a1) as (a4 & E4);
        try congruence.
      destruct (vg_p_2nd_shape grav s sl (thl s) dx dy a1) as (vgp & Ev & V0 & V1);
        try congruence.
      destruct (ug_p_2nd_shape grav s sl (thl s) dx dy a1) as (ugp & Eu & U0 & U1);
        try congruence.
      exists (with_advec a1 a2 a3 a4 e1), (Some ugp), (Some vgp).
      split; [cbv [bind lift assign ret]; rewrite E2, E3, E4, Ev, Eu; reflexivity|].
      split; [reflexivity|]. split; [reflexivity|].
      split; intros g [= <-]; split; congruence.
    + left. exists x. reflexivity.
  - destruct (method =? "4th")%string.
    + destruct (advec_4th s sl (thl s) dx dy) as [a1|x] eqn:E1.
      * right.
        destruct (advec_4th_shape s sl (thl s) (qt s) dx dy a1) as (a2 & E2);
          try congruence.
        destruct (advec_4th_shape s sl (thl s) (u s) dx dy a1) as (a3 & E3);
          try congruence.
        destruct (advec_4th_shape s sl (thl s) (v s) dx dy a1) as (a4 & E4);
          try congruence.
        destruct (vg_p_4th_shape grav s sl (thl s) dx dy a1) as (vgp & Ev & V0 & V1);
          try congruence.
        destruct (ug_p_4th_shape grav s sl (thl s) dx dy a1) as (ugp & Eu & U0 & U1);
          try congruence.
        exists (with_advec a1 a2 a3 a4 e1), (Some ugp), (Some vgp).
        split; [cbv [bind lift assign ret]; rewrite E2, E3, E4, Ev, Eu; reflexivity|].
        split; [reflexivity|]. split; [reflexivity|].
        split; intros g [= <-]; split; congruence.
      * left. exists x. reflexivity.
    + right. exists e1, None, None. split; [reflexivity|].
      split; [reflexivity|]. split; [reflexivity|].
      split; intros g [=].
Qed.

Lemma interp_row_cases m name g_p t e :
  means e = Some m ->
  d20 (p_mean m) = ntime s -> d21 (p_mean m) = nfull s ->
  geo_shape s g_p -> t < ntime s ->
  (exists r, interp_row s name g_p t e = (e, Ok r) /\ len1 r = nfull s) \/
  interp_row s name g_p t e = (e, Raise InterpError) \/
  interp_row s name g_p t e = (e, Raise (UnboundLocalError name)).
Proof.
  intros Hm P0 P1 Hg Ht. unfold interp_row.
  destruct g_p as [g|]; [|right; right; reflexivity].
  destruct (Hg g eq_refl) as (G0 & G1).
  cbv [bind lift local self attr ret row2 interp1d].
  rewrite G0, G1. destruct (Nat.ltb_spec t (ntime s)) as [_|]; [|lia].
  cbn [len1]. rewrite Nat.eqb_refl. cbn [negb].
  destruct (len1 (p_p s) <? 1); [right; left; reflexivity|].
  left. rewrite Hm, P0. destruct (Nat.ltb_spec t (ntime s)) as [_|]; [|lia].
  eexists. split; [reflexivity|]. cbn [call len1]. exact P1.
Qed.

Lemma interp_step_cases m ug_p vg_p t e0 a b :
  means e0 = Some m ->
  d20 (p_mean m) = ntime s -> d21 (p_mean m) = nfull s ->
  geo_shape s ug_p -> geo_shape s vg_p -> t < ntime s ->
  d20 a = ntime s -> d21 a = nfull s -> d20 b = ntime s -> d21 b = nfull s ->
  exists a' b' r,
    interp_step s ug_p vg_p t (with_geo a b e0) = (with_geo a' b' e0, r) /\
    loop_end r /\
    d20 a' = ntime s /\ d21 a' = nfull s /\ d20 b' = ntime s /\ d21 b' = nfull s.
Proof.
  intros Hm P0 P1 Hu Hv Ht A0 A1 B0 B1. unfold interp_step.
  unfold bind at 1.
  destruct (interp_row_cases m "ug_p" ug_p t (with_geo a b e0) Hm P0 P1 Hu Ht)
    as [(r & -> & Hr)|[->| ->]].
  2: { exists a, b, (Raise InterpError). repeat split; try assumption; constructor. }
  2: { exists a, b, (Raise (UnboundLocalError "ug_p")).
       repeat split; try assumption; constructor. }
  cbv [bind self attr lift assign]. cbn [frc ug vg with_geo].
  unfold setrow2. rewrite A0, A1, Hr.
  destruct (Nat.ltb_spec t (ntime s)) as [_|]; [|lia].
  rewrite Nat.eqb_refl. cbn [orb].
  set (a1 := mk2 (ntime s) (nfull s) _).
  change (set_ug a1 (with_geo a b e0)) with (with_geo a1 b e0).
  destruct (interp_row_cases m "vg_p" vg_p t (with_geo a1 b e0) Hm P0 P1 Hv Ht)
    as [(r' & -> & Hr')|[->| ->]].
  2: { exists a1, b, (Raise InterpError). repeat split; try assumption; constructor. }
  2: { exists a1, b, (Raise (UnboundLocalError "vg_p")).
       repeat split; try assumption; constructor. }
  cbn [frc ug vg with_geo]. rewrite B0, B1, Hr'.
  destruct (Nat.ltb_spec t (ntime s)) as [_|]; [|lia].
  rewrite Nat.eqb_refl. cbn [orb].
  set (b1 := mk2 (ntime s) (nfull s) _).
  exists a1, b1, (Ok tt). repeat split; constructor.
Qed.

Lemma interp_loop_cases m ug_p vg_p e0 ts :
  means e0 = Some m ->
  d20 (p_mean m) = ntime s -> d21 (p_mean m) = nfull s ->
  geo_shape s ug_p -> geo_shape s vg_p ->
  Forall (fun t => t < ntime s) ts ->
  forall a b,
  d20 a = ntime s -> d21 a = nfull s -> d20 b = ntime s -> d21 b = nfull s ->
  exists a' b' r,
    for_each ts (interp_step s ug_p vg_p) (with_geo a b e0)
    = (with_geo a' b' e0, r) /\
    loop_end r /\
    d20 a' = ntime s /\ d21 a' = nfull s /\ d20 b' = ntime s /\ d21 b' = nfull s.
Proof.
  intros Hm P0 P1 Hu Hv. induction 1 as [|t ts Ht _ IH]; intros a b A0 A1 B0 B1.
  - exists a, b, (Ok tt). repeat split; try assumption; constructor.
  - cbn [for_each]. unfold bind at 1.
    destruct (interp_step_cases m ug_p vg_p t e0 a b Hm P0 P1 Hu Hv Ht A0 A1 B0 B1)
      as (a1 & b1 & r & -> & Hr & A0' & A1' & B0' & B1').
    destruct Hr.
    + apply IH; assumption.
    + exists a1, b1, (Raise InterpError). repeat split; try assumption; constructor.
    + exists a1, b1, (Raise (UnboundLocalError name)).
      repeat split; try assumption; constructor.
Qed.

End Cases.

Lemma mean_shape s S c :
  model_shape s S ->
  d20 (mean23 (getitem4 S (full, full, fst c, snd c))) = ntime s /\
  d21 (mean23 (getitem4 S (full, full, fst c, snd c))) = nfull s.
Proof.
  intros (s0 & s1 & _ & _). cbn [mean23 getitem4 d20 d21 d40 d41].
  unfold extent, hi, lo; cbn. lia.
Qed.

Section RunCases.
Variable grav : R.
Variable dlon : R -> R -> R -> R.
Variable dlat : R -> R -> R.

Lemma calculate_forcings_cases e n_av method :
  let s := src e in
  let m := window_means s (centre4 s n_av) (centre3 s n_av) in
  wf s ->
  (exists x, calculate_forcings grav dlon dlat n_av method e
             = (set_means m e, Raise x)) \/
  (exists e2 a b r, calculate_forcings grav dlon dlat n_av method e
                    = (with_geo a b e2, Raise r) /\
                    (r = InterpError \/ exists name, r = UnboundLocalError name)) \/
  (exists e', calculate_forcings grav dlon dlat n_av method e = (e', Ok tt)).
Proof.
  intros s m Hwf.
  pose proof (mean_shape s (p s) (range (j s - n_av) (j s + n_av + 1),
                                   range (i s - n_av) (i s + n_av + 1))
                (wf_p s Hwf)) as (P0 & P1).
  pose proof (mean_shape s (u s) (range (j s - n_av) (j s + n_av + 1),
                                   range (i s - n_av) (i s + n_av + 1))
                (wf_u s Hwf)) as (U0 & U1).
  pose proof (mean_shape s (v s) (range (j s - n_av) (j s + n_av + 1),
                                   range (i s - n_av) (i s + n_av + 1))
                (wf_v s Hwf)) as (V0 & V1).
  cbn [fst snd] in P0, P1, U0, U1, V0, V1.
  change (mean23 (getitem4 (p s) _)) with (p_mean m) in P0, P1.
  change (mean23 (getitem4 (u s) _)) with (u_mean m) in U0, U1.
  change (mean23 (getitem4 (v s) _)) with (v_mean m) in V0, V1.
  remember (calculate_forcings grav dlon dlat n_av method e) as run eqn:Erun.
  unfold calculate_forcings in Erun.
  unfold bind at 1 in Erun. unfold self at 1 in Erun. fold s in Erun.
  unfold bind at 1 in Erun. unfold assign at 1 in Erun.
  change (window_means s _ _) with m in Erun.
  unfold bind at 1 in Erun. unfold lift at 1 in Erun.
  destruct (grid_spacing dlon dlat s) as [dxy|x].
  2: { left. exists x. exact Erun. }
  unfold bind at 1 in Erun.
  destruct (method_branch_cases grav s Hwf
              (mkSlice (i s - n_av) (i s + n_av + 1) (j s - n_av) (j s + n_av + 1))
              method (fst dxy) (snd dxy) (set_means m e))
    as [(x & Ebr)|(e2 & ugp & vgp & Ebr & Hsrc & Hmeans & Hu & Hv)];
    rewrite Ebr in Erun.
  { left. exists x. exact Erun. }
  cbn [means set_means] in Hmeans. cbn [fst snd] in Erun.
  unfold bind at 1 in Erun. unfold self at 1 in Erun.
  unfold bind at 1 in Erun. rewrite Hmeans in Erun.
  unfold attr at 1, lift at 1 in Erun.
  unfold bind at 1 in Erun. unfold assign at 1 in Erun.
  unfold bind at 1 in Erun. unfold self at 1 in Erun.
  unfold bind at 1 in Erun. unfold attr at 1, lift at 1 in Erun.
  change (means (set_ug _ e2)) with (means e2) in Erun. rewrite Hmeans in Erun.
  unfold bind at 1 in Erun. unfold assign at 1 in Erun.
  change (set_vg (zeros_like2 (p_mean m)) (set_ug (zeros_like2 (p_mean m)) e2))
    with (with_geo (zeros_like2 (p_mean m)) (zeros_like2 (p_mean m)) e2) in Erun.
  unfold bind at 1 in Erun.
  destruct (interp_loop_cases s m ugp vgp e2 (seq 0 (ntime s)) Hmeans P0 P1 Hu Hv
              ltac:(apply Forall_forall; intros x Hx; apply in_seq in Hx; lia)
              (zeros_like2 (p_mean m)) (zeros_like2 (p_mean m)) P0 P1 P0 P1)
    as (a' & b' & r & Eloop & Hr & A0 & A1 & B0 & B1).
  rewrite Eloop in Erun.
  destruct Hr.
  - right; right.
    cbv [bind self attr lift assign] in Erun.
    cbn [means frc ug vg with_geo] in Erun. rewrite Hmeans in Erun.
    unfold sub2, binop2 in Erun.
    rewrite V0, V1, B0, B1, !bdim_same in Erun.
    cbn [means frc ug vg with_geo set_dtu_coriolis set_frc] in Erun.
    rewrite Hmeans in Erun.
    rewrite U0, U1, A0, A1, !bdim_same in Erun.
    eexists. exact Erun.
  - right; left. exists e2, a', b', InterpError. split; [exact Erun|now left].
  - right; left. exists e2, a', b', (UnboundLocalError name).
    split; [exact Erun|right; now exists name].
Qed.

End RunCases.

(** ** The attributes set by __init__ are never assigned *)

Lemma preserves_ret {A} (a : A) : preserves_src (ret a).
Proof. intros e. reflexivity. Qed.

Lemma preserves_lift {A} (r : result A) : preserves_src (lift r).
Proof. intros e. reflexivity. Qed.

Lemma preserves_self : preserves_src self.
Proof. intros e. reflexivity. Qed.

Lemma preserves_attr {A} (o : option A) : preserves_src (attr o).
Proof. intros e. reflexivity. Qed.

Lemma preserves_local {A} name (o : option A) : preserves_src (local name o).
Proof. intros e. reflexivity. Qed.

Lemma preserves_set_means m : preserves_src (assign (set_means m)).
Proof. intros e. reflexivity. Qed.

Lemma preserves_set_frc f : preserves_src (assign (set_frc f)).
Proof. intros e. reflexivity. Qed.

Lemma preserves_bind {A B} (c : M A) (k : A -> M B) :
  preserves_src c -> (forall a, preserves_src (k a)) -> preserves_src (bind c k).
Proof.
  intros Hc Hk e. unfold bind. specialize (Hc e).
  destruct (c e) as [e' [a|x]]; cbn [fst] in *.
  - now rewrite Hk.
  - exact Hc.
Qed.

Lemma preserves_for_each ts body :
  (forall t, preserves_src (body t)) -> preserves_src (for_each ts body).
Proof.
  intros Hb. induction ts as [|t ts IH]; cbn [for_each].
  - apply preserves_ret.
  - apply preserves_bind; [apply Hb|intros _; exact IH].
Qed.

Create HintDb frame.
#[local] Hint Resolve preserves_ret preserves_lift preserves_self
  preserves_attr preserves_local preserves_set_means preserves_set_frc : frame.

Ltac frame :=
  repeat first
    [ solve [auto with frame]
    | apply preserves_bind; [|intros ?]
    | apply preserves_for_each; intros ?
    | progress cbv zeta
    | match goal with
      | |- preserves_src (if ?b then _ else _) => destruct b
      end ].

Lemma preserves_method_branch grav s sl method dx dy :
  preserves_src (method_branch grav s sl method dx dy).
Proof.
  unfold method_branch, set_dtthl_advec, set_dtqt_advec, set_dtu_advec,
    set_dtv_advec.
  frame.
Qed.

Lemma preserves_interp_step s ug_p vg_p t :
  preserves_src (interp_step s ug_p vg_p t).
Proof. unfold interp_step, interp_row, set_ug, set_vg. frame. Qed.

Lemma preserves_calculate_forcings grav dlon dlat n_av method :
  preserves_src (calculate_forcings grav dlon dlat n_av method).
Proof.
  unfold calculate_forcings, set_ug, set_vg, set_dtu_coriolis, set_dtv_coriolis.
  pose proof preserves_method_branch. pose proof preserves_interp_step.
  frame.
Qed.

(** ** Quantities computed at load *)

Lemma extent_full n : extent n full = n.
Proof. unfold extent, hi, lo; cbn. lia. Qed.

Lemma extent_from_1 n : extent n (from 1) = n - 1.
Proof.
  unfold extent, hi, lo, adjust, from; cbn [start stop].
  change (1 <? 0)%Z with false. cbv iota. lia.
Qed.

Lemma extent_upto_last n : extent n (upto (-1)) = n - 1.
Proof.
  unfold extent, hi, lo, adjust, upto; cbn [start stop].
  change (-1 <? 0)%Z with true. cbv iota. lia.
Qed.

Lemma lo_from_1 n : 1 <= n -> lo n (from 1) = 1.
Proof.
  intros H. unfold lo, adjust, from; cbn [start].
  change (1 <? 0)%Z with false. cbv iota. lia.
Qed.

Lemma full_level_value xh :
  exists a, full_level xh = Ok a /\
    is4 a (d40 xh) (d41 xh - 1) (d42 xh) (d43 xh)
      (fun t k j i => (get4 xh t k j i + get4 xh t (k + 1) j i) / 2)%R.
Proof.
  unfold full_level, add4, binop4.
  cbn [getitem4 d40 d41 d42 d43].
  rewrite !extent_full, extent_from_1, extent_upto_last, !bdim_same.
  cbn [rbind]. eexists. split; [reflexivity|].
  split; [reflexivity|]. split; [reflexivity|]. split; [reflexivity|].
  split; [reflexivity|].
  intros t k j i Ht Hk Hj Hi. cbn [smul4 map4 get4].
  rewrite !bidx_lt by assumption.
  rewrite lo_from_1 by lia.
  replace (1 + k) with (k + 1) by lia.
  unfold lo; cbn [start full upto]. cbn [Nat.add]. lra.
Qed.

Lemma all_equal_differ a b k :
  broadcastable (len1 a) (len1 b) ->
  k < len1 a -> k < len1 b -> get1 a k <> get1 b k -> all_equal a b = Ok false.
Proof.
  intros Hbc Ha Hb Hne. unfold all_equal.
  destruct (bdim (len1 a) (len1 b)) as [n|] eqn:E.
  - assert (Hk : k < n).
    { unfold bdim in E.
      destruct (len1 a =? len1 b); [injection E as <-; lia|].
      destruct (len1 a =? 1); [injection E as <-; lia|].
      destruct (len1 b =? 1); [injection E as <-; lia|discriminate]. }
    f_equal. apply not_true_is_false. intros Hall.
    rewrite forallb_forall in Hall.
    specialize (Hall k ltac:(apply in_seq; lia)).
    rewrite !bidx_lt in Hall by assumption.
    destruct (Req_dec_T (get1 a k) (get1 b k)); [contradiction|discriminate].
  - exfalso. unfold bdim in E. destruct Hbc as [H|[H|H]].
    + rewrite H, Nat.eqb_refl in E. discriminate.
    + rewrite H in E. destruct (1 =? len1 b); [discriminate|].
      cbn [Nat.eqb] in E. discriminate.
    + rewrite H in E. destruct (len1 a =? 1); [discriminate|].
      destruct (len1 a =? 1); cbn [Nat.eqb] in E; discriminate.
Qed.

Lemma all_equal_not_broadcastable a b :
  ~ broadcastable (len1 a) (len1 b) -> all_equal a b = Raise BroadcastError.
Proof.
  intros H. unfold all_equal, bdim.
  destruct (Nat.eqb_spec (len1 a) (len1 b)) as [E|_];
    [exfalso; apply H; now left|].
  destruct (Nat.eqb_spec (len1 a) 1) as [E|_];
    [exfalso; apply H; right; now left|].
  destruct (Nat.eqb_spec (len1 b) 1) as [E|_];
    [exfalso; apply H; right; now right|].
  reflexivity.
Qed.

(** ** The directory name in the settings *)

Lemma get_last pre c : String.get (String.length pre) (pre ++ String c "") = Some c.
Proof. induction pre as [|d pre IH]; [reflexivity|exact IH]. Qed.

Lemma length_snoc pre c :
  String.length (pre ++ String c "") = S (String.length pre).
Proof. induction pre as [|d pre IH]; cbn; [reflexivity|now rewrite IH]. Qed.

Lemma str_item_last pre c : str_item (pre ++ String c "") (-1) = Ok c.
Proof.
  unfold str_item. rewrite length_snoc, index_last by lia.
  replace (S (String.length pre) - 1) with (String.length pre) by lia.
  now rewrite get_last.
Qed.

Lemma snoc_cases (x : string) : x = ""%string \/ exists pre c, x = (pre ++ String c "")%string.
Proof.
  induction x as [|d x IH]; [now left|right].
  destruct IH as [->|(pre & c & ->)].
  - exists ""%string, d. reflexivity.
  - exists (String d pre), c. reflexivity.
Qed.

Lemma snoc_inj pre pre' c c' :
  (pre ++ String c "" = pre' ++ String c' "")%string -> c = c'.
Proof.
  revert pre'. induction pre as [|d pre IH]; intros [|d' pre'] H; cbn in H.
  - now injection H.
  - injection H as _ H. destruct pre'; discriminate.
  - injection H as _ H. destruct pre; discriminate.
  - injection H as _ H. now apply IH in H.
Qed.

(** The last character decides whether the name ends with a slash. *)
Lemma last_char path :
  path <> ""%string ->
  exists c, str_item path (-1) = Ok c /\
            (Ascii.eqb c "/" = true <-> ends_with_slash path).
Proof.
  intros Hne. destruct (snoc_cases path) as [->|(pre & c & ->)]; [contradiction|].
  exists c. split; [apply str_item_last|]. split.
  - intros E. apply Ascii.eqb_eq in E. subst c. now exists pre.
  - intros (pre' & E). apply snoc_inj in E. subst c. reflexivity.
Qed.

(** ** The sample grid *)

Lemma sample_wf ic jc u0 v0 f : wf (Sample.grid ic jc u0 v0 f).
Proof. repeat split. Qed.

(** Evaluation of integer arithmetic on literals. *)
Ltac eval_nats :=
  repeat match goal with
    | |- context [Z.to_nat ?z] =>
        let v := eval vm_compute in (Z.to_nat z) in
        progress change (Z.to_nat z) with v
    | |- context [Z.of_nat ?n] =>
        let v := eval vm_compute in (Z.of_nat n) in
        progress change (Z.of_nat n) with v
    | |- context [Pos.to_nat ?p] =>
        let v := eval vm_compute in (Pos.to_nat p) in
        progress change (Pos.to_nat p) with v
    end.

(** Evaluation of a quantity of the sample grid down to real arithmetic. *)
Ltac crunch :=
  unfold Sample.inner, Sample.inner_uv, Sample.west_edge, Sample.east_edge,
    Sample.inner_means, Sample.inner_averaged, Sample.wind_profile,
    Sample.an_times, Sample.late_times,
    window_mean, width, j0, i0, advection, advection_code, geo_u, geo_v,
    dx_of, dy_of, Sample.dlon, Sample.dlat, Sample.num;
  repeat (progress (cbn; rewrite ?INR_IZR_INZ;
                    unfold ddx2, ddy2, ddx4, ddy4, Sample.num; eval_nats)).

Lemma sample_dx jc u0 v0 f :
  dx_of Sample.dlon (Sample.grid 2 jc u0 v0 f) = 100000%R.
Proof. crunch. rewrite Rabs_right; lra. Qed.

Lemma sample_dy ic u0 v0 f :
  dy_of Sample.dlat (Sample.grid ic 2 u0 v0 f) = 100000%R.
Proof. crunch. rewrite Rabs_right; lra. Qed.

Lemma sample_in_bounds_2nd u0 v0 f :
  in_bounds (Sample.grid 2 2 u0 v0 f) 1 (margin "2nd").
Proof. unfold in_bounds; cbn. lia. Qed.

Lemma sample_in_bounds_4th u0 v0 f :
  in_bounds (Sample.grid 2 2 u0 v0 f) 0 (margin "4th").
Proof. unfold in_bounds; cbn. lia. Qed.

Lemma sample_levels_distinct u0 v0 f :
  NoDup (to_list1 (p_p (Sample.grid 2 2 u0 v0 f))).
Proof.
  unfold to_list1, Sample.grid, Sample.num; cbn.
  repeat constructor; cbn; intros H;
    repeat (destruct H as [H|H]; [lra|]); exact H.
Qed.

Lemma sample_levels_decreasing u0 v0 f :
  decreasing (p_p (Sample.grid 2 2 u0 v0 f)).
Proof.
  intros a b Hab Hb. cbn [Sample.grid p_p get1]. unfold Sample.num.
  assert (IZR (Z.of_nat a) < IZR (Z.of_nat b))%R by (apply IZR_lt; lia).
  lra.
Qed.

Lemma data_has_no_final_slash : ~ ends_with_slash "/data/ERA5".
Proof.
  intros (pre & E).
  change "/data/ERA5"%string with ("/data/ERA" ++ String "5" "")%string in E.
  change (pre ++ "/")%string with (pre ++ String "/" "")%string in E.
  apply snoc_inj in E. discriminate.
Qed.

(* ================================================================== *)
(** * The claims *)
(* ================================================================== *)

(** ** Advective tendencies *)

(** The expression of the code adds the meridional term. *)
Lemma advection_code_sign method s S dx dy t k j i :
  advection_code method s S dx dy t k j i
  = (- get4 (u s) t k j i * ddx method S dx t k j i
     + get4 (v s) t k j i * ddy method S dy t k j i)%R.
Proof. unfold advection_code. ring. Qed.

(** It differs from the specified tendency by twice the meridional
    advection, for every field and both stencils. *)
Lemma advection_code_gap method s S dx dy t k j i :
  (advection_code method s S dx dy t k j i - advection method s S dx dy t k j i
   = 2 * (get4 (v s) t k j i * ddy method S dy t k j i))%R.
Proof. unfold advection_code, advection. ring. Qed.

(** C1 (the code departs from the claim).  On the sample grid, with a
    uniform southerly wind of 1 m/s and [thl] increasing by 1 K per
    100 km towards the north, [calculate_forcings(n_av=1, method='2nd')]
    assigns +1e-5 K/s to [dtthl_advec] at the first time and level, where
    the window mean of [-u (dS/dx) - v (dS/dy)] is -1e-5 K/s. *)
Theorem C1_southerly_wind_tendency_has_wrong_sign :
  exists a,
    dtthl_advec (frc (fst (Sample.run Sample.inner 1 "2nd"))) = Some a /\
    get2 a 0 0 = 0.00001%R /\
    window_mean (j0 Sample.inner 1) (i0 Sample.inner 1) (width 1)
      (advection "2nd" Sample.inner (thl Sample.inner)
         (dx_of Sample.dlon Sample.inner) (dy_of Sample.dlat Sample.inner) 0 0)
    = (- 0.00001)%R.
Proof.
  destruct (calculate_forcings_run Sample.grav Sample.dlon Sample.dlat
              (loaded Sample.inner) 1 "2nd" (sample_wf _ _ _ _ _) eq_refl
              (sample_in_bounds_2nd _ _ _) ltac:(cbn; lia))
    as (a1 & a2 & a3 & a4 & ugp & vgp & ug_ & vg_ & du & dv & Erun & _ & H1 & _).
  exists a1. unfold Sample.run. rewrite Erun. split; [reflexivity|].
  destruct H1 as (_ & _ & H1). rewrite H1 by (cbn; lia).
  cbn [src loaded].
  rewrite (sample_dx 2 0 1 0.0001 : dx_of Sample.dlon Sample.inner = _).
  rewrite (sample_dy 2 0 1 0.0001 : dy_of Sample.dlat Sample.inner = _).
  split; crunch; lra.
Qed.

(** ** Geostrophic wind *)

Lemma coriolis_sign lat :
  let f := (2 * 7.2921e-5 * sin (deg2rad lat))%R in
  ((0 < lat <= 90 -> 0 < f) /\ (-90 <= lat < 0 -> f < 0))%R.
Proof.
  intros f. pose proof PI_RGT_0 as Hpi. unfold f, deg2rad. split; intros [H1 H2].
  - assert (0 < sin (lat * (PI / 180)))%R by (apply sin_gt_0; nra). nra.
  - assert (sin (lat * (PI / 180)) < 0)%R by (apply sin_lt_0_var; nra). nra.
Qed.

(** C2.  With a supported method, the window plus margin inside the grid,
    at least two distinct pressure levels, grid spacings that are not
    zero and a central latitude off the equator ([f <> 0]),
    [calculate_forcings] completes; the geostrophic wind on
    the pressure levels, [ug_p] and [vg_p], holds one value per time and
    pressure level, the window mean of [-(g/f) dZ/dy] and of
    [(g/f) dZ/dx], where the derivatives are the centred differences of
    the chosen method with the grid spacings [dx] and [dy] that the
    function computes, and [self.ug], [self.vg] are these arrays
    interpolated onto the model levels.  [f] is [2 * 7.2921e-5 * sin(lat)]
    at the central latitude, positive in the northern and negative in the
    southern hemisphere.  [dZ/dy] is taken from the row after to the row
    before the centre: when the latitudes decrease with the row index, as
    in the ERA5 files, [2 dy] is the distance between these rows towards
    the north, and likewise [2 dx] towards the east. *)
Theorem C2_geostrophic_wind_on_pressure_levels
    (grav : R) (dlon : R -> R -> R -> R) (dlat : R -> R -> R)
    (settings : dict) (lat : R) (e : Era) (n_av : Z) (method : string) :
  let s := src e in
  let m := window_means s (centre4 s n_av) (centre3 s n_av) in
  let wmean := window_mean (j0 s n_av) (i0 s n_av) (width n_av) in
  let f := (2 * 7.2921e-5 * sin (lat * (PI / 180)))%R in
  let dx := dx_of dlon s in
  let dy := dy_of dlat s in
  let west := get1 (lons s) (Z.to_nat (i s - 1)) in
  let east := get1 (lons s) (Z.to_nat (i s + 1)) in
  let south := get1 (lats s) (Z.to_nat (j s + 1)) in
  let north := get1 (lats s) (Z.to_nat (j s - 1)) in
  dict_get settings "central_lat" = Ok (Float lat) ->
  init_fc settings = Ok (fc s) -> f <> 0%R ->
  wf s -> supported method = true -> in_bounds s n_av (margin method) ->
  2 <= len1 (p_p s) -> NoDup (to_list1 (p_p s)) ->
  dx <> 0%R -> dy <> 0%R ->
  exists e' ug_p vg_p ug_ vg_,
    calculate_forcings grav dlon dlat n_av method e = (e', Ok tt) /\
    is2 ug_p (ntime s) (len1 (p_p s))
        (fun t k => wmean (fun j i =>
           - (grav / f) * ddy method (z_p s) dy t k j i)%R) /\
    is2 vg_p (ntime s) (len1 (p_p s))
        (fun t k => wmean (fun j i =>
           grav / f * ddx method (z_p s) dx t k j i)%R) /\
    ug (frc e') = Some ug_ /\ vg (frc e') = Some vg_ /\
    is2 ug_ (ntime s) (nfull s) (interp_value s m ug_p) /\
    is2 vg_ (ntime s) (nfull s) (interp_value s m vg_p) /\
    ((0 < lat <= 90 -> 0 < f) /\ (-90 <= lat < 0 -> f < 0))%R /\
    ((0 <= dlon west east (get1 (lats s) (Z.to_nat (j s))) ->
      2 * dx = dlon west east (get1 (lats s) (Z.to_nat (j s)))) /\
     (0 <= dlat south north -> 2 * dy = dlat south north))%R.
Proof.
  intros s m wmean f dx dy west east south north Hlat Hfc Hf Hwf Hm Hb Hp
    Hnd Hdx Hdy.
  assert (Ef : fc s = f).
  { unfold init_fc in Hfc. rewrite Hlat in Hfc. cbn [rbind] in Hfc.
    injection Hfc as <-. reflexivity. }
  destruct (calculate_forcings_run grav dlon dlat e n_av method Hwf Hm Hb Hp)
    as (a1 & a2 & a3 & a4 & ugp & vgp & ug_ & vg_ & du & dv & Erun & _ & _ & _
        & _ & _ & Hu & Hv & HU & HV & _ & _).
  eexists _, ugp, vgp, ug_, vg_.
  split; [exact Erun|]. cbn [frc ug vg].
  unfold geo_u in Hu. unfold geo_v in Hv. fold s in Hu, Hv. rewrite Ef in Hu, Hv.
  split; [exact Hu|]. split; [exact Hv|].
  split; [reflexivity|]. split; [reflexivity|].
  split; [exact HU|]. split; [exact HV|].
  split; [apply coriolis_sign|].
  unfold dx, dy, dx_of, dy_of. fold west east south north.
  split; intros H; rewrite Rabs_pos_eq by lra; lra.
Qed.

Lemma C2_witness :
  (dict_get (Sample.settings_of "/data/") "central_lat" = Ok (Float 51.971) /\
   init_fc (Sample.settings_of "/data/") = Ok (fc Sample.at_cabauw) /\
   (2 * 7.2921e-5 * sin (51.971 * (PI / 180)))%R <> 0%R /\
   wf Sample.at_cabauw /\ supported "4th" = true /\
   in_bounds Sample.at_cabauw 0 (margin "4th") /\
   2 <= len1 (p_p Sample.at_cabauw) /\
   NoDup (to_list1 (p_p Sample.at_cabauw)) /\
   dx_of Sample.dlon Sample.at_cabauw <> 0%R /\
   dy_of Sample.dlat Sample.at_cabauw <> 0%R) /\
  exists e' ug_p vg_p ug_ vg_,
    Sample.run Sample.at_cabauw 0 "4th" = (e', Ok tt) /\
    ug (frc e') = Some ug_ /\ vg (frc e') = Some vg_ /\
    shape2 ug_p = (2, 3) /\ shape2 vg_p = (2, 3) /\
    shape2 ug_ = (2, 2) /\ shape2 vg_ = (2, 2) /\
    (0 < 2 * 7.2921e-5 * sin (51.971 * (PI / 180)))%R /\
    (2 * dy_of Sample.dlat Sample.at_cabauw)%R = 200000%R.
Proof.
  pose proof (proj1 (coriolis_sign 51.971) ltac:(lra)) as Hpos.
  unfold deg2rad in Hpos.
  assert (H : (dict_get (Sample.settings_of "/data/") "central_lat"
               = Ok (Float 51.971) /\
               init_fc (Sample.settings_of "/data/") = Ok (fc Sample.at_cabauw) /\
               (2 * 7.2921e-5 * sin (51.971 * (PI / 180)))%R <> 0%R /\
               wf Sample.at_cabauw /\ supported "4th" = true /\
               in_bounds Sample.at_cabauw 0 (margin "4th") /\
               2 <= len1 (p_p Sample.at_cabauw) /\
               NoDup (to_list1 (p_p Sample.at_cabauw)) /\
               dx_of Sample.dlon Sample.at_cabauw <> 0%R /\
               dy_of Sample.dlat Sample.at_cabauw <> 0%R)).
  { split; [reflexivity|]. split; [reflexivity|]. split; [lra|].
    split; [apply sample_wf|]. split; [reflexivity|].
    split; [apply sample_in_bounds_4th|]. split; [cbn; lia|].
    split; [apply sample_levels_distinct|].
    unfold Sample.at_cabauw. rewrite sample_dx, sample_dy. split; lra. }
  split; [exact H|].
  destruct H as (H1 & H2 & H3 & H4 & H5 & H6 & H7 & H8 & H9 & H10).
  destruct (C2_geostrophic_wind_on_pressure_levels Sample.grav Sample.dlon
              Sample.dlat (Sample.settings_of "/data/") 51.971
              (loaded Sample.at_cabauw) 0 "4th" H1 H2 H3 H4 H5 H6 H7 H8 H9 H10)
    as (e' & ug_p & vg_p & ug_ & vg_ & E & (U0 & U1 & _) & (V0 & V1 & _)
        & Eu & Ev & (A0 & A1 & _) & (B0 & B1 & _) & _ & _ & Hdy).
  exists e', ug_p, vg_p, ug_, vg_.
  split; [exact E|]. split; [exact Eu|]. split; [exact Ev|].
  unfold shape2. rewrite U0, U1, V0, V1, A0, A1, B0, B1.
  repeat (split; [reflexivity|]). split; [exact Hpos|].
  cbn [src loaded] in Hdy. rewrite Hdy; crunch; lra.
Defined.

(** ** Interpolation onto the model levels *)

(** On a decreasing pressure axis the interpolant at [v] is the line
    through the two levels that enclose [v], or through the two outermost
    levels on the side where [v] leaves the table. *)
Lemma interp_value_on_line s m g t k :
  decreasing (p_p s) -> 2 <= len1 (p_p s) ->
  let x := get2 (p_mean m) t k in
  let n := len1 (p_p s) in
  (forall l, S l < n -> (get1 (p_p s) (S l) < x <= get1 (p_p s) l)%R ->
     interp_value s m g t k = on_line (p_p s) g t l x) /\
  ((x <= get1 (p_p s) (n - 1))%R ->
   interp_value s m g t k = on_line (p_p s) g t (n - 2) x) /\
  ((get1 (p_p s) 0 < x)%R ->
   interp_value s m g t k = on_line (p_p s) g t 0 x).
Proof.
  intros Hd Hn x n. unfold interp_value, on_line. fold x.
  split; [|split].
  - intros l Hl Hx. apply interp_between; [assumption|assumption|lra].
  - intros Hx. destruct (Rle_lt_or_eq_dec _ _ Hx) as [Hlt|Heq].
    + rewrite (interp_below (p_p s) g t x Hd Hn Hlt). fold n.
      replace (n - 1) with (S (n - 2)) by lia. reflexivity.
    + pose proof (Hd (n - 2) (n - 1) ltac:(lia) ltac:(lia)) as Hlev.
      replace (n - 1) with (S (n - 2)) in Heq, Hlev by lia.
      apply interp_between; [assumption|lia|lra].
  - intros Hx. now apply interp_above.
Qed.

(** ** The interpolation in binary64 *)

Section Binary64Rows.

Import PrimFloat.

Lemma insert_last64 p l :
  Forall (fun q => (fst p <=? fst q)%float = false) l ->
  Binary64.insert p l = l ++ [p].
Proof.
  induction 1 as [|q l Hq _ IH]; cbn [Binary64.insert app]; [reflexivity|].
  rewrite Hq. now rewrite IH.
Qed.

Lemma strictly_decreasing_cons x r :
  Binary64.strictly_decreasing (x :: r) = true ->
  (x <? x)%float = false /\
  Forall (fun y => (y <? x)%float = true /\ (x <=? y)%float = false) r /\
  Binary64.strictly_decreasing r = true.
Proof.
  cbn [Binary64.strictly_decreasing]. intros H.
  apply andb_true_iff in H as [H H3]. apply andb_true_iff in H as [H1 H2].
  split; [now apply negb_true_iff|]. split; [|exact H3].
  apply Forall_forall. intros y Hy. rewrite forallb_forall in H2.
  specialize (H2 y Hy). apply andb_true_iff in H2 as [A B].
  split; [exact A|now apply negb_true_iff].
Qed.

(** The stable sort reverses a strictly decreasing axis. *)
Lemma sort_decreasing64 xs ys :
  Binary64.strictly_decreasing xs = true -> List.length ys = List.length xs ->
  Binary64.sort (combine xs ys) = rev (combine xs ys).
Proof.
  revert ys. induction xs as [|x xs IH]; intros ys Hd Hl; [reflexivity|].
  destruct ys as [|y ys]; [discriminate|]. cbn [List.length] in Hl.
  destruct (strictly_decreasing_cons x xs Hd) as (_ & Hx & Hd').
  cbn [combine rev]. unfold Binary64.sort. cbn [fold_right].
  fold (Binary64.sort (combine xs ys)). rewrite IH by (try assumption; lia).
  apply insert_last64. apply Forall_rev. apply Forall_forall.
  intros [a b] Hin. cbn [fst]. apply in_combine_l in Hin.
  rewrite Forall_forall in Hx. now apply Hx.
Qed.

Lemma searchsorted_app64 a b v :
  Forall (fun y => (y <? v)%float = true) a ->
  Binary64.searchsorted (a ++ b) v = List.length a + Binary64.searchsorted b v.
Proof.
  induction 1 as [|y a Hy _ IH]; [reflexivity|].
  cbn [app Binary64.searchsorted List.length]. rewrite Hy, IH. reflexivity.
Qed.

Lemma decreasing_split64 xs l :
  Binary64.strictly_decreasing xs = true -> l < List.length xs ->
  exists a b, xs = a ++ Binary64.item xs l :: b /\ List.length a = l /\
    (Binary64.item xs l <? Binary64.item xs l)%float = false /\
    Forall (fun y => (y <? Binary64.item xs l)%float = true) b.
Proof.
  unfold Binary64.item.
  revert l. induction xs as [|x xs IH]; intros l Hd Hl; [cbn in Hl; lia|].
  destruct (strictly_decreasing_cons x xs Hd) as (Hxx & Hx & Hd').
  destruct l as [|l].
  - exists [], xs. cbn [nth app List.length]. repeat split; try assumption.
    eapply Forall_impl; [|exact Hx]. now intros y [A _].
  - cbn [List.length] in Hl.
    destruct (IH l Hd' ltac:(lia)) as (a & b & E & La & Hll & Hb).
    exists (x :: a), b. cbn [nth app List.length].
    split; [now rewrite <- E|]. split; [lia|]. split; assumption.
Qed.

(** [searchsorted] at a level of the axis finds that level in the sorted
    order. *)
Lemma searchsorted_level64 xs l :
  Binary64.strictly_decreasing xs = true -> l < List.length xs ->
  Binary64.searchsorted (rev xs) (Binary64.item xs l) = List.length xs - S l.
Proof.
  intros Hd Hl.
  destruct (decreasing_split64 xs l Hd Hl) as (a & b & E & La & Hll & Hb).
  set (v := Binary64.item xs l) in *.
  rewrite E at 1. rewrite rev_app_distr. cbn [rev]. rewrite <- app_assoc.
  cbn [app]. rewrite searchsorted_app64 by now apply Forall_rev.
  cbn [Binary64.searchsorted]. rewrite Hll.
  rewrite length_rev. rewrite E, length_app. cbn [List.length]. lia.
Qed.

Lemma map_fst_combine64 (xs ys : list float) :
  List.length ys = List.length xs -> map fst (combine xs ys) = xs.
Proof.
  revert ys.
  induction xs as [|x xs IH]; intros [|y ys] H; try discriminate;
    [reflexivity|].
  cbn [combine map fst]. f_equal. apply IH. cbn in H. lia.
Qed.

Lemma nth_rev_combine64 (xs ys : list float) k :
  List.length ys = List.length xs -> k < List.length xs ->
  nth k (rev (combine xs ys)) (0, 0)%float
  = (Binary64.item xs (List.length xs - S k),
     Binary64.item ys (List.length xs - S k)).
Proof.
  intros Hl Hk.
  assert (Lc : List.length (combine xs ys) = List.length xs)
    by (rewrite length_combine; lia).
  rewrite rev_nth by lia. rewrite Lc. apply combine_nth. now symmetry.
Qed.

(** Line 333 at a model level whose mean pressure is the pressure level
    [l], which has a level of lower pressure after it. *)
Lemma interp_row_at_level64 xs ys l :
  List.length ys = List.length xs ->
  Binary64.strictly_decreasing xs = true -> S l < List.length xs ->
  Binary64.interp_row xs ys [Binary64.item xs l]
  = Ok [Binary64.on_line xs ys l (Binary64.item xs l)].
Proof.
  intros Hl Hd Hn. unfold Binary64.interp_row, Binary64.interp1d.
  rewrite <- Hl, Nat.eqb_refl. cbn [negb].
  destruct (Nat.ltb_spec (List.length ys) 1) as [|_]; [lia|].
  cbn [rbind]. rewrite sort_decreasing64 by assumption.
  unfold Binary64.call. cbn [map]. do 2 f_equal.
  unfold Binary64.call_linear.
  rewrite map_rev, map_fst_combine64 by assumption.
  rewrite searchsorted_level64 by (try assumption; lia).
  rewrite length_rev. unfold clip.
  replace (Nat.min (Nat.max (List.length xs - S l) 1) (List.length xs - 1))
    with (List.length xs - S l) by lia.
  rewrite !nth_rev_combine64 by (try assumption; lia).
  replace (List.length xs - S (List.length xs - S l - 1)) with (S l) by lia.
  replace (List.length xs - S (List.length xs - S l)) with l by lia.
  reflexivity.
Qed.

(** The same at the lowest pressure level, the first in sorted order. *)
Lemma interp_row_at_lowest64 xs ys :
  List.length ys = List.length xs ->
  Binary64.strictly_decreasing xs = true -> 2 <= List.length xs ->
  let n := List.length xs in
  Binary64.interp_row xs ys [Binary64.item xs (n - 1)]
  = Ok [Binary64.on_line xs ys (n - 2) (Binary64.item xs (n - 1))].
Proof.
  intros Hl Hd Hn n. unfold Binary64.interp_row, Binary64.interp1d.
  rewrite <- Hl, Nat.eqb_refl. cbn [negb].
  destruct (Nat.ltb_spec (List.length ys) 1) as [|_]; [lia|].
  cbn [rbind]. rewrite sort_decreasing64 by assumption.
  unfold Binary64.call. cbn [map]. do 2 f_equal.
  unfold Binary64.call_linear.
  rewrite map_rev, map_fst_combine64 by assumption.
  rewrite searchsorted_level64 by (try assumption; lia).
  rewrite length_rev. unfold clip. fold n.
  replace (Nat.min (Nat.max (n - S (n - 1)) 1) (n - 1)) with 1 by lia.
  rewrite !nth_rev_combine64 by (try assumption; lia). fold n.
  replace (n - S (1 - 1)) with (S (n - 2)) by lia.
  unfold Binary64.on_line.
  replace (n - 1) with (S (n - 2)) by lia. reflexivity.
Qed.

End Binary64Rows.

(** C3, as the code has it.  With a supported method, the window plus
    margin inside the grid, a decreasing pressure axis of at least two
    levels, grid spacings that are not zero and [fc <> 0],
    [calculate_forcings] completes and [self.ug],
    [self.vg] are computed from the geostrophic wind on the pressure
    levels as [slope * (x - x_lo) + y_lo] with
    [slope = (y_hi - y_lo) / (x_hi - x_lo)], also at an exact match: where
    the mean pressure [x] of a model level equals a pressure level, [hi]
    is that level and [lo] the next level of lower pressure; at the lowest
    pressure level, [lo] is that level and [hi] the next higher one.
    Above the highest and below the lowest pressure level the line through
    the two nearest levels is continued.  At an exact match the same
    expression, with every operation rounded, is what line 333 returns
    in binary64 on a strictly decreasing axis without nan. *)
Theorem C3_interpolation_at_and_beyond_levels
    (grav : R) (dlon : R -> R -> R -> R) (dlat : R -> R -> R)
    (e : Era) (n_av : Z) (method : string) :
  let s := src e in
  let m := window_means s (centre4 s n_av) (centre3 s n_av) in
  let wmean := window_mean (j0 s n_av) (i0 s n_av) (width n_av) in
  let n := len1 (p_p s) in
  wf s -> supported method = true -> in_bounds s n_av (margin method) ->
  2 <= n -> decreasing (p_p s) -> fc s <> 0%R ->
  dx_of dlon s <> 0%R -> dy_of dlat s <> 0%R ->
  (exists e' ug_p vg_p ug_ vg_,
     calculate_forcings grav dlon dlat n_av method e = (e', Ok tt) /\
     ug (frc e') = Some ug_ /\ vg (frc e') = Some vg_ /\
     is2 ug_p (ntime s) n
         (fun t l => wmean (geo_u grav s method (dy_of dlat s) t l)) /\
     is2 vg_p (ntime s) n
         (fun t l => wmean (geo_v grav s method (dx_of dlon s) t l)) /\
     forall g a, (g = ug_p /\ a = ug_) \/ (g = vg_p /\ a = vg_) ->
     forall t k, t < ntime s -> k < nfull s ->
       let x := get2 (p_mean m) t k in
       (forall l, S l < n -> x = get1 (p_p s) l ->
          get2 a t k = on_line (p_p s) g t l x) /\
       (x = get1 (p_p s) (n - 1) ->
        get2 a t k = on_line (p_p s) g t (n - 2) x) /\
       ((get1 (p_p s) 0 < x)%R -> get2 a t k = on_line (p_p s) g t 0 x) /\
       ((x < get1 (p_p s) (n - 1))%R ->
        get2 a t k = on_line (p_p s) g t (n - 2) x)) /\
  (forall (xs ys : list PrimFloat.float) (l : nat),
     List.length ys = List.length xs ->
     Binary64.strictly_decreasing xs = true ->
     (S l < List.length xs ->
      Binary64.interp_row xs ys [Binary64.item xs l]
      = Ok [Binary64.on_line xs ys l (Binary64.item xs l)]) /\
     (2 <= List.length xs ->
      Binary64.interp_row xs ys [Binary64.item xs (List.length xs - 1)]
      = Ok [Binary64.on_line xs ys (List.length xs - 2)
              (Binary64.item xs (List.length xs - 1))])).
Proof.
  intros s m wmean n Hwf Hm Hb Hn Hd Hf Hdx Hdy.
  split.
  2: { intros xs ys l Hl Hdec. split; intros Hlen.
       - now apply interp_row_at_level64.
       - now apply interp_row_at_lowest64. }
  destruct (calculate_forcings_run grav dlon dlat e n_av method Hwf Hm Hb Hn)
    as (a1 & a2 & a3 & a4 & ugp & vgp & ug_ & vg_ & du & dv & Erun & _ & _ & _
        & _ & _ & Hu & Hv & (_ & _ & HU) & (_ & _ & HV) & _ & _).
  eexists _, ugp, vgp, ug_, vg_.
  split; [exact Erun|]. cbn [frc ug vg].
  split; [reflexivity|]. split; [reflexivity|].
  split; [exact Hu|]. split; [exact Hv|].
  assert (Hrow : forall g a : ndarray2,
             (forall t k, t < ntime s -> k < nfull s ->
                          get2 a t k = interp_value s m g t k) ->
             forall t k, t < ntime s -> k < nfull s ->
               let x := get2 (p_mean m) t k in
               (forall l, S l < n -> x = get1 (p_p s) l ->
                  get2 a t k = on_line (p_p s) g t l x) /\
               (x = get1 (p_p s) (n - 1) ->
                get2 a t k = on_line (p_p s) g t (n - 2) x) /\
               ((get1 (p_p s) 0 < x)%R ->
                get2 a t k = on_line (p_p s) g t 0 x) /\
               ((x < get1 (p_p s) (n - 1))%R ->
                get2 a t k = on_line (p_p s) g t (n - 2) x)).
  { intros g a Ha t k Ht Hk x. rewrite (Ha t k Ht Hk).
    destruct (interp_value_on_line s m g t k Hd Hn) as (Hin & Hlow & Hhigh).
    fold x n in Hin, Hlow, Hhigh.
    split; [|split; [|split]].
    - intros l Hl E. apply Hin; [exact Hl|].
      pose proof (Hd l (S l) ltac:(lia) Hl). lra.
    - intros E. apply Hlow. lra.
    - exact Hhigh.
    - intros Hx. apply Hlow. lra. }
  intros g a [[-> ->]|[-> ->]]; [now apply Hrow|now apply Hrow].
Qed.

Lemma C3_witness :
  (wf Sample.inner /\ supported "2nd" = true /\
   in_bounds Sample.inner 1 (margin "2nd") /\
   2 <= len1 (p_p Sample.inner) /\ decreasing (p_p Sample.inner) /\
   fc Sample.inner <> 0%R /\
   dx_of Sample.dlon Sample.inner <> 0%R /\
   dy_of Sample.dlat Sample.inner <> 0%R) /\
  exists e' ug_p ug_,
    Sample.run Sample.inner 1 "2nd" = (e', Ok tt) /\
    ug (frc e') = Some ug_ /\
    get2 ug_ 0 0 = on_line (p_p Sample.inner) ug_p 0 1 92500 /\
    get2 ug_ 0 1 = on_line (p_p Sample.inner) ug_p 0 1 77000.
Proof.
  assert (H : wf Sample.inner /\ supported "2nd" = true /\
              in_bounds Sample.inner 1 (margin "2nd") /\
              2 <= len1 (p_p Sample.inner) /\ decreasing (p_p Sample.inner) /\
              fc Sample.inner <> 0%R /\
              dx_of Sample.dlon Sample.inner <> 0%R /\
              dy_of Sample.dlat Sample.inner <> 0%R).
  { split; [apply sample_wf|]. split; [reflexivity|].
    split; [apply sample_in_bounds_2nd|]. split; [cbn; lia|].
    split; [apply sample_levels_decreasing|]. split; [cbn; lra|].
    unfold Sample.inner. rewrite sample_dx, sample_dy. split; lra. }
  split; [exact H|]. destruct H as (H1 & H2 & H3 & H4 & H5 & H6 & H7 & H8).
  destruct (C3_interpolation_at_and_beyond_levels Sample.grav Sample.dlon
              Sample.dlat (loaded Sample.inner) 1 "2nd" H1 H2 H3 H4 H5 H6
              H7 H8)
    as ((e' & ug_p & vg_p & ug_ & vg_ & E & Eu & _ & _ & _ & Hval) & _).
  exists e', ug_p, ug_. split; [exact E|]. split; [exact Eu|].
  cbn [src loaded] in Hval.
  assert (P0 : get2 (p_mean (window_means Sample.inner
                 (centre4 Sample.inner 1) (centre3 Sample.inner 1))) 0 0
               = 92500%R) by (crunch; lra).
  assert (P1 : get2 (p_mean (window_means Sample.inner
                 (centre4 Sample.inner 1) (centre3 Sample.inner 1))) 0 1
               = 77000%R) by (crunch; lra).
  split.
  - destruct (Hval ug_p ug_ (or_introl (conj eq_refl eq_refl)) 0 0
                ltac:(cbn; lia) ltac:(cbn; lia)) as (Hex & _).
    rewrite P0 in Hex. apply (Hex 1); [cbn; lia|crunch; lra].
  - destruct (Hval ug_p ug_ (or_introl (conj eq_refl eq_refl)) 0 1
                ltac:(cbn; lia) ltac:(cbn; lia)) as (_ & _ & _ & Hbelow).
    rewrite P1 in Hbelow. apply Hbelow. crunch; lra.
Defined.

Section InBinary64.

Import PrimFloat.
Local Set Warnings "-inexact-float".

(** C3 as stated fails in the arithmetic of the code.  Line 333 in
    binary64, with the pressure levels 1000, 925 and 850 hPa, a
    geostrophic wind of 0.9, 0.3 and 0.1 m/s on them and a model level
    whose mean pressure is 100000 Pa exactly: the interpolated value is
    the next number above 0.9, not the value 0.9 of the matching level. *)
Lemma C3_exact_match_differs_in_binary64 :
  Binary64.strictly_decreasing [100000; 92500; 85000]%float = true /\
  Binary64.interp_row [100000; 92500; 85000]%float [0.9; 0.3; 0.1]%float
    [100000]%float
  = Ok [0.90000000000000013%float] /\
  (0.90000000000000013 =? 0.9)%float = false /\
  (0.9 <? 0.90000000000000013)%float = true.
Proof. repeat split; reflexivity. Qed.

End InBinary64.

(** ** Coriolis tendencies *)

(** C4.  With a supported method, the window plus margin inside the grid,
    at least two distinct pressure levels, grid spacings that are not
    zero and [fc <> 0], [calculate_forcings] completes and, for every
    time and model level,
    [dtu_coriolis = +fc (v_mean - vg)] and
    [dtv_coriolis = -fc (u_mean - ug)], where [u_mean] and [v_mean] are
    the window means of the wind, and [ug], [vg] are the geostrophic wind
    on the model levels: the window means of [-(g/f) dZ/dy] and
    [(g/f) dZ/dx] on the pressure levels, interpolated to the window mean
    of the model-level pressure. *)
Theorem C4_coriolis_tendencies
    (grav : R) (dlon : R -> R -> R -> R) (dlat : R -> R -> R)
    (e : Era) (n_av : Z) (method : string) :
  let s := src e in
  let m := window_means s (centre4 s n_av) (centre3 s n_av) in
  let wmean := window_mean (j0 s n_av) (i0 s n_av) (width n_av) in
  wf s -> supported method = true -> in_bounds s n_av (margin method) ->
  2 <= len1 (p_p s) -> NoDup (to_list1 (p_p s)) -> fc s <> 0%R ->
  dx_of dlon s <> 0%R -> dy_of dlat s <> 0%R ->
  exists e' ug_p vg_p ug_ vg_ du dv,
    calculate_forcings grav dlon dlat n_av method e = (e', Ok tt) /\
    means e' = Some m /\
    ug (frc e') = Some ug_ /\ vg (frc e') = Some vg_ /\
    dtu_coriolis (frc e') = Some du /\ dtv_coriolis (frc e') = Some dv /\
    shape2 du = (ntime s, nfull s) /\ shape2 dv = (ntime s, nfull s) /\
    is2 ug_p (ntime s) (len1 (p_p s))
        (fun t l => wmean (geo_u grav s method (dy_of dlat s) t l)) /\
    is2 vg_p (ntime s) (len1 (p_p s))
        (fun t l => wmean (geo_v grav s method (dx_of dlon s) t l)) /\
    forall t k, t < ntime s -> k < nfull s ->
      get2 du t k = (fc s * (get2 (v_mean m) t k - get2 vg_ t k))%R /\
      get2 dv t k = (- fc s * (get2 (u_mean m) t k - get2 ug_ t k))%R /\
      get2 (u_mean m) t k = wmean (get4 (u s) t k) /\
      get2 (v_mean m) t k = wmean (get4 (v s) t k) /\
      get2 (p_mean m) t k = wmean (get4 (p s) t k) /\
      get2 ug_ t k = interp_value s m ug_p t k /\
      get2 vg_ t k = interp_value s m vg_p t k.
Proof.
  intros s m wmean Hwf Hm Hb Hp Hnd Hf Hdx Hdy.
  destruct (calculate_forcings_run grav dlon dlat e n_av method Hwf Hm Hb Hp)
    as (a1 & a2 & a3 & a4 & ugp & vgp & ug_ & vg_ & du & dv & Erun & _ & _ & _
        & _ & _ & Hu & Hv & (_ & _ & HU) & (_ & _ & HV)
        & (D0 & D1 & HDu) & (D0' & D1' & HDv)).
  assert (Hb0 : in_bounds s n_av 0).
  { apply (in_bounds_weaken s n_av (margin method)); [|exact Hb].
    pose proof (margin_pos method); lia. }
  destruct (centre_mean s n_av (u s) Hb0 (wf_u s Hwf)) as (_ & _ & HUm).
  destruct (centre_mean s n_av (v s) Hb0 (wf_v s Hwf)) as (_ & _ & HVm).
  destruct (centre_mean s n_av (p s) Hb0 (wf_p s Hwf)) as (_ & _ & HPm).
  eexists _, ugp, vgp, ug_, vg_, du, dv.
  split; [exact Erun|]. cbn [means frc ug vg dtu_coriolis dtv_coriolis].
  repeat (split; [reflexivity|]).
  split; [unfold shape2; now rewrite D0, D1|].
  split; [unfold shape2; now rewrite D0', D1'|].
  split; [exact Hu|]. split; [exact Hv|].
  intros t k Ht Hk.
  split; [now apply HDu|]. split; [now apply HDv|].
  split; [now apply HUm|]. split; [now apply HVm|]. split; [now apply HPm|].
  split; [now apply HU|now apply HV].
Qed.

Lemma C4_witness :
  (wf Sample.inner_uv /\ supported "2nd" = true /\
   in_bounds Sample.inner_uv 1 (margin "2nd") /\
   2 <= len1 (p_p Sample.inner_uv) /\
   NoDup (to_list1 (p_p Sample.inner_uv)) /\ fc Sample.inner_uv <> 0%R /\
   dx_of Sample.dlon Sample.inner_uv <> 0%R /\
   dy_of Sample.dlat Sample.inner_uv <> 0%R) /\
  exists e' vg_ du,
    Sample.run Sample.inner_uv 1 "2nd" = (e', Ok tt) /\
    vg (frc e') = Some vg_ /\
    dtu_coriolis (frc e') = Some du /\
    get2 du 0 0 = (0.0001 * (1 - get2 vg_ 0 0))%R.
Proof.
  assert (H : wf Sample.inner_uv /\ supported "2nd" = true /\
              in_bounds Sample.inner_uv 1 (margin "2nd") /\
              2 <= len1 (p_p Sample.inner_uv) /\
              NoDup (to_list1 (p_p Sample.inner_uv)) /\
              fc Sample.inner_uv <> 0%R /\
              dx_of Sample.dlon Sample.inner_uv <> 0%R /\
              dy_of Sample.dlat Sample.inner_uv <> 0%R).
  { split; [apply sample_wf|]. split; [reflexivity|].
    split; [apply sample_in_bounds_2nd|]. split; [cbn; lia|].
    split; [apply sample_levels_distinct|]. split; [cbn; lra|].
    unfold Sample.inner_uv. rewrite sample_dx, sample_dy. split; lra. }
  split; [exact H|]. destruct H as (H1 & H2 & H3 & H4 & H5 & H6 & H7 & H8).
  destruct (C4_coriolis_tendencies Sample.grav Sample.dlon Sample.dlat
              (loaded Sample.inner_uv) 1 "2nd" H1 H2 H3 H4 H5 H6 H7 H8)
    as (e' & ug_p & vg_p & ug_ & vg_ & du & dv & E & _ & _ & Ev & Edu & _ & _
        & _ & _ & _ & Hval).
  exists e', vg_, du.
  destruct (Hval 0 0 ltac:(cbn; lia) ltac:(cbn; lia))
    as (Hdu & _ & _ & Hv & _).
  split; [exact E|]. split; [exact Ev|]. split; [exact Edu|].
  rewrite Hdu. cbn [src loaded] in Hv |- *. rewrite Hv.
  replace (fc Sample.inner_uv) with 0.0001%R by reflexivity.
  f_equal. f_equal. crunch. lra.
Defined.

(** ** Full levels *)

(** C5.  The full-level pressure and height computed at load have one
    level less than the half-level arrays and are, at every time, level
    and grid point, the arithmetic mean of the two bounding half-level
    values. *)
Theorem C5_full_levels_are_arithmetic_means (ph zh : ndarray4) (nfull : nat) :
  d41 ph = nfull + 1 -> d41 zh = nfull + 1 ->
  exists p z,
    full_level ph = Ok p /\ full_level zh = Ok z /\
    is4 p (d40 ph) nfull (d42 ph) (d43 ph)
      (fun t k la lo => (get4 ph t k la lo + get4 ph t (k + 1) la lo) / 2)%R /\
    is4 z (d40 zh) nfull (d42 zh) (d43 zh)
      (fun t k la lo => (get4 zh t k la lo + get4 zh t (k + 1) la lo) / 2)%R.
Proof.
  intros Hp Hz.
  destruct (full_level_value ph) as (p & Ep & HP).
  destruct (full_level_value zh) as (z & Ez & HZ).
  exists p, z. split; [exact Ep|]. split; [exact Ez|].
  replace (d41 ph - 1) with nfull in HP by lia.
  replace (d41 zh - 1) with nfull in HZ by lia.
  split; assumption.
Qed.

Lemma C5_witness :
  (d41 (ph Sample.inner) = 2 + 1 /\ d41 (zh Sample.inner) = 2 + 1) /\
  exists p z,
    full_level (ph Sample.inner) = Ok p /\ full_level (zh Sample.inner) = Ok z /\
    d41 p = 2 /\ d41 z = 2 /\
    get4 p 0 1 2 2 = 77000%R /\ get4 z 0 1 2 2 = 2100%R.
Proof.
  split; [split; reflexivity|].
  destruct (C5_full_levels_are_arithmetic_means (ph Sample.inner)
              (zh Sample.inner) 2 eq_refl eq_refl)
    as (p & z & Ep & Ez & (_ & P1 & _ & _ & HP) & (_ & Z1 & _ & _ & HZ)).
  exists p, z. split; [exact Ep|]. split; [exact Ez|].
  split; [exact P1|]. split; [exact Z1|].
  rewrite HP, HZ by (cbn; lia). split; crunch; lra.
Defined.

(** ** Requests beyond the grid *)

Lemma grid_spacing_last s dlon dlat :
  wf s -> (0 <= i s < Z.of_nat (nlon s))%Z -> (0 <= j s < Z.of_nat (nlat s))%Z ->
  (i s + 1 = Z.of_nat (nlon s) \/ j s + 1 = Z.of_nat (nlat s))%Z ->
  grid_spacing dlon dlat s = Raise IndexError.
Proof.
  intros Hwf Hi Hj Hlast. unfold grid_spacing, item1.
  assert (E1 : exists n, index (len1 (lons s)) (i s - 1) = Ok n).
  { rewrite (wf_lons s Hwf). destruct (Z.eq_dec (i s) 0) as [E|N].
    - rewrite E. cbn [Z.sub Z.add Z.opp]. rewrite index_last by lia. eauto.
    - rewrite index_inside by lia. eauto. }
  destruct E1 as (n1 & ->). cbn [rbind].
  destruct (Z.eq_dec (i s + 1) (Z.of_nat (nlon s))) as [E|N].
  - rewrite (index_outside (len1 (lons s)) (i s + 1))
      by (rewrite (wf_lons s Hwf); lia).
    reflexivity.
  - rewrite (index_inside (len1 (lons s)) (i s + 1))
      by (rewrite (wf_lons s Hwf); lia).
    cbn [rbind].
    rewrite (index_inside (len1 (lats s)) (j s))
      by (rewrite (wf_lats s Hwf); lia).
    cbn [rbind].
    rewrite (index_outside (len1 (lats s)) (j s + 1))
      by (rewrite (wf_lats s Hwf); lia).
    reflexivity.
Qed.

(** C6, as the code has it.  [calculate_forcings] does not validate the
    window.  On an object whose fields share the grid axes: when the call
    fails with an IndexError or with a broadcasting error of mismatched
    slices, the forcing arrays are as they were before the call; and it
    does fail, with an IndexError, whenever the centre lies on the last
    column or the last row, whatever [n_av] and the method are. *)
Theorem C6_indexing_failure_sets_no_forcing
    (grav : R) (dlon : R -> R -> R -> R) (dlat : R -> R -> R)
    (e : Era) (n_av : Z) (method : string) :
  let s := src e in
  wf s ->
  (forall e' x,
      calculate_forcings grav dlon dlat n_av method e = (e', Raise x) ->
      x = IndexError \/ x = BroadcastError ->
      frc e' = frc e) /\
  ((0 <= i s < Z.of_nat (nlon s))%Z -> (0 <= j s < Z.of_nat (nlat s))%Z ->
   (i s + 1 = Z.of_nat (nlon s) \/ j s + 1 = Z.of_nat (nlat s))%Z ->
   exists e',
     calculate_forcings grav dlon dlat n_av method e = (e', Raise IndexError) /\
     frc e' = frc e).
Proof.
  intros s Hwf. split.
  - intros e' x Hrun Hx.
    destruct (calculate_forcings_cases grav dlon dlat e n_av method Hwf)
      as [(y & E)|[(e2 & a & b & r & E & Hr)|(e3 & E)]];
      rewrite E in Hrun.
    + injection Hrun as <- _. reflexivity.
    + injection Hrun as _ <-.
      destruct Hr as [->|(name & ->)], Hx; discriminate.
    + discriminate.
  - intros Hi Hj Hlast. eexists. split.
    + unfold calculate_forcings.
      cbv [bind self assign lift]. fold s.
      rewrite (grid_spacing_last s dlon dlat Hwf Hi Hj Hlast). reflexivity.
    + reflexivity.
Qed.

Lemma C6_witness :
  (wf Sample.east_edge /\
   Sample.run Sample.east_edge 0 "2nd"
   = (fst (Sample.run Sample.east_edge 0 "2nd"), Raise IndexError) /\
   (0 <= i Sample.east_edge < Z.of_nat (nlon Sample.east_edge))%Z /\
   (0 <= j Sample.east_edge < Z.of_nat (nlat Sample.east_edge))%Z /\
   (i Sample.east_edge + 1 = Z.of_nat (nlon Sample.east_edge))%Z) /\
  frc (fst (Sample.run Sample.east_edge 0 "2nd")) = no_forcings /\
  exists e', Sample.run Sample.east_edge 0 "2nd" = (e', Raise IndexError).
Proof.
  assert (H : wf Sample.east_edge /\
              Sample.run Sample.east_edge 0 "2nd"
              = (fst (Sample.run Sample.east_edge 0 "2nd"), Raise IndexError) /\
              (0 <= i Sample.east_edge < Z.of_nat (nlon Sample.east_edge))%Z /\
              (0 <= j Sample.east_edge < Z.of_nat (nlat Sample.east_edge))%Z /\
              (i Sample.east_edge + 1 = Z.of_nat (nlon Sample.east_edge))%Z).
  { split; [apply sample_wf|]. split; [reflexivity|]. cbn. lia. }
  split; [exact H|]. destruct H as (H1 & H2 & H3 & H4 & H5).
  destruct (C6_indexing_failure_sets_no_forcing Sample.grav Sample.dlon
              Sample.dlat (loaded Sample.east_edge) 0 "2nd" H1)
    as (Hfail & Hlast).
  split; [exact (Hfail _ IndexError H2 (or_introl eq_refl))|].
  destruct (Hlast H3 H4 (or_introl H5)) as (e' & E & _).
  exists e'. exact E.
Defined.

(** C6 as stated fails: with the centre in the first column, [n_av = 0]
    and the 2nd-order stencil the window plus margin leaves the grid on
    the west side, yet the call completes and assigns the forcing arrays
    (the empty slice of western neighbours is broadcast). *)
Lemma C6_west_edge_request_completes :
  ~ in_bounds Sample.west_edge 0 (margin "2nd") /\
  snd (Sample.run Sample.west_edge 0 "2nd") = Ok tt /\
  dtthl_advec (frc (fst (Sample.run Sample.west_edge 0 "2nd"))) <> None /\
  dtu_coriolis (frc (fst (Sample.run Sample.west_edge 0 "2nd"))) <> None.
Proof.
  split; [unfold in_bounds; cbn; lia|].
  split; [reflexivity|]. split; discriminate.
Qed.

(** ** Unsupported methods *)

Lemma grid_spacing_neighbours s dlon dlat :
  wf s -> (0 <= i s)%Z -> (i s + 1 < Z.of_nat (nlon s))%Z ->
  (0 <= j s)%Z -> (j s + 1 < Z.of_nat (nlat s))%Z ->
  exists dxy, grid_spacing dlon dlat s = Ok dxy.
Proof.
  intros Hwf Hi Hi' Hj Hj'. unfold grid_spacing, item1.
  assert (E1 : exists n, index (len1 (lons s)) (i s - 1) = Ok n).
  { rewrite (wf_lons s Hwf). destruct (Z.eq_dec (i s) 0) as [E|N].
    - rewrite E. cbn [Z.sub Z.add Z.opp]. rewrite index_last by lia. eauto.
    - rewrite index_inside by lia. eauto. }
  assert (E2 : exists n, index (len1 (lats s)) (j s - 1) = Ok n).
  { rewrite (wf_lats s Hwf). destruct (Z.eq_dec (j s) 0) as [E|N].
    - rewrite E. cbn [Z.sub Z.add Z.opp]. rewrite index_last by lia. eauto.
    - rewrite index_inside by lia. eauto. }
  destruct E1 as (n1 & ->). destruct E2 as (n2 & ->).
  rewrite (index_inside (len1 (lons s)) (i s + 1))
    by (rewrite (wf_lons s Hwf); lia).
  rewrite (index_inside (len1 (lats s)) (j s))
    by (rewrite (wf_lats s Hwf); lia).
  rewrite (index_inside (len1 (lats s)) (j s + 1))
    by (rewrite (wf_lats s Hwf); lia).
  cbn [rbind]. eauto.
Qed.

(** C7, as the code has it.  A method other than '2nd' and '4th' is not
    rejected: with at least one time step (and a centre that has eastern
    and southern neighbours) the call runs until the interpolation loop
    first reads [ug_p], which no branch has bound, and fails there with an
    UnboundLocalError.  By then the window means and zero-filled [ug] and
    [vg] have been assigned; the advective and Coriolis tendencies are as
    they were before the call. *)
Theorem C7_unsupported_method_fails_late
    (grav : R) (dlon : R -> R -> R -> R) (dlat : R -> R -> R)
    (e : Era) (n_av : Z) (method : string) :
  let s := src e in
  let m := window_means s (centre4 s n_av) (centre3 s n_av) in
  wf s -> supported method = false -> 1 <= ntime s ->
  (0 <= i s)%Z -> (i s + 1 < Z.of_nat (nlon s))%Z ->
  (0 <= j s)%Z -> (j s + 1 < Z.of_nat (nlat s))%Z ->
  exists e',
    calculate_forcings grav dlon dlat n_av method e
    = (e', Raise (UnboundLocalError "ug_p")) /\
    means e' = Some m /\
    ug (frc e') = Some (zeros_like2 (p_mean m)) /\
    vg (frc e') = Some (zeros_like2 (p_mean m)) /\
    dtthl_advec (frc e') = dtthl_advec (frc e) /\
    dtqt_advec (frc e') = dtqt_advec (frc e) /\
    dtu_advec (frc e') = dtu_advec (frc e) /\
    dtv_advec (frc e') = dtv_advec (frc e) /\
    dtu_coriolis (frc e') = dtu_coriolis (frc e) /\
    dtv_coriolis (frc e') = dtv_coriolis (frc e).
Proof.
  intros s m Hwf Hm Hnt Hi Hi' Hj Hj'.
  destruct (grid_spacing_neighbours s dlon dlat Hwf Hi Hi' Hj Hj') as (dxy & Egs).
  unfold supported in Hm. apply orb_false_elim in Hm as [E2 E4].
  exists (with_geo (zeros_like2 (p_mean m)) (zeros_like2 (p_mean m))
            (set_means m e)).
  split; [|repeat split; reflexivity].
  unfold calculate_forcings. cbv [bind self assign lift]. fold s.
  rewrite Egs. unfold method_branch. rewrite E2, E4.
  cbv [ret attr lift]. cbn [means set_means set_ug set_frc].
  destruct (ntime s) as [|n] eqn:En; [lia|].
  cbn [seq for_each]. unfold bind, interp_step, interp_row, bind, local, lift.
  reflexivity.
Qed.

Lemma C7_witness :
  (wf Sample.inner /\ supported "box" = false /\ 1 <= ntime Sample.inner /\
   (0 <= i Sample.inner)%Z /\
   (i Sample.inner + 1 < Z.of_nat (nlon Sample.inner))%Z /\
   (0 <= j Sample.inner)%Z /\
   (j Sample.inner + 1 < Z.of_nat (nlat Sample.inner))%Z) /\
  exists e',
    Sample.run Sample.inner 1 "box" = (e', Raise (UnboundLocalError "ug_p")) /\
    dtthl_advec (frc e') = None /\ dtu_coriolis (frc e') = None.
Proof.
  assert (H : wf Sample.inner /\ supported "box" = false /\
              1 <= ntime Sample.inner /\
              (0 <= i Sample.inner)%Z /\
              (i Sample.inner + 1 < Z.of_nat (nlon Sample.inner))%Z /\
              (0 <= j Sample.inner)%Z /\
              (j Sample.inner + 1 < Z.of_nat (nlat Sample.inner))%Z).
  { split; [apply sample_wf|]. split; [reflexivity|]. cbn. lia. }
  split; [exact H|]. destruct H as (H1 & H2 & H3 & H4 & H5 & H6 & H7).
  destruct (C7_unsupported_method_fails_late Sample.grav Sample.dlon
              Sample.dlat (loaded Sample.inner) 1 "box" H1 H2 H3 H4 H5 H6 H7)
    as (e' & E & _ & _ & _ & A & _ & _ & _ & C & _).
  exists e'. split; [exact E|]. split; [exact A|exact C].
Defined.

(** C7 as stated fails: the call with method 'box' ends with the
    model-level geostrophic wind arrays [ug] and [vg] assigned. *)
Lemma C7_box_method_leaves_geostrophic_wind :
  snd (Sample.run Sample.inner 1 "box") = Raise (UnboundLocalError "ug_p") /\
  ug (frc (fst (Sample.run Sample.inner 1 "box"))) <> None /\
  vg (frc (fst (Sample.run Sample.inner 1 "box"))) <> None /\
  frc (fst (Sample.run Sample.inner 1 "box")) <> frc (loaded Sample.inner).
Proof.
  split; [reflexivity|]. split; [discriminate|]. split; discriminate.
Qed.

(** ** Time axes *)

(** C8, as the code has it.  With at least one analysis time selected:
    when the selected analysis and forecast times have the same length
    (or one of the two axes has a single entry, which numpy repeats) and
    differ at some position, the check of [__init__] fails with Python's
    AssertionError 'Analysis and forecast times are not synced'; when the
    lengths differ otherwise, the comparison [self.time == self.time_fc]
    itself raises numpy's ValueError, before the assert is decided.  In
    both cases [__init__] raises and returns nothing. *)
Theorem C8_unsynced_times_fail (time time_fc : ndarray1) :
  0 < len1 time ->
  (forall k, broadcastable (len1 time) (len1 time_fc) ->
     k < len1 time -> k < len1 time_fc -> get1 time k <> get1 time_fc k ->
     init_times time time_fc
     = Raise (AssertionError "Analysis and forecast times are not synced")) /\
  (~ broadcastable (len1 time) (len1 time_fc) ->
   init_times time time_fc = Raise BroadcastError).
Proof.
  intros Hlen. unfold init_times.
  rewrite item1_inside by lia. cbn [rbind]. split.
  - intros k Hbc Ha Hb Hne.
    now rewrite (all_equal_differ time time_fc k Hbc Ha Hb Hne).
  - intros Hbc. now rewrite (all_equal_not_broadcastable time time_fc Hbc).
Qed.

Lemma C8_witness :
  0 < len1 Sample.an_times /\
  init_times Sample.an_times Sample.late_times
  = Raise (AssertionError "Analysis and forecast times are not synced") /\
  init_times Sample.an_times Sample.short_times = Raise BroadcastError.
Proof.
  assert (H : 0 < len1 Sample.an_times) by (cbn; lia).
  split; [exact H|].
  destruct (C8_unsynced_times_fail Sample.an_times Sample.late_times H)
    as (Hassert & _).
  destruct (C8_unsynced_times_fail Sample.an_times Sample.short_times H)
    as (_ & Hvalue).
  split.
  - apply (Hassert 0); [now left|cbn; lia|cbn; lia|cbn; lra].
  - apply Hvalue. unfold broadcastable. cbn. lia.
Defined.

(** C8 as stated fails: with three analysis times and two forecast times
    that are one hour late, the axes differ at every position and the
    lengths cannot be broadcast; [__init__] ends with numpy's ValueError
    from the comparison and not with the failure of the consistency
    check. *)
Lemma C8_unequal_lengths_raise_ValueError :
  len1 Sample.an_times = 3 /\ len1 Sample.short_times = 2 /\
  get1 Sample.an_times 0 <> get1 Sample.short_times 0 /\
  get1 Sample.an_times 1 <> get1 Sample.short_times 1 /\
  init_times Sample.an_times Sample.short_times = Raise BroadcastError /\
  init_times Sample.an_times Sample.short_times
  <> Raise (AssertionError "Analysis and forecast times are not synced").
Proof.
  split; [reflexivity|]. split; [reflexivity|].
  split; [cbn; lra|]. split; [cbn; lra|].
  split; [reflexivity|discriminate].
Qed.

Lemma init_times_synced (time : ndarray1) :
  0 < len1 time -> is_ok (init_times time time) = true.
Proof.
  intros H. unfold init_times. rewrite item1_inside by lia. cbn [rbind].
  assert (E : all_equal time time = Ok true).
  { unfold all_equal. rewrite bdim_same. f_equal.
    apply forallb_forall. intros k _.
    destruct (Req_dec_T _ _); [reflexivity|contradiction]. }
  now rewrite E.
Qed.

(** ** Frame of calculate_forcings *)

(** C9.  Whatever the window, the method and the outcome, the object after
    [calculate_forcings] holds the same coordinate axes, ingested fields
    and load-time quantities as before: only the window means and the
    forcing arrays are assigned. *)
Theorem C9_source_fields_unchanged
    (grav : R) (dlon : R -> R -> R -> R) (dlat : R -> R -> R)
    (n_av : Z) (method : string) (e : Era) :
  src (fst (calculate_forcings grav dlon dlat n_av method e)) = src e.
Proof. apply preserves_calculate_forcings. Qed.

(** ** The output directory in the settings *)

Lemma dict_get_set_same d key x y :
  dict_get d key = Ok y -> dict_get (dict_set d key x) key = Ok x.
Proof.
  induction d as [|[k z] d IH]; cbn; [discriminate|].
  destruct (k =? key)%string eqn:E; cbn; rewrite E; [reflexivity|exact IH].
Qed.

Lemma dict_get_set_other d key x key' :
  key' <> key -> dict_get (dict_set d key x) key' = dict_get d key'.
Proof.
  intros Hne. induction d as [|[k z] d IH]; cbn.
  - destruct (key =? key')%string eqn:E; [|reflexivity].
    apply String.eqb_eq in E. congruence.
  - destruct (k =? key)%string eqn:E; cbn.
    + apply String.eqb_eq in E. subst k.
      destruct (key =? key')%string eqn:E'; [|reflexivity].
      apply String.eqb_eq in E'. congruence.
    + now rewrite IH.
Qed.

Lemma ensure_trailing_slash_appends settings path :
  dict_get settings "ERA5_path" = Ok (Str path) ->
  path <> ""%string -> ~ ends_with_slash path ->
  ensure_trailing_slash settings
  = (dict_set settings "ERA5_path" (Str (path ++ "/")), Ok tt).
Proof.
  intros Hget Hne Hslash. unfold ensure_trailing_slash. rewrite Hget.
  destruct (last_char path Hne) as (c & -> & Hc).
  destruct (Ascii.eqb c "/") eqn:E; [|reflexivity].
  exfalso. apply Hslash, Hc. reflexivity.
Qed.

Lemma ensure_trailing_slash_keeps settings path :
  dict_get settings "ERA5_path" = Ok (Str path) -> ends_with_slash path ->
  ensure_trailing_slash settings = (settings, Ok tt).
Proof.
  intros Hget Hslash. unfold ensure_trailing_slash. rewrite Hget.
  assert (Hne : path <> ""%string).
  { destruct Hslash as (pre & ->). destruct pre; discriminate. }
  destruct (last_char path Hne) as (c & -> & Hc).
  apply Hc in Hslash. now rewrite Hslash.
Qed.

(** C10, as the code has it.  For a dictionary that holds both dates and
    a non-empty 'ERA5_path' that does not end with '/': [__init__]
    replaces the value in the caller's dictionary by the value followed by
    '/', provided the date helpers that it calls before the check accept
    the dates; [download_ERA5] does so when the path is an existing
    directory, and when it is not, exits and leaves the dictionary as it
    was.  No other key changes.  A value that ends with '/' is left
    unchanged by both. *)
Theorem C10_trailing_slash_added_in_place
    (lower_to_hour : value -> result value)
    (analysis forecast : value -> value -> result (list value))
    (isdir : string -> bool) (settings : dict) (path : string)
    (d1 d2 : value) :
  dict_get settings "start_date" = Ok d1 ->
  dict_get settings "end_date" = Ok d2 ->
  dict_get settings "ERA5_path" = Ok (Str path) ->
  let settings' := dict_set settings "ERA5_path" (Str (path ++ "/")) in
  let init := init_settings lower_to_hour analysis forecast in
  let accepted :=
    exists start end_ an fc,
      lower_to_hour d1 = Ok start /\ lower_to_hour d2 = Ok end_ /\
      analysis start end_ = Ok an /\ forecast start end_ = Ok fc in
  (path <> ""%string -> ~ ends_with_slash path ->
   (accepted -> init settings = (settings', Ok tt)) /\
   (isdir path = true ->
    Download.download_ERA5 isdir settings = (settings', Ok tt)) /\
   (isdir path = false ->
    Download.download_ERA5 isdir settings = (settings, Raise SystemExit)) /\
   dict_get settings' "ERA5_path" = Ok (Str (path ++ "/")) /\
   (forall key, key <> "ERA5_path"%string ->
                dict_get settings' key = dict_get settings key)) /\
  (ends_with_slash path ->
   (accepted -> init settings = (settings, Ok tt)) /\
   fst (Download.download_ERA5 isdir settings) = settings).
Proof.
  intros H1 H2 Hp settings' init accepted.
  assert (Einit : accepted -> init settings = ensure_trailing_slash settings).
  { intros (start & end_ & an & fc & L1 & L2 & Ha & Hf).
    unfold init, init_settings. rewrite H1. cbn [rbind]. rewrite L1.
    cbn [rbind]. rewrite H2. cbn [rbind]. rewrite L2. cbn [rbind].
    rewrite Ha. cbn [rbind]. rewrite Hf. reflexivity. }
  unfold Download.download_ERA5.
  rewrite H1, H2, Hp. split.
  - intros Hne Hslash.
    pose proof (ensure_trailing_slash_appends settings path Hp Hne Hslash) as E.
    split; [intros Hacc; now rewrite (Einit Hacc)|].
    split; [intros ->; exact E|].
    split; [intros ->; reflexivity|].
    split; [now apply (dict_get_set_same settings _ _ (Str path))|].
    intros key Hk. now apply dict_get_set_other.
  - intros Hslash.
    pose proof (ensure_trailing_slash_keeps settings path Hp Hslash) as E.
    split; [intros Hacc; now rewrite (Einit Hacc)|].
    destruct (isdir path); cbn [negb]; [now rewrite E|reflexivity].
Qed.

Lemma C10_witness :
  (dict_get (Sample.settings_of "/data/ERA5") "start_date"
   = Ok (Datetime 1019736) /\
   dict_get (Sample.settings_of "/data/ERA5") "end_date"
   = Ok (Datetime 1019760) /\
   dict_get (Sample.settings_of "/data/ERA5") "ERA5_path"
   = Ok (Str "/data/ERA5") /\
   "/data/ERA5"%string <> ""%string /\ ~ ends_with_slash "/data/ERA5") /\
  Sample.init_settings (Sample.settings_of "/data/ERA5")
  = (Sample.settings_of "/data/ERA5/", Ok tt) /\
  Download.download_ERA5 Sample.all_dirs (Sample.settings_of "/data/ERA5")
  = (Sample.settings_of "/data/ERA5/", Ok tt) /\
  Download.download_ERA5 Sample.no_dirs (Sample.settings_of "/data/ERA5")
  = (Sample.settings_of "/data/ERA5", Raise SystemExit).
Proof.
  assert (H : dict_get (Sample.settings_of "/data/ERA5") "start_date"
              = Ok (Datetime 1019736) /\
              dict_get (Sample.settings_of "/data/ERA5") "end_date"
              = Ok (Datetime 1019760) /\
              dict_get (Sample.settings_of "/data/ERA5") "ERA5_path"
              = Ok (Str "/data/ERA5") /\
              "/data/ERA5"%string <> ""%string /\
              ~ ends_with_slash "/data/ERA5").
  { repeat (split; [reflexivity|]).
    split; [discriminate|exact data_has_no_final_slash]. }
  split; [exact H|]. destruct H as (H1 & H2 & H3 & H4 & H5).
  destruct (C10_trailing_slash_added_in_place Sample.lower_to_hour
              Sample.required_days Sample.required_days Sample.all_dirs
              (Sample.settings_of "/data/ERA5") "/data/ERA5"
              _ _ H1 H2 H3)
    as (Hadd & _).
  destruct (Hadd H4 H5) as (Ei & Ed & _).
  destruct (C10_trailing_slash_added_in_place Sample.lower_to_hour
              Sample.required_days Sample.required_days Sample.no_dirs
              (Sample.settings_of "/data/ERA5") "/data/ERA5"
              _ _ H1 H2 H3)
    as (Hadd' & _).
  destruct (Hadd' H4 H5) as (_ & _ & En & _).
  split.
  - apply Ei. exists (Datetime 1019736), (Datetime 1019760),
      [Datetime 1019736], [Datetime 1019736]. repeat split.
  - split; [exact (Ed eq_refl)|exact (En eq_refl)].
Defined.

(** C10 as stated fails: a directory name without the final slash that
    is not an existing directory makes [download_ERA5] exit with the
    caller's dictionary unchanged. *)
Lemma C10_missing_directory_leaves_settings :
  ~ ends_with_slash "/data/ERA5" /\
  Download.download_ERA5 Sample.no_dirs (Sample.settings_of "/data/ERA5")
  = (Sample.settings_of "/data/ERA5", Raise SystemExit) /\
  dict_get (fst (Download.download_ERA5 Sample.no_dirs
                   (Sample.settings_of "/data/ERA5")))
           "ERA5_path" = Ok (Str "/data/ERA5").
Proof.
  split; [exact data_has_no_final_slash|]. split; reflexivity.
Qed.

(** A directory name that already ends with the slash is kept. *)
Lemma settings_with_final_slash_kept :
  Sample.init_settings (Sample.settings_of "/data/ERA5/")
  = (Sample.settings_of "/data/ERA5/", Ok tt).
Proof. reflexivity. Qed.

(** An empty directory name has no last character: [__init__] raises an
    IndexError and the dictionary stays as it was. *)
Lemma init_settings_empty_path :
  Sample.init_settings (Sample.settings_of "")
  = (Sample.settings_of "", Raise IndexError).
Proof. reflexivity. Qed.

(* ================================================================== *)
(** * Further properties of the code *)
(* ================================================================== *)

Import Py Np interpolate Read_ERA Spec PyLoop NpLoad Load Props.

(** ** Nearest positions on an axis *)

Lemma argmin_upto_lt n f : 0 < n -> argmin_upto n f < n.
Proof.
  induction n as [|n IH]; [lia|]. intros _. cbn [argmin_upto].
  destruct (Rlt_dec (f n) (f (argmin_upto n f))); [lia|].
  destruct n as [|n]; [cbn; lia|]. specialize (IH ltac:(lia)). lia.
Qed.

Lemma argmin_upto_min n f m :
  m < n -> (f (argmin_upto n f) <= f m)%R.
Proof.
  induction n as [|n IH]; [lia|]. intros Hm. cbn [argmin_upto].
  destruct (Rlt_dec (f n) (f (argmin_upto n f))) as [Hlt|Hge].
  - destruct (Nat.eq_dec m n) as [->|Hne]; [lra|].
    specialize (IH ltac:(lia)). lra.
  - destruct (Nat.eq_dec m n) as [->|Hne]; [lra|].
    apply IH. lia.
Qed.

Lemma argmin_upto_first n f m :
  m < argmin_upto n f -> (f (argmin_upto n f) < f m)%R.
Proof.
  induction n as [|n IH]; [cbn; lia|]. cbn [argmin_upto].
  destruct (Rlt_dec (f n) (f (argmin_upto n f))) as [Hlt|Hge]; intros Hm.
  - destruct (Nat.lt_ge_cases m (argmin_upto n f)) as [Hl|Hg].
    + specialize (IH Hl). lra.
    + destruct n as [|n]; [lia|].
      pose proof (argmin_upto_min (S n) f m ltac:(lia)). lra.
  - now apply IH.
Qed.

Lemma nearest_some a x :
  0 < len1 a ->
  nearest a x = Some (argmin_upto (len1 a) (fun k => Rabs (get1 a k - x))).
Proof.
  intros H. unfold nearest, argmin. cbn [map1 len1 get1].
  destruct (Nat.eqb_spec (len1 a) 0); [lia|reflexivity].
Qed.

Lemma nearest_spec a x k :
  nearest a x = Some k ->
  k < len1 a /\
  (forall m, m < len1 a -> (Rabs (get1 a k - x) <= Rabs (get1 a m - x))%R) /\
  (forall m, m < k -> (Rabs (get1 a k - x) < Rabs (get1 a m - x))%R).
Proof.
  unfold nearest, argmin. cbn [map1 len1 get1].
  destruct (Nat.eqb_spec (len1 a) 0) as [|Hn]; [discriminate|].
  intros [= <-]. split; [apply argmin_upto_lt; lia|]. split.
  - intros m Hm.
    apply (argmin_upto_min (len1 a) (fun k => Rabs (get1 a k - x)) m Hm).
  - intros m Hm.
    apply (argmin_upto_first (len1 a) (fun k => Rabs (get1 a k - x)) m Hm).
Qed.

Lemma nearest_monotone a x y kx ky :
  nondecreasing a -> (x <= y)%R ->
  nearest a x = Some kx -> nearest a y = Some ky -> kx <= ky.
Proof.
  intros Hs Hxy Hx Hy.
  destruct (nearest_spec a x kx Hx) as (Hkx & _ & Hfx).
  destruct (nearest_spec a y ky Hy) as (Hky & Hmy & _).
  destruct (Nat.le_gt_cases kx ky) as [|Hlt]; [assumption|exfalso].
  specialize (Hfx ky Hlt). specialize (Hmy kx Hkx).
  pose proof (Hs ky kx ltac:(lia) Hkx) as Hle.
  unfold Rabs in *.
  repeat destruct (Rcase_abs _) in *; lra.
Qed.

(** X1.  [np.abs(a - x).argmin()] on a non-empty axis returns a position
    of the axis whose entry is at least as near to [x] as every other
    entry, and the first such position; when [x] is itself an entry of the
    axis, the entry at the returned position is [x]. *)
Theorem nearest_is_first_closest_position (a : ndarray1) (x : R) :
  0 < len1 a ->
  exists k,
    nearest a x = Some k /\ k < len1 a /\
    (forall m, m < len1 a -> (distance a x k <= distance a x m)%R) /\
    (forall m, m < k -> (distance a x k < distance a x m)%R) /\
    (forall m, m < len1 a -> get1 a m = x -> get1 a k = x).
Proof.
  intros Hn. set (k := argmin_upto (len1 a) (fun k => Rabs (get1 a k - x))).
  exists k. split; [apply nearest_some; exact Hn|].
  destruct (nearest_spec a x k (nearest_some a x Hn)) as (Hk & Hmin & Hfirst).
  split; [exact Hk|]. split; [exact Hmin|]. split; [exact Hfirst|].
  intros m Hm E. specialize (Hmin m Hm). rewrite E in Hmin.
  replace (x - x)%R with 0%R in Hmin by ring. rewrite Rabs_R0 in Hmin.
  pose proof (Rabs_pos (get1 a k - x)) as Hp.
  destruct (Req_dec (get1 a k - x) 0) as [E0|N0]; [lra|].
  apply Rabs_no_R0 in N0. lra.
Qed.

(** ** The selected time records *)

Lemma extent_time_slice n t0 t1 :
  t0 <= t1 -> t1 < n -> extent n (time_slice t0 t1) = t1 - t0 + 1.
Proof.
  intros H01 H1. unfold extent, hi, lo, time_slice, range; cbn [start stop].
  rewrite !adjust_inside by lia. lia.
Qed.

Lemma lo_time_slice n t0 t1 : t0 <= n -> lo n (time_slice t0 t1) = t0.
Proof.
  intros H. unfold lo, time_slice, range; cbn [start].
  rewrite adjust_inside by lia. lia.
Qed.

Lemma extent_time_slice_reversed n t0 t1 :
  t1 < t0 -> extent n (time_slice t0 t1) = 0.
Proof.
  intros H. unfold extent, hi, lo, time_slice, range, adjust; cbn [start stop].
  destruct (Z.ltb_spec (Z.of_nat t1 + 1) 0); [lia|].
  destruct (Z.ltb_spec (Z.of_nat t0) 0); lia.
Qed.

(** X2.  On a time axis in non-decreasing order and for a start that does
    not come after the end, the index nearest to the start does not come
    after the index nearest to the end, so the time slice [t0:t1+1]
    selects the [t1 - t0 + 1] records from the one nearest to the start to
    the one nearest to the end. *)
Theorem time_slice_selects_start_to_end
    (an_time_tmp : ndarray1) (start_h_since end_h_since : R) (t0 t1 : nat) :
  nondecreasing an_time_tmp -> (start_h_since <= end_h_since)%R ->
  nearest an_time_tmp start_h_since = Some t0 ->
  nearest an_time_tmp end_h_since = Some t1 ->
  t0 <= t1 /\
  is1 (getitem1 an_time_tmp (time_slice t0 t1)) (t1 - t0 + 1)
      (fun k => get1 an_time_tmp (t0 + k)).
Proof.
  intros Hs Hxy H0 H1.
  pose proof (nearest_monotone _ _ _ _ _ Hs Hxy H0 H1) as Hle.
  destruct (nearest_spec _ _ _ H1) as (Hlt & _).
  split; [exact Hle|]. split.
  - cbn [getitem1 len1]. now apply extent_time_slice.
  - intros k Hk. cbn [getitem1 get1]. rewrite lo_time_slice by lia. reflexivity.
Qed.

Lemma all_equal_same_length a b :
  len1 a = len1 b -> all_equal a b = Ok true ->
  forall k, k < len1 a -> get1 a k = get1 b k.
Proof.
  intros Hl. unfold all_equal. rewrite Hl, bdim_same.
  intros H k Hk. injection H as H. rewrite forallb_forall in H.
  specialize (H k ltac:(apply in_seq; lia)).
  destruct (Req_dec_T _ _) as [E|]; [|discriminate].
  unfold bidx in E. rewrite <- Hl in E.
  destruct (Nat.eqb_spec (len1 a) 1) as [E1|]; [|exact E].
  assert (k = 0) by lia. now subst k.
Qed.

(** X3.  When [__init__] gets past the check of the time axes, there is at
    least one selected time, [time_sec] has one entry per selected time,
    starts at zero and counts the seconds from the first selected time
    (times are in hours), and analysis and forecast axes of equal length
    hold the same times. *)
Theorem time_sec_counts_from_first_time (time time_fc time_sec : ndarray1) :
  init_times time time_fc = Ok time_sec ->
  0 < len1 time /\ len1 time_sec = len1 time /\ get1 time_sec 0 = 0%R /\
  (forall k, get1 time_sec k = ((get1 time k - get1 time 0) * 3600)%R) /\
  (len1 time_fc = len1 time ->
   forall k, k < len1 time -> get1 time k = get1 time_fc k).
Proof.
  unfold init_times, item1. intros H.
  destruct (len1 time) as [|n] eqn:En.
  - cbn in H. discriminate.
  - rewrite index_inside in H by lia. cbn [rbind] in H.
    change (Z.to_nat 0) with 0 in H.
    destruct (all_equal time time_fc) as [[|]|x] eqn:Ea;
      cbn [rbind] in H; try discriminate.
    injection H as <-. cbn [len1 get1].
    split; [lia|]. split; [reflexivity|]. split; [ring|].
    split; [reflexivity|].
    intros Hl k Hk. apply all_equal_same_length; [lia|exact Ea|lia].
Qed.

(** X4.  When the end index lies before the start index the time slice
    selects nothing, and [__init__] fails with an IndexError at
    [self.time[0]], before the time axes are compared. *)
Theorem reversed_time_slice_raises_IndexError
    (fma_time fmf_time : ndarray1) (t0 t1 : nat) (t_fc : slice) :
  t1 < t0 ->
  len1 (getitem1 fma_time (time_slice t0 t1)) = 0 /\
  read_times fma_time fmf_time (time_slice t0 t1) t_fc = Raise IndexError.
Proof.
  intros H. unfold read_times, init_times, item1.
  cbn [getitem1 len1]. rewrite extent_time_slice_reversed by exact H.
  split; reflexivity.
Qed.

(** ** Levels from the bottom upwards *)

(** X5.  The pressure levels of the file, in hPa and in increasing order,
    become [p_p] in Pa and in strictly decreasing order, so that index 0
    is the highest pressure; no two entries of [p_p] are equal. *)
Theorem pressure_levels_become_decreasing (level : ndarray1) :
  increasing level ->
  decreasing (read_p_p level) /\ NoDup (to_list1 (read_p_p level)) /\
  is1 (read_p_p level) (len1 level)
      (fun k => (get1 level (len1 level - 1 - k) * 100)%R).
Proof.
  intros Hinc.
  assert (Hlen : len1 (read_p_p level) = len1 level).
  { cbn [read_p_p map1 flip0 getitem1 len1]. apply extent_full. }
  assert (Hget : forall k, get1 (read_p_p level) k
                           = (get1 level (len1 level - 1 - k) * 100)%R).
  { intros k. cbn [read_p_p map1 flip0 getitem1 len1 get1].
    rewrite extent_full. unfold lo; cbn [start full]. reflexivity. }
  assert (Hdec : decreasing (read_p_p level)).
  { intros a b Hab Hb. rewrite Hlen in Hb. rewrite !Hget.
    pose proof (Hinc (len1 level - 1 - b) (len1 level - 1 - a)
                  ltac:(lia) ltac:(lia)).
    lra. }
  split; [exact Hdec|]. split.
  - unfold to_list1. rewrite Hlen.
    apply (NoDup_nth (map (get1 (read_p_p level)) (seq 0 (len1 level))) 0%R).
    rewrite length_map, length_seq. intros a b Ha Hb E.
    rewrite !(nth_indep _ 0%R (get1 (read_p_p level) 0)) in E
      by (rewrite length_map, length_seq; lia).
    rewrite !map_nth, !seq_nth in E by lia. cbn [Nat.add] in E.
    destruct (Nat.lt_trichotomy a b) as [Hlt|[Heq|Hgt]]; [|exact Heq|].
    + pose proof (Hdec a b Hlt ltac:(rewrite Hlen; lia)). lra.
    + pose proof (Hdec b a Hgt ltac:(rewrite Hlen; lia)). lra.
  - split; [exact Hlen|]. intros k _. apply Hget.
Qed.

(** X6.  The radiative temperature tendencies are read from the forecast
    file with the analysis time slice: at time step [t] and level [k] (from
    the bottom) the tendency is the record [t0_an + t] of the forecast
    file at its level [nlev - 1 - k] (from the top), divided by the Exner
    function of the object at [t], [k]. *)
Theorem radiative_tendency_read_at_analysis_index
    (fmf_var exn : ndarray4) (t0_an t1_an : nat) :
  t0_an <= t1_an -> t1_an < d40 fmf_var ->
  d40 exn = t1_an - t0_an + 1 -> d41 exn = d41 fmf_var ->
  d42 exn = d42 fmf_var -> d43 exn = d43 fmf_var ->
  exists dthldt,
    read_dthldt fmf_var (time_slice t0_an t1_an) exn = Ok dthldt /\
    is4 dthldt (t1_an - t0_an + 1) (d41 fmf_var) (d42 fmf_var) (d43 fmf_var)
      (fun t k j i =>
         (get4 fmf_var (t0_an + t) (d41 fmf_var - 1 - k) j i
          / get4 exn t k j i)%R).
Proof.
  intros H01 H1 E0 E1 E2 E3.
  assert (Hr : is4 (read_levels fmf_var (time_slice t0_an t1_an))
                 (t1_an - t0_an + 1) (d41 fmf_var) (d42 fmf_var) (d43 fmf_var)
                 (fun t k j i =>
                    get4 fmf_var (t0_an + t) (d41 fmf_var - 1 - k) j i)).
  { unfold read_levels. cbn [flip1 getitem4 d40 d41 d42 d43 get4].
    rewrite !extent_full, extent_time_slice by lia.
    repeat (split; [reflexivity|]).
    intros t k j i Ht Hk Hj Hi. rewrite lo_time_slice by lia.
    unfold lo; cbn [start full]. reflexivity. }
  assert (He : is4 exn (t1_an - t0_an + 1) (d41 fmf_var) (d42 fmf_var)
                 (d43 fmf_var) (get4 exn)).
  { repeat (split; [assumption|]). reflexivity. }
  destruct (is4_binop Rdiv _ _ _ _ _ _ _ _ Hr He) as (c & Ec & Hc).
  exists c. split; [exact Ec|exact Hc].
Qed.

(** ** Quantities derived at load *)

Lemma is4_self a : is4 a (d40 a) (d41 a) (d42 a) (d43 a) (get4 a).
Proof. repeat (split; [reflexivity|]). reflexivity. Qed.

Lemma is4_of_same_shape a b :
  same_shape4 a b -> is4 b (d40 a) (d41 a) (d42 a) (d43 a) (get4 b).
Proof.
  intros (e0 & e1 & e2 & e3). repeat (split; [congruence|]). reflexivity.
Qed.

Ltac step_is4 H :=
  let c := fresh "c" in let E := fresh "E" in let Hc := fresh "Hc" in
  destruct H as (c & E & Hc).

(** X7.  For fields of one shape, a positive Exner function and
    non-negative cloud water, cloud ice, rain and snow contents, the
    quantities derived at load satisfy, at every point: [ql] is the sum of
    the four condensate contents, [qt = q + ql] is at least [q],
    [th = T / exn], and [thl = th - Lv / (cpd * exn) * ql] does not exceed
    [th], with equality where there is no condensate. *)
Theorem thl_does_not_exceed_theta
    (Lv cpd : R) (T q exn qc qi qr qs : ndarray4) :
  (0 < Lv)%R -> (0 < cpd)%R ->
  same_shape4 T q -> same_shape4 T exn -> same_shape4 T qc ->
  same_shape4 T qi -> same_shape4 T qr -> same_shape4 T qs ->
  all4 (fun x => 0 < x)%R exn ->
  all4 (fun x => 0 <= x)%R qc -> all4 (fun x => 0 <= x)%R qi ->
  all4 (fun x => 0 <= x)%R qr -> all4 (fun x => 0 <= x)%R qs ->
  exists ql qt th thl,
    init_ql qc qi qr qs = Ok ql /\ init_qt q ql = Ok qt /\
    init_th T exn = Ok th /\ init_thl Lv cpd th exn ql = Ok thl /\
    same_shape4 T ql /\ same_shape4 T qt /\
    same_shape4 T th /\ same_shape4 T thl /\
    forall t k j i, t < d40 T -> k < d41 T -> j < d42 T -> i < d43 T ->
      get4 ql t k j i
      = (get4 qc t k j i + get4 qi t k j i + get4 qr t k j i
         + get4 qs t k j i)%R /\
      get4 qt t k j i = (get4 q t k j i + get4 ql t k j i)%R /\
      (get4 q t k j i <= get4 qt t k j i)%R /\
      get4 th t k j i = (get4 T t k j i / get4 exn t k j i)%R /\
      get4 thl t k j i
      = (get4 th t k j i
         - Lv / (cpd * get4 exn t k j i) * get4 ql t k j i)%R /\
      (get4 thl t k j i <= get4 th t k j i)%R /\
      (get4 ql t k j i = 0%R -> get4 thl t k j i = get4 th t k j i).
Proof.
  intros HLv Hcp Sq Se Sc Si Sr Ss Pe Pc Pi Pr Ps.
  pose proof (is4_self T) as HT.
  pose proof (is4_of_same_shape T q Sq) as Hq.
  pose proof (is4_of_same_shape T exn Se) as He.
  pose proof (is4_of_same_shape T qc Sc) as Hc.
  pose proof (is4_of_same_shape T qi Si) as Hi.
  pose proof (is4_of_same_shape T qr Sr) as Hr.
  pose proof (is4_of_same_shape T qs Ss) as Hs.
  destruct (is4_binop Rplus _ _ _ _ _ _ _ _ Hc Hi) as (a & Ea & Ha).
  destruct (is4_binop Rplus _ _ _ _ _ _ _ _ Ha Hr) as (b & Eb & Hb).
  destruct (is4_binop Rplus _ _ _ _ _ _ _ _ Hb Hs) as (ql & Eql & Hql).
  destruct (is4_binop Rplus _ _ _ _ _ _ _ _ Hq Hql) as (qt & Eqt & Hqt).
  destruct (is4_binop Rdiv _ _ _ _ _ _ _ _ HT He) as (th & Eth & Hth).
  pose proof (is4_map (fun x => Lv / x)%R _ _ _ _ _ _
                (is4_map (Rmult cpd) _ _ _ _ _ _ He)) as Hf.
  destruct (is4_binop Rmult _ _ _ _ _ _ _ _ Hf Hql) as (c & Ec & Hc').
  destruct (is4_binop Rminus _ _ _ _ _ _ _ _ Hth Hc') as (thl & Ethl & Hthl).
  exists ql, qt, th, thl.
  split; [unfold init_ql, add4; rewrite Ea; cbn [rbind]; rewrite Eb; exact Eql|].
  split; [exact Eqt|]. split; [exact Eth|].
  split; [unfold init_thl, mul4, sub4, smul4; rewrite Ec; exact Ethl|].
  destruct Hql as (l0 & l1 & l2 & l3 & Hql).
  destruct Hqt as (t0 & t1 & t2 & t3 & Hqt).
  destruct Hth as (h0 & h1 & h2 & h3 & Hth).
  destruct Hthl as (m0 & m1 & m2 & m3 & Hthl).
  split; [repeat split; congruence|]. split; [repeat split; congruence|].
  split; [repeat split; congruence|]. split; [repeat split; congruence|].
  intros t k j i Ht Hk Hj Hi'.
  destruct Se as (e0 & e1 & e2 & e3), Sc as (c0 & c1 & c2 & c3),
    Si as (i0 & i1 & i2 & i3), Sr as (r0 & r1 & r2 & r3),
    Ss as (s0 & s1 & s2 & s3).
  specialize (Pe t k j i ltac:(lia) ltac:(lia) ltac:(lia) ltac:(lia)).
  specialize (Pc t k j i ltac:(lia) ltac:(lia) ltac:(lia) ltac:(lia)).
  specialize (Pi t k j i ltac:(lia) ltac:(lia) ltac:(lia) ltac:(lia)).
  specialize (Pr t k j i ltac:(lia) ltac:(lia) ltac:(lia) ltac:(lia)).
  specialize (Ps t k j i ltac:(lia) ltac:(lia) ltac:(lia) ltac:(lia)).
  cbv beta in Pe, Pc, Pi, Pr, Ps.
  rewrite (Hql t k j i), (Hqt t k j i), (Hth t k j i), (Hthl t k j i)
    by assumption.
  assert (Hpos : (0 < Lv / (cpd * get4 exn t k j i))%R).
  { apply Rdiv_lt_0_compat; [exact HLv|]. now apply Rmult_lt_0_compat. }
  set (c0' := (Lv / (cpd * get4 exn t k j i))%R) in *.
  set (sum := (get4 qc t k j i + get4 qi t k j i + get4 qr t k j i
               + get4 qs t k j i)%R).
  assert (Hsum : (0 <= sum)%R) by (unfold sum; lra).
  split; [reflexivity|]. split; [reflexivity|]. split; [lra|].
  split; [reflexivity|]. split; [reflexivity|].
  split; [nra|]. intros E. rewrite E. ring.
Qed.

(** X8.  For fields of one shape with positive pressure and virtual
    temperature, positive [Rd] and [grav]: the density is positive, and
    the vertical velocity [wls] in m/s has the sign opposite to the
    pressure velocity [w] in Pa/s: rising air ([w < 0]) has [wls > 0],
    sinking air has [wls < 0]. *)
Theorem wls_has_opposite_sign_of_pressure_velocity
    (Rd grav : R) (p Tv w : ndarray4) :
  (0 < Rd)%R -> (0 < grav)%R ->
  same_shape4 p Tv -> same_shape4 p w ->
  all4 (fun x => 0 < x)%R p -> all4 (fun x => 0 < x)%R Tv ->
  exists rho wls,
    init_rho Rd p Tv = Ok rho /\ init_wls grav w rho = Ok wls /\
    same_shape4 p rho /\ same_shape4 p wls /\
    forall t k j i, t < d40 p -> k < d41 p -> j < d42 p -> i < d43 p ->
      (0 < get4 rho t k j i)%R /\
      get4 wls t k j i
      = (- get4 w t k j i / (get4 rho t k j i * grav))%R /\
      ((get4 w t k j i < 0)%R -> (0 < get4 wls t k j i)%R) /\
      ((0 < get4 w t k j i)%R -> (get4 wls t k j i < 0)%R) /\
      (get4 w t k j i = 0%R -> get4 wls t k j i = 0%R).
Proof.
  intros HRd Hg ST Sw Pp PT.
  pose proof (is4_self p) as Hp.
  pose proof (is4_of_same_shape p Tv ST) as HTv.
  pose proof (is4_of_same_shape p w Sw) as Hw.
  destruct (is4_binop Rdiv _ _ _ _ _ _ _ _ Hp
              (is4_map (Rmult Rd) _ _ _ _ _ _ HTv)) as (rho & Erho & Hrho).
  destruct (is4_binop Rdiv _ _ _ _ _ _ _ _
              (is4_map Ropp _ _ _ _ _ _ Hw)
              (is4_map (fun x => x * grav)%R _ _ _ _ _ _ Hrho))
    as (wls & Ewls & Hwls).
  exists rho, wls. split; [exact Erho|]. split; [exact Ewls|].
  destruct Hrho as (r0 & r1 & r2 & r3 & Hrho).
  destruct Hwls as (l0 & l1 & l2 & l3 & Hwls).
  split; [repeat split; congruence|]. split; [repeat split; congruence|].
  intros t k j i Ht Hk Hj Hi.
  destruct ST as (e0 & e1 & e2 & e3).
  specialize (Pp t k j i Ht Hk Hj Hi).
  specialize (PT t k j i ltac:(lia) ltac:(lia) ltac:(lia) ltac:(lia)).
  cbv beta in Pp, PT.
  rewrite (Hwls t k j i) by assumption.
  assert (Hr : (0 < get4 rho t k j i)%R).
  { rewrite (Hrho t k j i) by assumption.
    apply Rdiv_lt_0_compat; [exact Pp|]. now apply Rmult_lt_0_compat. }
  rewrite (Hrho t k j i) in * by assumption.
  set (r := (get4 p t k j i / (Rd * get4 Tv t k j i))%R) in *.
  assert (Hrg : (0 < r * grav)%R) by now apply Rmult_lt_0_compat.
  split; [exact Hr|]. split; [reflexivity|].
  split; [|split].
  - intros Hneg. apply Rdiv_lt_0_compat; lra.
  - intros Hpos. unfold Rdiv.
    assert (0 < / (r * grav))%R by now apply Rinv_0_lt_compat.
    nra.
  - intros ->. unfold Rdiv. rewrite Ropp_0. ring.
Qed.

(** ** The window means *)


Lemma keeps_ret {A} (a : A) : preserves_means (ret a).
Proof. intros e. reflexivity. Qed.

Lemma keeps_lift {A} (r : result A) : preserves_means (lift r).
Proof. intros e. reflexivity. Qed.

Lemma keeps_self : preserves_means self.
Proof. intros e. reflexivity. Qed.

Lemma keeps_attr {A} (o : option A) : preserves_means (attr o).
Proof. intros e. reflexivity. Qed.

Lemma keeps_local {A} name (o : option A) : preserves_means (local name o).
Proof. intros e. reflexivity. Qed.

Lemma keeps_set_frc f : preserves_means (assign (set_frc f)).
Proof. intros e. reflexivity. Qed.

Lemma keeps_bind {A B} (c : M A) (k : A -> M B) :
  preserves_means c -> (forall a, preserves_means (k a)) ->
  preserves_means (bind c k).
Proof.
  intros Hc Hk e. unfold bind. specialize (Hc e).
  destruct (c e) as [e' [a|x]]; cbn [fst] in *.
  - now rewrite Hk.
  - exact Hc.
Qed.

Lemma keeps_for_each ts body :
  (forall t, preserves_means (body t)) -> preserves_means (for_each ts body).
Proof.
  intros Hb. induction ts as [|t ts IH]; cbn [for_each].
  - apply keeps_ret.
  - apply keeps_bind; [apply Hb|intros _; exact IH].
Qed.

Create HintDb keeps.
#[local] Hint Resolve keeps_ret keeps_lift keeps_self keeps_attr keeps_local
  keeps_set_frc : keeps.

Ltac keeps :=
  repeat first
    [ solve [auto with keeps]
    | apply keeps_bind; [|intros ?]
    | apply keeps_for_each; intros ?
    | progress cbv zeta
    | match goal with
      | |- preserves_means (if ?b then _ else _) => destruct b
      end ].

Lemma keeps_method_branch grav s sl method dx dy :
  preserves_means (method_branch grav s sl method dx dy).
Proof.
  unfold method_branch, set_dtthl_advec, set_dtqt_advec, set_dtu_advec,
    set_dtv_advec.
  keeps.
Qed.

Lemma keeps_interp_step s ug_p vg_p t :
  preserves_means (interp_step s ug_p vg_p t).
Proof. unfold interp_step, interp_row, set_ug, set_vg. keeps. Qed.

(** X10.  Whatever the window, the method and the outcome (also when the
    call raises), [calculate_forcings] leaves the window means assigned,
    computed from the fields of the object over the slices [center4d] and
    [center3d]: means left by an earlier call never survive. *)
Theorem window_means_assigned_whatever_the_outcome
    (grav : R) (dlon : R -> R -> R -> R) (dlat : R -> R -> R)
    (n_av : Z) (method : string) (e : Era) :
  means (fst (calculate_forcings grav dlon dlat n_av method e))
  = Some (window_means (src e) (centre4 (src e) n_av) (centre3 (src e) n_av)).
Proof.
  unfold calculate_forcings.
  unfold bind at 1. unfold self at 1.
  unfold bind at 1. unfold assign at 1.
  match goal with
  | |- means (fst (?c ?e1)) = _ =>
      assert (Hk : preserves_means c); [|rewrite (Hk e1); reflexivity]
  end.
  unfold set_ug, set_vg, set_dtu_coriolis, set_dtv_coriolis.
  pose proof keeps_method_branch. pose proof keeps_interp_step.
  keeps.
Qed.

Lemma window_mean_single j0 i0 F : window_mean j0 i0 1 F = F j0 i0.
Proof.
  unfold window_mean. cbn [sum_upto Nat.mul Nat.add INR].
  rewrite !Nat.add_0_r. field.
Qed.

(** X11.  For a window inside the grid, the window mean of a model-level
    field holds one value per time and level: the sum of the field over
    the [(2 n_av + 1)^2] grid points of the window, divided by their
    number.  With [n_av = 0] the window is the single grid point of the
    centre and the mean is the value there. *)
Theorem model_level_mean_is_window_mean
    (s : Source) (n_av : Z) (S : ndarray4) :
  let a := mean23 (getitem4 S (centre4 s n_av)) in
  in_bounds s n_av 0 -> model_shape s S ->
  shape2 a = (ntime s, nfull s) /\
  (forall t k, t < ntime s -> k < nfull s ->
     get2 a t k
     = window_mean (j0 s n_av) (i0 s n_av) (width n_av) (get4 S t k)) /\
  (n_av = 0%Z ->
   forall t k, t < ntime s -> k < nfull s ->
     get2 a t k = get4 S t k (Z.to_nat (j s)) (Z.to_nat (i s))).
Proof.
  intros a Hb HS.
  destruct (centre_mean s n_av S Hb HS) as (A0 & A1 & HA). fold a in A0, A1, HA.
  split; [unfold shape2; now rewrite A0, A1|]. split.
  - exact HA.
  - intros -> t k Ht Hk. rewrite HA by assumption.
    change (width 0) with 1. rewrite window_mean_single.
    unfold j0, i0. now rewrite !Z.sub_0_r.
Qed.

Lemma is3_window S n0 nj ni (js je is_ ie : Z) :
  d30 S = n0 -> d31 S = nj -> d32 S = ni ->
  (0 <= js <= je)%Z -> (je <= Z.of_nat nj)%Z ->
  (0 <= is_ <= ie)%Z -> (ie <= Z.of_nat ni)%Z ->
  d30 (getitem3 S (full, range js je, range is_ ie)) = n0 /\
  d31 (getitem3 S (full, range js je, range is_ ie)) = Z.to_nat (je - js) /\
  d32 (getitem3 S (full, range js je, range is_ ie)) = Z.to_nat (ie - is_) /\
  forall t j i,
    get3 (getitem3 S (full, range js je, range is_ ie)) t j i
    = get3 S t (Z.to_nat js + j) (Z.to_nat is_ + i).
Proof.
  intros e0 e1 e2 Hj Hj' Hi Hi'. cbn [getitem3 d30 d31 d32 get3].
  unfold extent, hi, lo, range, full; cbn [start stop].
  rewrite e0, e1, e2, !adjust_inside by lia.
  repeat split; try lia.
Qed.

Lemma surface_mean s n_av S :
  in_bounds s n_av 0 -> surface_shape s S ->
  is1 (mean12 (getitem3 S (centre3 s n_av))) (ntime s)
      (fun t => window_mean (j0 s n_av) (i0 s n_av) (width n_av) (get3 S t)).
Proof.
  intros (Hn & Hi1 & Hi2 & Hj1 & Hj2) (s0 & s1 & s2).
  destruct (is3_window S (ntime s) (nlat s) (nlon s)
              (j s - n_av) (j s + n_av + 1) (i s - n_av) (i s + n_av + 1)
              s0 s1 s2) as (e0 & e1 & e2 & H); try lia.
  unfold centre3. split.
  - cbn [mean12 len1]. exact e0.
  - intros t Ht. cbn [mean12 get1]. rewrite e1, e2.
    unfold window_mean, width, j0, i0.
    replace (Z.to_nat (j s + n_av + 1 - (j s - n_av)))
      with (Z.to_nat (2 * n_av + 1)) by lia.
    replace (Z.to_nat (i s + n_av + 1 - (i s - n_av)))
      with (Z.to_nat (2 * n_av + 1)) by lia.
    f_equal. apply sum_upto_ext. intros dj _. apply sum_upto_ext. intros di _.
    apply H.
Qed.

(** X12.  For a window inside the grid and surface fields on the axes of
    the object, the surface means ([ps_mean], [wth_mean], [wq_mean],
    [cc_mean], [z0m_mean], [z0h_mean]) hold one value per time, the
    arithmetic mean of the field over the window. *)
Theorem surface_means_are_window_means (s : Source) (n_av : Z) :
  let m := window_means s (centre4 s n_av) (centre3 s n_av) in
  let wmean := window_mean (j0 s n_av) (i0 s n_av) (width n_av) in
  in_bounds s n_av 0 ->
  surface_shape s (ps s) -> surface_shape s (wths s) ->
  surface_shape s (wqs s) -> surface_shape s (cc s) ->
  surface_shape s (z0m s) -> surface_shape s (z0h s) ->
  is1 (ps_mean m) (ntime s) (fun t => wmean (get3 (ps s) t)) /\
  is1 (wth_mean m) (ntime s) (fun t => wmean (get3 (wths s) t)) /\
  is1 (wq_mean m) (ntime s) (fun t => wmean (get3 (wqs s) t)) /\
  is1 (cc_mean m) (ntime s) (fun t => wmean (get3 (cc s) t)) /\
  is1 (z0m_mean m) (ntime s) (fun t => wmean (get3 (z0m s) t)) /\
  is1 (z0h_mean m) (ntime s) (fun t => wmean (get3 (z0h s) t)).
Proof.
  intros m wmean Hb H1 H2 H3 H4 H5 H6.
  repeat split; try (apply surface_mean; assumption);
    intros t Ht; now apply surface_mean.
Qed.

(** ** Fields without horizontal gradients *)









(** ** Interpolation between two pressure levels *)

(** X14.  One row of the interpolation onto the model levels, on a
    strictly decreasing pressure axis: where the mean pressure [x] of a
    model level lies between two neighbouring pressure levels, above the
    lower and up to the higher pressure, the result is
    [slope * (x - x_lo) + y_lo] with [slope = (y_hi - y_lo) / (x_hi - x_lo)],
    where [lo] is the level of the lower and [hi] the level of the higher
    pressure; the object is left as it is. *)
Theorem interpolation_between_levels_is_on_their_line
    (s : Source) (e : Era) (m : Means) (g : ndarray2) (name : string) (t : nat) :
  means e = Some m ->
  t < d20 g -> t < d20 (p_mean m) ->
  d21 g = len1 (p_p s) -> 2 <= len1 (p_p s) -> decreasing (p_p s) ->
  exists r,
    interp_row s name (Some g) t e = (e, Ok r) /\
    len1 r = d21 (p_mean m) /\
    forall k l, k < d21 (p_mean m) -> S l < len1 (p_p s) ->
      let x := get2 (p_mean m) t k in
      (get1 (p_p s) (S l) < x <= get1 (p_p s) l)%R ->
      get1 r k = on_line (p_p s) g t l x.
Proof.
  intros Hm Ht Ht' G1 Hn Hd.
  eexists. split; [apply (interp_row_value s m g name t e); assumption|].
  split; [reflexivity|]. cbn [get1].
  intros k l Hk Hl Hx.
  destruct (interp_value_on_line s m g t k Hd Hn) as (Hin & _).
  now apply Hin.
Qed.

(** ** No geopotential gradient *)




(** ** A call does not depend on earlier calls *)

Ltac split_pure :=
  repeat match goal with
    | |- context [match ?x with Ok _ => _ | Raise _ => _ end] => destruct x
    end.

Lemma method_branch_pure grav s sl method dx dy :
  supported method = true ->
  (exists a1 a2 a3 a4 g,
     forall e, method_branch grav s sl method dx dy e
               = (with_advec a1 a2 a3 a4 e, Ok g)) \/
  (exists x, forall e, snd (method_branch grav s sl method dx dy e) = Raise x).
Proof.
  intros Hm. unfold method_branch, supported in *.
  destruct (method =? "2nd")%string.
  - cbv [bind lift assign ret].
    destruct (advec_2nd s sl (thl s) dx dy) as [a1|x]; [|right; exists x; reflexivity].
    destruct (advec_2nd s sl (qt s) dx dy) as [a2|x]; [|right; exists x; reflexivity].
    destruct (advec_2nd s sl (u s) dx dy) as [a3|x]; [|right; exists x; reflexivity].
    destruct (advec_2nd s sl (v s) dx dy) as [a4|x]; [|right; exists x; reflexivity].
    destruct (vg_p_2nd grav s sl dx) as [vgp|x]; [|right; exists x; reflexivity].
    destruct (ug_p_2nd grav s sl dy) as [ugp|x]; [|right; exists x; reflexivity].
    left. exists a1, a2, a3, a4, (Some ugp, Some vgp). reflexivity.
  - destruct (method =? "4th")%string; [|discriminate].
    cbv [bind lift assign ret].
    destruct (advec_4th s sl (thl s) dx dy) as [a1|x]; [|right; exists x; reflexivity].
    destruct (advec_4th s sl (qt s) dx dy) as [a2|x]; [|right; exists x; reflexivity].
    destruct (advec_4th s sl (u s) dx dy) as [a3|x]; [|right; exists x; reflexivity].
    destruct (advec_4th s sl (v s) dx dy) as [a4|x]; [|right; exists x; reflexivity].
    destruct (vg_p_4th grav s sl dx) as [vgp|x]; [|right; exists x; reflexivity].
    destruct (ug_p_4th grav s sl dy) as [ugp|x]; [|right; exists x; reflexivity].
    left. exists a1, a2, a3, a4, (Some ugp, Some vgp). reflexivity.
Qed.

Lemma interp_step_two s m ug_p vg_p t e0 e0' a b :
  means e0 = Some m -> means e0' = Some m ->
  exists a' b' r,
    interp_step s ug_p vg_p t (with_geo a b e0) = (with_geo a' b' e0, r) /\
    interp_step s ug_p vg_p t (with_geo a b e0') = (with_geo a' b' e0', r).
Proof.
  intros Hm Hm'. unfold interp_step, interp_row.
  cbv [bind lift local self attr ret assign].
  cbn [means with_geo frc ug vg set_ug set_vg set_frc src].
  rewrite Hm, Hm'.
  destruct ug_p as [gu|]; [|exists a, b; eexists; split; reflexivity].
  destruct (row2 gu t) as [yu|x]; [|exists a, b; eexists; split; reflexivity].
  destruct (interp1d (p_p s) yu) as [fu|x];
    [|exists a, b; eexists; split; reflexivity].
  destruct (row2 (p_mean m) t) as [xs|x] eqn:Ex;
    [|exists a, b; eexists; split; reflexivity].
  cbn [means with_geo frc ug vg set_ug set_vg set_frc src].
  destruct (setrow2 a t (call fu xs)) as [a1|x];
    [|exists a, b; eexists; split; reflexivity].
  cbn [means with_geo frc ug vg set_ug set_vg set_frc src].
  rewrite Hm, Hm'.
  destruct vg_p as [gv|]; [|exists a1, b; eexists; split; reflexivity].
  destruct (row2 gv t) as [yv|x]; [|exists a1, b; eexists; split; reflexivity].
  destruct (interp1d (p_p s) yv) as [fv|x];
    [|exists a1, b; eexists; split; reflexivity].
  rewrite ?Ex.
  cbn [means with_geo frc ug vg set_ug set_vg set_frc src].
  destruct (setrow2 b t (call fv xs)) as [b1|x];
    [|exists a1, b; eexists; split; reflexivity].
  exists a1, b1; eexists; split; reflexivity.
Qed.

Lemma interp_loop_two s m ug_p vg_p e0 e0' ts :
  means e0 = Some m -> means e0' = Some m ->
  forall a b, exists a' b' r,
    for_each ts (interp_step s ug_p vg_p) (with_geo a b e0)
    = (with_geo a' b' e0, r) /\
    for_each ts (interp_step s ug_p vg_p) (with_geo a b e0')
    = (with_geo a' b' e0', r).
Proof.
  intros Hm Hm'. induction ts as [|t ts IH]; intros a b.
  - exists a, b, (Ok tt). split; reflexivity.
  - cbn [for_each]. unfold bind.
    destruct (interp_step_two s m ug_p vg_p t e0 e0' a b Hm Hm')
      as (a1 & b1 & r & -> & ->).
    destruct r as [[]|x]; [apply IH|].
    exists a1, b1, (Raise x). split; reflexivity.
Qed.

Lemma final_state_of_source a1 a2 a3 a4 a b du dv m (e e2 : Era) :
  src e2 = src e ->
  set_dtv_coriolis dv
    (set_dtu_coriolis du
       (with_geo a b (with_advec a1 a2 a3 a4 (set_means m e2))))
  = set_dtv_coriolis dv
      (set_dtu_coriolis du
         (with_geo a b (with_advec a1 a2 a3 a4 (set_means m e)))).
Proof.
  intros H. destruct e, e2. cbn [src] in H. subst. reflexivity.
Qed.

(** X16.  With a supported method, a call of [calculate_forcings] that
    completes leaves an object that depends on the fields set by
    [__init__] only: on any two objects holding the same fields, whatever
    window means and forcing arrays earlier calls have left on them, the
    call completes on both or on neither and leaves the same object. *)
Theorem completed_call_does_not_depend_on_earlier_calls
    (grav : R) (dlon : R -> R -> R -> R) (dlat : R -> R -> R)
    (n_av : Z) (method : string) (e e2 e' : Era) :
  supported method = true -> src e2 = src e ->
  calculate_forcings grav dlon dlat n_av method e = (e', Ok tt) ->
  calculate_forcings grav dlon dlat n_av method e2 = (e', Ok tt).
Proof.
  intros Hsup Hsrc H. unfold calculate_forcings in H |- *.
  unfold bind at 1 in H; unfold bind at 1. unfold self at 1 in H; unfold self at 1. rewrite Hsrc.
  set (s := src e) in *.
  set (m := window_means _ _ _) in *.
  set (sl := mkSlice _ _ _ _) in *.
  unfold bind at 1 in H; unfold bind at 1. unfold assign at 1 in H; unfold assign at 1.
  unfold bind at 1 in H; unfold bind at 1. unfold lift at 1 in H; unfold lift at 1.
  destruct (grid_spacing dlon dlat s) as [dxy|x]; [|discriminate].
  unfold bind at 1 in H; unfold bind at 1.
  destruct (method_branch_pure grav s sl method (fst dxy) (snd dxy) Hsup)
    as [(a1 & a2 & a3 & a4 & g & Hbr)|(x & Hbr)].
  2: { specialize (Hbr (set_means m e)).
       destruct (method_branch grav s sl method (fst dxy) (snd dxy) (set_means m e))
         as [e1 r]. cbn [snd] in Hbr. subst r. discriminate. }
  rewrite Hbr in H |- *.
  set (e1 := with_advec a1 a2 a3 a4 (set_means m e)) in *.
  set (e1' := with_advec a1 a2 a3 a4 (set_means m e2)) in *.
  assert (Hm : means e1 = Some m) by reflexivity.
  assert (Hm' : means e1' = Some m) by reflexivity.
  unfold bind at 1 in H; unfold bind at 1. unfold self at 1 in H; unfold self at 1.
  unfold bind at 1 in H; unfold bind at 1. rewrite Hm in H. rewrite Hm'.
  unfold attr at 1, lift at 1 in H; unfold attr at 1, lift at 1.
  unfold bind at 1 in H; unfold bind at 1. unfold assign at 1 in H; unfold assign at 1.
  unfold bind at 1 in H; unfold bind at 1. unfold self at 1 in H; unfold self at 1.
  unfold bind at 1 in H; unfold bind at 1. unfold attr at 1, lift at 1 in H; unfold attr at 1, lift at 1.
  change (means (set_ug _ e1)) with (Some m) in H.
  change (means (set_ug _ e1')) with (Some m). cbv beta iota in H |- *.
  unfold bind at 1 in H; unfold bind at 1. unfold assign at 1 in H; unfold assign at 1.
  change (set_vg (zeros_like2 (p_mean m)) (set_ug (zeros_like2 (p_mean m)) e1))
    with (with_geo (zeros_like2 (p_mean m)) (zeros_like2 (p_mean m)) e1) in H.
  change (set_vg (zeros_like2 (p_mean m)) (set_ug (zeros_like2 (p_mean m)) e1'))
    with (with_geo (zeros_like2 (p_mean m)) (zeros_like2 (p_mean m)) e1').
  unfold bind at 1 in H; unfold bind at 1.
  destruct (interp_loop_two s m (fst g) (snd g) e1 e1' (seq 0 (ntime s)) Hm Hm'
              (zeros_like2 (p_mean m)) (zeros_like2 (p_mean m)))
    as (a' & b' & r & E1 & E2).
  rewrite E1 in H. rewrite E2.
  destruct r as [[]|x]; [|discriminate].
  cbv [bind self attr lift assign] in H |- *.
  cbn [means frc ug vg with_geo] in H |- *. rewrite Hm in H. rewrite Hm'.
  destruct (sub2 (v_mean m) b') as [du|x]; [|discriminate].
  cbn [means frc ug vg with_geo set_dtu_coriolis set_dtv_coriolis set_frc]
    in H |- *.
  rewrite Hm in H. rewrite Hm'.
  destruct (sub2 (u_mean m) a') as [dv|x]; [|discriminate].
  injection H as <-. apply (f_equal (fun x => (x, Ok tt))).
  apply final_state_of_source. exact Hsrc.
Qed.

(** ** Windows that leave the grid *)



(** ** The download queue *)

Section Queue.

Import Ecmwf.

Variables year month day : R -> nat.
Variable ERA5_file_path : nat -> nat -> nat -> value -> value -> value -> string.
Variables isdir isfile : string -> bool.
Variable lower_to_hour : value -> result value.
Variable get_required_analysis : value -> value -> result (list value).
Variable get_required_forecast : value -> value -> result (list value).

Let check_local := check_local year month day ERA5_file_path isfile.
Let check_dates := check_dates year month day ERA5_file_path isfile.
Let download_queue :=
  download_queue year month day ERA5_file_path isdir isfile lower_to_hour
    get_required_analysis get_required_forecast.

Variables settings base : dict.
Variables path case : value.
Hypothesis Hpath : dict_get settings "ERA5_path" = Ok path.
Hypothesis Hcase : dict_get settings "case_name" = Ok case.

(** Whether the file of a date and file type is missing locally. *)
Let missing (f : R * string) : bool :=
  negb (isfile (ERA5_file_path (year (fst f)) (month (fst f)) (day (fst f))
                  path case (Str (snd f)))).

Let entry (f : R * string) : dict := queue_entry base (Datetime (fst f)) (snd f).

Lemma check_local_ok h ftype q :
  check_local settings base (Datetime h) ftype q
  = Ok (q ++ map entry (filter missing [(h, ftype)])).
Proof.
  unfold check_local, Ecmwf.check_local. cbn [date_attrs rbind].
  rewrite Hpath. cbn [rbind]. rewrite Hcase. cbn [rbind].
  unfold missing, entry. cbn [filter fst snd].
  destruct (isfile _); cbn [negb map]; [now rewrite app_nil_r|reflexivity].
Qed.

Lemma check_ftypes_ok h ftypes q :
  for_in ftypes (check_local settings base (Datetime h)) q
  = Ok (q ++ map entry (filter missing (map (pair h) ftypes))).
Proof.
  revert q. induction ftypes as [|ft fts IH]; intros q; cbn [for_in map filter].
  - now rewrite app_nil_r.
  - rewrite check_local_ok. cbn [rbind]. rewrite IH.
    cbn [filter]. destruct (missing (h, ft)); cbn [map app].
    + now rewrite <- app_assoc.
    + now rewrite app_nil_r.
Qed.

Lemma check_dates_ok hs ftypes q :
  check_dates settings base (map Datetime hs) ftypes q
  = Ok (q ++ map entry
               (filter missing (flat_map (fun h => map (pair h) ftypes) hs))).
Proof.
  unfold check_dates, Ecmwf.check_dates. revert q.
  induction hs as [|h hs IH]; intros q; cbn [for_in map flat_map filter].
  - now rewrite app_nil_r.
  - fold check_local. rewrite check_ftypes_ok. cbn [rbind]. rewrite IH.
    rewrite filter_app, map_app, app_assoc. reflexivity.
Qed.

(** A loop that completes has met datetime objects only. *)
Lemma check_dates_datetimes dates ftypes q q' :
  ftypes <> [] ->
  check_dates settings base dates ftypes q = Ok q' ->
  exists hs, dates = map Datetime hs.
Proof.
  intros Hne. unfold check_dates, Ecmwf.check_dates. revert q.
  induction dates as [|d dates IH]; intros q H.
  - now exists [].
  - cbn [for_in] in H.
    destruct (for_in ftypes _ q) as [q1|x] eqn:E; [|discriminate].
    cbn [rbind] in H. destruct (IH q1 H) as (hs & ->).
    destruct ftypes as [|ft fts]; [contradiction|].
    cbn [for_in] in E. unfold Ecmwf.check_local in E.
    destruct d as [? | ? | ? | h]; cbn [date_attrs rbind] in E; try discriminate.
    now exists (h :: hs).
Qed.

End Queue.

Lemma ensure_trailing_slash_ok settings settings' u :
  ensure_trailing_slash settings = (settings', Ok u) ->
  exists p0 p,
    dict_get settings "ERA5_path" = Ok (Str p0) /\
    dict_get settings' "ERA5_path" = Ok (Str p) /\ ends_with_slash p /\
    (p = p0 \/ p = (p0 ++ "/")%string) /\
    (forall key, key <> "ERA5_path"%string ->
                 dict_get settings' key = dict_get settings key).
Proof.
  unfold ensure_trailing_slash.
  destruct (dict_get settings "ERA5_path") as [[p0| | |]|x] eqn:Hget;
    try discriminate.
  destruct (String.eqb_spec p0 "") as [->|Hne]; [discriminate|].
  destruct (last_char p0 Hne) as (c & Ec & Hc). rewrite Ec.
  destruct (Ascii.eqb c "/") eqn:E; cbn [negb]; intros [= <- _].
  - exists p0, p0. split; [reflexivity|]. split; [exact Hget|].
    split; [now apply Hc|]. split; [now left|reflexivity].
  - exists p0, (p0 ++ "/")%string. split; [reflexivity|].
    split; [now apply (dict_get_set_same settings _ _ (Str p0))|].
    split; [now exists p0|]. split; [now right|].
    intros key Hk. now apply dict_get_set_other.
Qed.

Lemma download_ERA5_ok isdir settings settings' u :
  Download.download_ERA5 isdir settings = (settings', Ok u) ->
  exists p0 p,
    dict_get settings "ERA5_path" = Ok (Str p0) /\ isdir p0 = true /\
    dict_get settings' "ERA5_path" = Ok (Str p) /\ ends_with_slash p /\
    (p = p0 \/ p = (p0 ++ "/")%string) /\
    (forall key, key <> "ERA5_path"%string ->
                 dict_get settings' key = dict_get settings key).
Proof.
  unfold Download.download_ERA5.
  destruct (dict_get settings "start_date"); [|discriminate].
  destruct (dict_get settings "end_date"); [|discriminate].
  destruct (dict_get settings "ERA5_path") as [[p0| | |]|x] eqn:Hget;
    try discriminate.
  destruct (isdir p0) eqn:Hdir; cbn [negb]; [|discriminate].
  intros H. destruct (ensure_trailing_slash_ok _ _ _ H)
    as (p0' & p & H0 & H1 & H2 & H3 & H4).
  assert (p0' = p0) by congruence. subst p0'.
  exists p0, p. repeat (split; [assumption || reflexivity|]). assumption.
Qed.

Lemma download_queue_spec
    (year month day : R -> nat)
    (ERA5_file_path : nat -> nat -> nat -> value -> value -> value -> string)
    (isdir isfile : string -> bool)
    (lower_to_hour : value -> result value)
    (get_required_analysis get_required_forecast
       : value -> value -> result (list value))
    (settings settings' : dict) (queue : list dict) :
  Ecmwf.download_queue year month day ERA5_file_path isdir isfile
    lower_to_hour get_required_analysis get_required_forecast settings
  = (settings', Ok queue) ->
  exists d1 d2 start end_ an fc lat lon size path case,
    dict_get settings' "start_date" = Ok d1 /\ lower_to_hour d1 = Ok start /\
    dict_get settings' "end_date" = Ok d2 /\ lower_to_hour d2 = Ok end_ /\
    get_required_analysis start end_ = Ok (map Datetime an) /\
    get_required_forecast start end_ = Ok (map Datetime fc) /\
    dict_get settings' "central_lat" = Ok lat /\
    dict_get settings' "central_lon" = Ok lon /\
    dict_get settings' "area_size" = Ok size /\
    dict_get settings' "ERA5_path" = Ok path /\
    dict_get settings' "case_name" = Ok case /\
    queue
    = map (fun f =>
             Ecmwf.queue_entry
               [("lat", lat); ("lon", lon); ("size", size); ("path", path);
                ("case", case)]%string
               (Datetime (fst f)) (snd f))
          (filter (fun f =>
                     negb (isfile (ERA5_file_path (year (fst f)) (month (fst f))
                                     (day (fst f)) path case (Str (snd f)))))
                  (required_files an fc)).
Proof.
  unfold Ecmwf.download_queue.
  destruct (Download.download_ERA5 isdir settings) as [s' [u|x]];
    [|discriminate].
  intros H. injection H as <- H.
  destruct (dict_get s' "start_date") as [d1|] eqn:E1; [|discriminate].
  cbn [rbind] in H.
  destruct (lower_to_hour d1) as [start|] eqn:L1; [|discriminate].
  cbn [rbind] in H.
  destruct (dict_get s' "end_date") as [d2|] eqn:E2; [|discriminate].
  cbn [rbind] in H.
  destruct (lower_to_hour d2) as [end_|] eqn:L2; [|discriminate].
  cbn [rbind] in H.
  destruct (get_required_analysis start end_) as [an_dates|] eqn:Ea;
    [|discriminate].
  cbn [rbind] in H.
  destruct (get_required_forecast start end_) as [fc_dates|] eqn:Ef;
    [|discriminate].
  cbn [rbind] in H.
  destruct (dict_get s' "central_lat") as [lat|] eqn:G1; [|discriminate].
  cbn [rbind] in H.
  destruct (dict_get s' "central_lon") as [lon|] eqn:G2; [|discriminate].
  cbn [rbind] in H.
  destruct (dict_get s' "area_size") as [size|] eqn:G3; [|discriminate].
  cbn [rbind] in H.
  destruct (dict_get s' "ERA5_path") as [path|] eqn:G4; [|discriminate].
  cbn [rbind] in H.
  destruct (dict_get s' "case_name") as [case|] eqn:G5; [|discriminate].
  cbn [rbind] in H.
  set (base := [("lat", lat); ("lon", lon); ("size", size); ("path", path);
                ("case", case)]%string) in *.
  destruct (Ecmwf.check_dates year month day ERA5_file_path isfile s' base
              an_dates ["model_an"; "pressure_an"; "surface_an"]%string [])
    as [q1|] eqn:Q1; [|discriminate].
  cbn [rbind] in H.
  destruct (check_dates_datetimes year month day ERA5_file_path isfile
              s' base an_dates ["model_an"; "pressure_an"; "surface_an"]%string
              [] q1 ltac:(discriminate) Q1) as (an & ->).
  destruct (check_dates_datetimes year month day ERA5_file_path isfile
              s' base fc_dates ["model_fc"]%string q1 queue
              ltac:(discriminate) H) as (fc & ->).
  rewrite (check_dates_ok year month day ERA5_file_path isfile s' base
             path case G4 G5) in Q1, H.
  injection Q1 as <-. injection H as <-. cbn [app].
  exists d1, d2, start, end_, an, fc, lat, lon, size, path, case.
  repeat (split; [assumption || reflexivity|]).
  assert (Hq : forall l : list R,
             flat_map (fun h => [(h, "model_fc"%string)]) l
             = map (fun h => (h, "model_fc"%string)) l).
  { induction l as [|h l IH]; cbn [flat_map map app]; [reflexivity|].
    f_equal; exact IH. }
  unfold required_files, analysis_ftypes.
  rewrite filter_app, map_app, <- (Hq fc). reflexivity.
Qed.

(** X18.  When [download_ERA5] gets as far as its pool of download
    processes, the download queue holds exactly the required files that
    are not found locally, each once and in the order of the loops (per
    analysis day the model-level, pressure-level and surface analysis,
    then per forecast day the model-level forecast); every entry is a copy
    of the base dictionary with the date and the file type of its file. *)
Theorem download_queue_holds_the_missing_files
    (year month day : R -> nat)
    (ERA5_file_path : nat -> nat -> nat -> value -> value -> value -> string)
    (isdir isfile : string -> bool)
    (lower_to_hour : value -> result value)
    (get_required_analysis get_required_forecast
       : value -> value -> result (list value))
    (settings settings' : dict) (queue : list dict) :
  Ecmwf.download_queue year month day ERA5_file_path isdir isfile
    lower_to_hour get_required_analysis get_required_forecast settings
  = (settings', Ok queue) ->
  exists d1 d2 start end_ an fc lat lon size path case,
    dict_get settings' "start_date" = Ok d1 /\ lower_to_hour d1 = Ok start /\
    dict_get settings' "end_date" = Ok d2 /\ lower_to_hour d2 = Ok end_ /\
    get_required_analysis start end_ = Ok (map Datetime an) /\
    get_required_forecast start end_ = Ok (map Datetime fc) /\
    dict_get settings' "central_lat" = Ok lat /\
    dict_get settings' "central_lon" = Ok lon /\
    dict_get settings' "area_size" = Ok size /\
    dict_get settings' "ERA5_path" = Ok path /\
    dict_get settings' "case_name" = Ok case /\
    queue
    = map (fun f =>
             Ecmwf.queue_entry
               [("lat", lat); ("lon", lon); ("size", size); ("path", path);
                ("case", case)]%string
               (Datetime (fst f)) (snd f))
          (filter (fun f =>
                     negb (isfile (ERA5_file_path (year (fst f)) (month (fst f))
                                     (day (fst f)) path case (Str (snd f)))))
                  (required_files an fc)) /\
    List.length queue <= 3 * List.length an + List.length fc.
Proof.
  intros H.
  destruct (download_queue_spec year month day ERA5_file_path isdir isfile
              lower_to_hour get_required_analysis get_required_forecast
              settings settings' queue H)
    as (d1 & d2 & start & end_ & an & fc & lat & lon & size & path & case
        & H1 & H2 & H3 & H4 & H5 & H6 & H7 & H8 & H9 & H10 & H11 & Hq).
  exists d1, d2, start, end_, an, fc, lat, lon, size, path, case.
  repeat (split; [assumption|]).
  rewrite Hq, length_map.
  eapply Nat.le_trans; [apply filter_length_le|].
  unfold required_files, analysis_ftypes. rewrite length_app, length_map.
  assert (La : forall l : list R,
             List.length (flat_map (fun h : R => map (pair h)
                 ["model_an"; "pressure_an"; "surface_an"]%string) l)
             = 3 * List.length l).
  { induction l as [|h l IH]; [reflexivity|].
    cbn [flat_map]. rewrite length_app, IH. cbn [map List.length]. lia. }
  rewrite La. lia.
Qed.


(** X19.  Every entry of the download queue is complete and belongs to a
    file that is not found locally: it holds the latitude, longitude, area
    size and case name of the caller's settings, the output directory with
    its final slash, a date, and one of the four file types that
    [download_ERA5_file] knows. *)
Theorem queued_entry_is_complete_and_not_local
    (year month day : R -> nat)
    (ERA5_file_path : nat -> nat -> nat -> value -> value -> value -> string)
    (isdir isfile : string -> bool)
    (lower_to_hour : value -> result value)
    (get_required_analysis get_required_forecast
       : value -> value -> result (list value))
    (settings settings' : dict) (queue : list dict) (entry : dict) :
  Ecmwf.download_queue year month day ERA5_file_path isdir isfile
    lower_to_hour get_required_analysis get_required_forecast settings
  = (settings', Ok queue) ->
  In entry queue ->
  exists p case h ft,
    dict_get entry "path" = Ok (Str p) /\ ends_with_slash p /\
    dict_get entry "lat" = dict_get settings "central_lat" /\
    dict_get entry "lon" = dict_get settings "central_lon" /\
    dict_get entry "size" = dict_get settings "area_size" /\
    dict_get entry "case" = Ok case /\
    dict_get settings "case_name" = Ok case /\
    dict_get entry "date" = Ok (Datetime h) /\
    dict_get entry "ftype" = Ok (Str ft) /\ In ft known_ftypes /\
    isfile (ERA5_file_path (year h) (month h) (day h) (Str p) case (Str ft))
    = false.
Proof.
  intros H Hin.
  destruct (download_queue_spec year month day ERA5_file_path isdir isfile
              lower_to_hour get_required_analysis get_required_forecast
              settings settings' queue H)
    as (d1 & d2 & start & end_ & an & fc & lat & lon & size & path & case
        & _ & _ & _ & _ & _ & _ & H7 & H8 & H9 & H10 & H11 & Hq).
  unfold Ecmwf.download_queue in H.
  destruct (Download.download_ERA5 isdir settings) as [s' [u|x]] eqn:Ed;
    [|discriminate].
  injection H as <- _.
  destruct (download_ERA5_ok isdir settings s' u Ed)
    as (p0 & p & _ & _ & Hp & Hslash & _ & Hkeep).
  assert (path = Str p) by congruence. subst path.
  rewrite Hq in Hin. apply in_map_iff in Hin.
  destruct Hin as ([h ft] & <- & Hf). apply filter_In in Hf.
  destruct Hf as [Hreq Hmiss]. cbn [fst snd] in *.
  exists p, case, h, ft.
  split; [reflexivity|]. split; [exact Hslash|].
  rewrite <- !Hkeep by discriminate.
  split; [now rewrite H7|]. split; [now rewrite H8|]. split; [now rewrite H9|].
  split; [reflexivity|]. split; [exact H11|].
  split; [reflexivity|]. split; [reflexivity|]. split.
  - unfold required_files, analysis_ftypes in Hreq. apply in_app_or in Hreq.
    destruct Hreq as [Ha|Hf].
    + apply in_flat_map in Ha. destruct Ha as (h' & _ & Ha).
      cbn in Ha. unfold known_ftypes.
      destruct Ha as [[= _ <-]|[[= _ <-]|[[= _ <-]|[]]]]; cbn; tauto.
    + apply in_map_iff in Hf. destruct Hf as (h' & [= _ <-] & _).
      unfold known_ftypes; cbn; tauto.
  - now apply negb_true_iff in Hmiss.
Qed.

(** X20.  For an existing output directory whose name in the settings does
    not end with a slash, [download_ERA5] has changed the caller's
    dictionary whatever happens afterwards: the dictionary holds the name
    with the slash also when a later step raises, as when the date helper
    rejects the start date. *)
Theorem settings_stay_changed_when_download_fails_later
    (year month day : R -> nat)
    (ERA5_file_path : nat -> nat -> nat -> value -> value -> value -> string)
    (isdir isfile : string -> bool)
    (lower_to_hour : value -> result value)
    (get_required_analysis get_required_forecast
       : value -> value -> result (list value))
    (settings : dict) (path : string) (d1 d2 : value) :
  let run :=
    Ecmwf.download_queue year month day ERA5_file_path isdir isfile
      lower_to_hour get_required_analysis get_required_forecast settings in
  dict_get settings "start_date" = Ok d1 ->
  dict_get settings "end_date" = Ok d2 ->
  dict_get settings "ERA5_path" = Ok (Str path) ->
  path <> ""%string -> ~ ends_with_slash path -> isdir path = true ->
  fst run = dict_set settings "ERA5_path" (Str (path ++ "/")) /\
  dict_get (fst run) "ERA5_path" = Ok (Str (path ++ "/")) /\
  (forall x, lower_to_hour d1 = Raise x -> snd run = Raise x).
Proof.
  intros run H1 H2 Hp Hne Hslash Hdir.
  assert (E : Download.download_ERA5 isdir settings
              = (dict_set settings "ERA5_path" (Str (path ++ "/")), Ok tt)).
  { unfold Download.download_ERA5. rewrite H1, H2, Hp, Hdir. cbn [negb].
    now apply ensure_trailing_slash_appends. }
  subst run. unfold Ecmwf.download_queue. rewrite E. cbn [fst snd].
  split; [reflexivity|].
  split; [now apply (dict_get_set_same settings _ _ (Str path))|].
  intros x Hx.
  rewrite dict_get_set_other by discriminate. rewrite H1. cbn [rbind].
  now rewrite Hx.
Qed.

(** ** The request of one file *)

Lemma dict_get_update_other d other key :
  ~ In key (map fst other) ->
  dict_get (dict_update d other) key = dict_get d key.
Proof.
  unfold dict_update. revert d.
  induction other as [|[k x] other IH]; intros d Hin; cbn [fold_left];
    [reflexivity|].
  cbn [map fst In] in Hin. rewrite IH by tauto. cbn [fst snd].
  apply dict_get_set_other. intros ->. tauto.
Qed.

Lemma dict_get_set_new d key x : dict_get (dict_set d key x) key = Ok x.
Proof.
  induction d as [|[k z] d IH]; cbn.
  - now rewrite String.eqb_refl.
  - destruct (k =? key)%string eqn:E; cbn; rewrite E; [reflexivity|exact IH].
Qed.

Lemma eq_str_true x s : eq_str x s = true <-> x = Str s.
Proof.
  unfold eq_str. destruct x; try (split; [discriminate|discriminate]).
  rewrite String.eqb_eq. split; [now intros ->|now intros [= ->]].
Qed.

Ltac incl_keys :=
  let k := fresh "k" in let Hin := fresh "Hin" in
  intros k Hin; cbn [map fst In] in Hin; unfold ftype_keys;
  repeat (destruct Hin as [<-|Hin]; [cbn [In]; tauto|]); destruct Hin.

Lemma update_for_ftype_cases (settings request : dict) (ftype : value) :
  dict_get settings "ftype" = Ok ftype ->
  exists request',
    Ecmwf.update_for_ftype settings request = Ok request' /\
    (forall key, ~ In key ftype_keys ->
                 dict_get request' key = dict_get request key) /\
    (forall name, In name known_ftypes -> ftype = Str name ->
       exists levtype type,
         dict_get request' "levtype" = Ok (Str levtype) /\
         dict_get request' "type" = Ok (Str type) /\
         (type = "fc"%string <-> name = "model_fc"%string)) /\
    ((forall name, In name known_ftypes -> ftype <> Str name) ->
     request' = request).
Proof.
  intros Hft. unfold Ecmwf.update_for_ftype. rewrite Hft. cbn [rbind].
  assert (Hkeys : forall upd key,
             incl (map fst upd) ftype_keys -> ~ In key ftype_keys ->
             dict_get (dict_update request upd) key = dict_get request key).
  { intros upd key Hincl Hk. apply dict_get_update_other. intros Hin.
    apply Hk, Hincl, Hin. }
  destruct (eq_str ftype "model_an") eqn:E1.
  { apply eq_str_true in E1. subst ftype. eexists. split; [reflexivity|].
    split; [intros key Hk; apply Hkeys; [incl_keys|exact Hk]|].
    split.
    - intros name _ [= <-]. exists "ml"%string, "an"%string.
      split; [|split; [|split; discriminate]].
      + unfold Ecmwf.model_an_request, dict_update.
        cbn [fold_left fst snd].
        rewrite !dict_get_set_other by discriminate. apply dict_get_set_new.
      + unfold Ecmwf.model_an_request, dict_update.
        cbn [fold_left fst snd]. apply dict_get_set_new.
    - intros Hno. exfalso. apply (Hno "model_an"%string); [cbn; tauto|reflexivity]. }
  destruct (eq_str ftype "model_fc") eqn:E2.
  { apply eq_str_true in E2. subst ftype. eexists. split; [reflexivity|].
    split; [intros key Hk; apply Hkeys; [incl_keys|exact Hk]|].
    split.
    - intros name _ [= <-]. exists "ml"%string, "fc"%string.
      split; [|split; [|split; reflexivity]].
      + unfold Ecmwf.model_fc_request, dict_update.
        cbn [fold_left fst snd].
        rewrite !dict_get_set_other by discriminate. apply dict_get_set_new.
      + unfold Ecmwf.model_fc_request, dict_update.
        cbn [fold_left fst snd]. apply dict_get_set_new.
    - intros Hno. exfalso. apply (Hno "model_fc"%string); [cbn; tauto|reflexivity]. }
  destruct (eq_str ftype "pressure_an") eqn:E3.
  { apply eq_str_true in E3. subst ftype. eexists. split; [reflexivity|].
    split; [intros key Hk; apply Hkeys; [incl_keys|exact Hk]|].
    split.
    - intros name _ [= <-]. exists "pl"%string, "an"%string.
      split; [|split; [|split; discriminate]].
      + unfold Ecmwf.pressure_an_request, dict_update.
        cbn [fold_left fst snd].
        rewrite !dict_get_set_other by discriminate. apply dict_get_set_new.
      + unfold Ecmwf.pressure_an_request, dict_update.
        cbn [fold_left fst snd]. apply dict_get_set_new.
    - intros Hno. exfalso. apply (Hno "pressure_an"%string); [cbn; tauto|reflexivity]. }
  destruct (eq_str ftype "surface_an") eqn:E4.
  { apply eq_str_true in E4. subst ftype. eexists. split; [reflexivity|].
    split; [intros key Hk; apply Hkeys; [incl_keys|exact Hk]|].
    split.
    - intros name _ [= <-]. exists "sfc"%string, "an"%string.
      split; [|split; [|split; discriminate]].
      + unfold Ecmwf.surface_an_request, dict_update.
        cbn [fold_left fst snd].
        rewrite !dict_get_set_other by discriminate. apply dict_get_set_new.
      + unfold Ecmwf.surface_an_request, dict_update.
        cbn [fold_left fst snd]. apply dict_get_set_new.
    - intros Hno. exfalso. apply (Hno "surface_an"%string); [cbn; tauto|reflexivity]. }
  exists request. split; [reflexivity|]. split; [reflexivity|]. split.
  - intros name Hin ->. exfalso. unfold known_ftypes in Hin. cbn in Hin.
    cbn [eq_str] in E1, E2, E3, E4.
    destruct Hin as [<-|[<-|[<-|[<-|[]]]]]; discriminate.
  - reflexivity.
Qed.

(** X21.  The chain of comparisons of the file type never fails once the
    file type is there.  It leaves every setting of the shared request as
    it is (the update assigns only the keys of the level type, levels,
    parameters, steps, times and analysis or forecast type); for the four
    known file types the request gets a level type and a type, which is
    'fc' for the model-level forecast only; for any other file type the
    request is handed on unchanged, without level type. *)
Theorem request_update_by_file_type (settings request : dict) (ftype : value) :
  dict_get settings "ftype" = Ok ftype ->
  exists request',
    Ecmwf.update_for_ftype settings request = Ok request' /\
    (forall key, ~ In key ftype_keys ->
                 dict_get request' key = dict_get request key) /\
    (forall name, In name known_ftypes -> ftype = Str name ->
       exists levtype type,
         dict_get request' "levtype" = Ok (Str levtype) /\
         dict_get request' "type" = Ok (Str type) /\
         (type = "fc"%string <-> name = "model_fc"%string)) /\
    ((forall name, In name known_ftypes -> ftype <> Str name) ->
     request' = request).
Proof. apply update_for_ftype_cases. Qed.

(** ** Standard output during a download *)

Section DownloadFile.

Variables year month day : R -> nat.
Variable ERA5_file_path : nat -> nat -> nat -> value -> value -> value -> string.
Variables add sub : value -> value -> result value.
Variable format_area : value -> value -> value -> value -> string.
Variable can_open : string -> bool.
Variable server_created : bool.
Variable retrieve : dict -> Ecmwf.outcome.

Lemma shared_request_target settings nc_file request :
  Ecmwf.shared_request year month day add sub format_area settings nc_file
  = Ok request ->
  dict_get request "target" = Ok (Str nc_file) /\
  exists y m d, dict_get request "date" = Ok (Str (Ecmwf.format_date y m d)) /\
    exists h, dict_get settings "date" = Ok (Datetime h) /\
              y = year h /\ m = month h /\ d = day h.
Proof.
  unfold Ecmwf.shared_request.
  destruct (dict_get settings "date") as [dt|]; [|discriminate]. cbn [rbind].
  destruct dt as [? | ? | ? | h]; cbn [Ecmwf.date_attrs rbind]; try discriminate.
  destruct (dict_get settings "lat") as [lat|]; [|discriminate]. cbn [rbind].
  destruct (dict_get settings "size") as [size|]; [|discriminate]. cbn [rbind].
  destruct (add lat size) as [north|]; [|discriminate]. cbn [rbind].
  destruct (dict_get settings "lon") as [lon|]; [|discriminate]. cbn [rbind].
  destruct (sub lon size) as [west|]; [|discriminate]. cbn [rbind].
  destruct (sub lat size) as [south|]; [|discriminate]. cbn [rbind].
  destruct (add lon size) as [east|]; [|discriminate]. cbn [rbind].
  intros [= <-]. split; [reflexivity|].
  exists (year h), (month h), (day h). split; [reflexivity|].
  exists h. repeat split; reflexivity.
Qed.

(** X22.  [download_ERA5_file] restores [sys.stdout] only when the
    download succeeds.  When it returns, standard output is what it was
    before the call, the log file [nc_file + '.log'] could be opened, and
    the request that was retrieved names the NetCDF file as its target.
    When the log file was opened and a later step fails (the api cannot be
    set up, the request cannot be built, the retrieval fails), standard
    output is left redirected to the log file; when the failure comes
    before the log file is opened, standard output is untouched. *)
Theorem stdout_is_restored_only_on_success
    (settings : dict) (stdout : Ecmwf.stream) :
  let run :=
    Ecmwf.download_ERA5_file year month day ERA5_file_path add sub format_area
      can_open server_created retrieve settings stdout in
  let nc := Ecmwf.nc_file_of year month day ERA5_file_path settings in
  (snd run = Ecmwf.Done ->
   fst run = stdout /\
   exists nc_file request,
     nc = Ok nc_file /\ can_open (nc_file ++ ".log") = true /\
     retrieve request = Ecmwf.Done /\
     dict_get request "target" = Ok (Str nc_file)) /\
  (forall nc_file f,
     nc = Ok nc_file -> can_open (nc_file ++ ".log") = true ->
     snd run = Ecmwf.Failed f ->
     fst run = Ecmwf.LogFile (nc_file ++ ".log")) /\
  (forall nc_file,
     nc = Ok nc_file -> can_open (nc_file ++ ".log") = false ->
     run = (stdout, Ecmwf.Failed Ecmwf.OSError)) /\
  (forall e, nc = Raise e ->
     exists e', run = (stdout, Ecmwf.Failed (Ecmwf.Exception e'))).
Proof.
  intros run nc. subst run nc. unfold Ecmwf.download_ERA5_file.
  assert (Hpre : forall nc_file,
             Ecmwf.nc_file_of year month day ERA5_file_path settings = Ok nc_file ->
             (_ <- dict_get settings "date" ;;
              _ <- dict_get settings "ftype" ;;
              Ecmwf.nc_file_of year month day ERA5_file_path settings)%result
             = Ok nc_file).
  { intros nc_file E. rewrite E. unfold Ecmwf.nc_file_of in E.
    destruct (dict_get settings "date") as [dt|]; [|discriminate].
    cbn [rbind] in *.
    destruct (Ecmwf.date_attrs year month day dt) as [[[y m] d]|];
      [|discriminate].
    cbn [rbind] in E.
    destruct (dict_get settings "path"); [|discriminate]. cbn [rbind] in E.
    destruct (dict_get settings "case"); [|discriminate]. cbn [rbind] in E.
    destruct (dict_get settings "ftype"); [|discriminate]. reflexivity. }
  assert (Hpre' : forall e,
             Ecmwf.nc_file_of year month day ERA5_file_path settings = Raise e ->
             exists e',
               (_ <- dict_get settings "date" ;;
                _ <- dict_get settings "ftype" ;;
                Ecmwf.nc_file_of year month day ERA5_file_path settings)%result
               = Raise e').
  { intros e E. rewrite E.
    destruct (dict_get settings "date") as [dt|x]; [|now exists x].
    cbn [rbind].
    destruct (dict_get settings "ftype") as [ft|x]; [now exists e|now exists x]. }
  destruct (Ecmwf.nc_file_of year month day ERA5_file_path settings)
    as [nc_file|e] eqn:Enc.
  2: { destruct (Hpre' e eq_refl) as (e' & ->). cbn [Ecmwf.of_result fst snd].
       split; [discriminate|]. split; [discriminate|].
       split; [discriminate|]. intros _ _. now exists e'. }
  rewrite (Hpre nc_file eq_refl). cbn [Ecmwf.of_result].
  destruct (can_open (nc_file ++ ".log")) eqn:Eo; cbn [negb fst snd].
  2: { split; [discriminate|]. split; [intros ? ? [= <-]; congruence|].
       split; [reflexivity|discriminate]. }
  destruct server_created; cbn [negb fst snd].
  2: { split; [discriminate|]. split; [now intros ? ? [= <-]|].
       split; [intros ? [= <-]; congruence|discriminate]. }
  destruct (Ecmwf.shared_request year month day add sub format_area settings
              nc_file) as [shared|x] eqn:Es; cbn [rbind Ecmwf.of_result fst snd].
  2: { split; [discriminate|]. split; [now intros ? ? [= <-]|].
       split; [intros ? [= <-]; congruence|discriminate]. }
  destruct (Ecmwf.update_for_ftype settings shared) as [request|x] eqn:Eu;
    cbn [Ecmwf.of_result fst snd].
  2: { split; [discriminate|]. split; [now intros ? ? [= <-]|].
       split; [intros ? [= <-]; congruence|discriminate]. }
  destruct (retrieve request) as [|f] eqn:Er; cbn [fst snd].
  2: { split; [discriminate|]. split; [now intros ? ? [= <-]|].
       split; [intros ? [= <-]; congruence|discriminate]. }
  split.
  - intros _. split; [reflexivity|]. exists nc_file, request.
    repeat (split; [assumption || reflexivity|]).
    unfold Ecmwf.update_for_ftype in Eu.
    destruct (dict_get settings "ftype") as [ft|] eqn:Eft; [|discriminate].
    destruct (update_for_ftype_cases settings shared ft Eft)
      as (r' & Er' & Hkeep & _).
    unfold Ecmwf.update_for_ftype in Er'. rewrite Eft in Er'.
    assert (r' = request) by congruence. subst r'.
    rewrite Hkeep by (unfold ftype_keys; cbn; intuition discriminate).
    apply (shared_request_target settings nc_file shared Es).
  - split; [discriminate|]. split; [intros ? [= <-]; congruence|discriminate].
Qed.

End DownloadFile.

(** ** The date of a request *)

Lemma format_0d_4 n :
  n < 100 * 100 ->
  String.length (Ecmwf.format_0d 4 n) = 4 /\
  decimal_value (Ecmwf.format_0d 4 n) = N.of_nat n.
Proof.
  intros Hn.
  assert (H : forallb (fun n => (String.length (Ecmwf.format_0d 4 n) =? 4)
                                && (decimal_value (Ecmwf.format_0d 4 n) =? N.of_nat n)%N)
                      (seq 0 (100 * 100)) = true) by (vm_compute; reflexivity).
  rewrite forallb_forall in H. specialize (H n ltac:(apply in_seq; lia)).
  apply andb_prop in H. destruct H as [H1 H2].
  split; [now apply Nat.eqb_eq|now apply N.eqb_eq].
Qed.

Lemma format_0d_2 n :
  n < 100 ->
  String.length (Ecmwf.format_0d 2 n) = 2 /\
  decimal_value (Ecmwf.format_0d 2 n) = N.of_nat n.
Proof.
  intros Hn.
  assert (H : forallb (fun n => (String.length (Ecmwf.format_0d 2 n) =? 2)
                                && (decimal_value (Ecmwf.format_0d 2 n) =? N.of_nat n)%N)
                      (seq 0 100) = true) by (vm_compute; reflexivity).
  rewrite forallb_forall in H. specialize (H n ltac:(apply in_seq; lia)).
  apply andb_prop in H. destruct H as [H1 H2].
  split; [now apply Nat.eqb_eq|now apply N.eqb_eq].
Qed.

Lemma length_append (a b : string) :
  String.length (a ++ b) = String.length a + String.length b.
Proof. induction a as [|c a IH]; cbn; [reflexivity|now rewrite IH]. Qed.

Lemma append_assoc (a b c : string) : ((a ++ b) ++ c = a ++ b ++ c)%string.
Proof. induction a as [|x a IH]; cbn; [reflexivity|now rewrite IH]. Qed.

Lemma get_after (a : string) c r :
  String.get (String.length a) (a ++ String c r) = Some c.
Proof. induction a as [|d a IH]; [reflexivity|exact IH]. Qed.

Lemma append_inj (a a' x x' : string) :
  String.length a = String.length a' ->
  (a ++ x = a' ++ x')%string -> a = a' /\ x = x'.
Proof.
  revert a'. induction a as [|c a IH]; intros [|c' a'] Hl H; cbn in *;
    try discriminate.
  - now split.
  - injection H as -> H. injection Hl as Hl.
    destruct (IH a' Hl H) as [-> ->]. now split.
Qed.

(** X23.  The date of a request is written as year, month and day in four,
    two and two decimal digits, separated by hyphens: for a year below
    10000 and a month and day below 100 the text has ten characters with
    the hyphens at positions 4 and 7, and different dates give different
    texts. *)
Theorem request_date_is_year_month_day (y m d : nat) :
  y < 100 * 100 -> m < 100 -> d < 100 ->
  String.length (Ecmwf.format_date y m d) = 10 /\
  String.get 4 (Ecmwf.format_date y m d) = Some "-"%char /\
  String.get 7 (Ecmwf.format_date y m d) = Some "-"%char /\
  forall y' m' d',
    y' < 100 * 100 -> m' < 100 -> d' < 100 ->
    Ecmwf.format_date y m d = Ecmwf.format_date y' m' d' ->
    y = y' /\ m = m' /\ d = d'.
Proof.
  intros Hy Hm Hd. unfold Ecmwf.format_date.
  destruct (format_0d_4 y Hy) as [Ly Vy].
  destruct (format_0d_2 m Hm) as [Lm Vm].
  destruct (format_0d_2 d Hd) as [Ld Vd].
  set (a := Ecmwf.format_0d 4 y) in *.
  set (b := Ecmwf.format_0d 2 m) in *.
  set (c := Ecmwf.format_0d 2 d) in *.
  split; [|split; [|split]].
  - rewrite !length_append, Ly, Lm, Ld. reflexivity.
  - change ("-" ++ b ++ "-" ++ c)%string with (String "-" (b ++ "-" ++ c))%string.
    rewrite <- Ly. apply get_after.
  - assert (E : (a ++ "-" ++ b ++ "-" ++ c
                 = ((a ++ "-") ++ b) ++ String "-" c)%string)
      by (rewrite !append_assoc; reflexivity).
    rewrite E.
    assert (L : String.length ((a ++ "-") ++ b) = 7)
      by (rewrite !length_append, Ly, Lm; reflexivity).
    rewrite <- L. apply get_after.
  - intros y' m' d' Hy' Hm' Hd' E.
    destruct (format_0d_4 y' Hy') as [Ly' Vy'].
    destruct (format_0d_2 m' Hm') as [Lm' Vm'].
    destruct (format_0d_2 d' Hd') as [Ld' Vd'].
    apply append_inj in E; [|congruence]. destruct E as [Ea E].
    change ("-" ++ ?x)%string with (String "-" x) in E.
    injection E as E.
    apply append_inj in E; [|congruence]. destruct E as [Eb E].
    injection E as Ec.
    split; [|split].
    + apply Nnat.Nat2N.inj. rewrite <- Vy, <- Vy'. now rewrite Ea.
    + apply Nnat.Nat2N.inj. rewrite <- Vm, <- Vm'. now rewrite Eb.
    + apply Nnat.Nat2N.inj. rewrite <- Vd, <- Vd'. now rewrite Ec.
Qed.

(** ** Half level pressure and height *)

Lemma for_in_app {A S} (l1 l2 : list A) (body : A -> S -> result S) st :
  for_in (l1 ++ l2) body st
  = (st' <- for_in l1 body st ;; for_in l2 body st')%result.
Proof.
  revert st. induction l1 as [|a l1 IH]; intros st; cbn [for_in app rbind];
    [reflexivity|].
  destruct (body a st) as [st'|x]; cbn [rbind]; [apply IH|reflexivity].
Qed.

Lemma for_in_map {A B S} (f : A -> B) (l : list A) (body : B -> S -> result S) st :
  for_in (map f l) body st = for_in l (fun a => body (f a)) st.
Proof.
  revert st. induction l as [|a l IH]; intros st; cbn [for_in map];
    [reflexivity|].
  destruct (body (f a) st); cbn [rbind]; [apply IH|reflexivity].
Qed.

Lemma for_in_flat_map {A B S} (f : A -> list B) (l : list A)
    (body : B -> S -> result S) st :
  for_in (flat_map f l) body st
  = for_in l (fun a st => for_in (f a) body st) st.
Proof.
  revert st. induction l as [|a l IH]; intros st; cbn [for_in flat_map];
    [reflexivity|].
  rewrite for_in_app.
  destruct (for_in (f a) body st); cbn [rbind]; [apply IH|reflexivity].
Qed.

Lemma for_in_ext {A S} (l : list A) (f g : A -> S -> result S) st :
  (forall a st, f a st = g a st) -> for_in l f st = for_in l g st.
Proof.
  intros H. revert st. induction l as [|a l IH]; intros st; cbn [for_in];
    [reflexivity|].
  rewrite H. destruct (g a st); cbn [rbind]; [apply IH|reflexivity].
Qed.

Lemma in_grid_points nt nlat nlon t la lo :
  In (t, la, lo) (grid_points nt nlat nlon) <-> t < nt /\ la < nlat /\ lo < nlon.
Proof.
  unfold grid_points. rewrite in_flat_map. split.
  - intros (t' & Ht & H). apply in_flat_map in H. destruct H as (la' & Hla & H).
    apply in_map_iff in H. destruct H as (lo' & [= <- <- <-] & Hlo).
    apply in_seq in Ht, Hla, Hlo. lia.
  - intros (Ht & Hla & Hlo). exists t. split; [apply in_seq; lia|].
    apply in_flat_map. exists la. split; [apply in_seq; lia|].
    apply in_map_iff. exists lo. split; [reflexivity|apply in_seq; lia].
Qed.

Section HalfLevelLoops.

Variable calc_half_level_pressure : R -> ndarray1.
Variable calc_half_level_Zg : ndarray1 -> ndarray1 -> ndarray1.
Variables ntime nhalf nlat nlon : nat.
Variable ps : ndarray3.
Variable Tv : ndarray4.

Hypothesis ps0 : d30 ps = ntime.
Hypothesis ps1 : d31 ps = nlat.
Hypothesis ps2 : d32 ps = nlon.
Hypothesis Tv0 : d40 Tv = ntime.
Hypothesis Tv2 : d42 Tv = nlat.
Hypothesis Tv3 : d43 Tv = nlon.
Hypothesis Hp : forall x, len1 (calc_half_level_pressure x) = nhalf.
Hypothesis Hz : forall a b, len1 a = nhalf ->
                            len1 (calc_half_level_Zg a b) = nhalf.

Let body (x : nat * nat * nat) (st : ndarray4 * ndarray4) :=
  let '(t, la, lo) := x in
  half_level_column calc_half_level_pressure calc_half_level_Zg ps Tv t la lo st.

(** The columns of the two arrays after the loops have visited the
    positions [l]: the visited columns are filled, the others are as they
    were. *)
Let filled (l : list (nat * nat * nat)) (ph zh ph' zh' : ndarray4) : Prop :=
  forall t la lo, t < ntime -> la < nlat -> lo < nlon ->
    (In (t, la, lo) l ->
     (forall k, k < nhalf ->
        get4 ph' t k la lo
        = get1 (calc_half_level_pressure (get3 ps t la lo)) k) /\
     exists c,
       len1 c = nhalf /\ (forall k, get1 c k = get4 ph' t k la lo) /\
       forall k, k < nhalf ->
         get4 zh' t k la lo
         = get1 (calc_half_level_Zg c
                   (mk1 (d41 Tv) (fun k => get4 Tv t k la lo))) k) /\
    (~ In (t, la, lo) l ->
     forall k, get4 ph' t k la lo = get4 ph t k la lo /\
               get4 zh' t k la lo = get4 zh t k la lo).

Lemma half_level_column_ok t la lo ph zh :
  t < ntime -> la < nlat -> lo < nlon ->
  has_shape4 ph ntime nhalf nlat nlon -> has_shape4 zh ntime nhalf nlat nlon ->
  let v := calc_half_level_pressure (get3 ps t la lo) in
  let ph1 := mk4 ntime nhalf nlat nlon
               (fun t' k j' i' =>
                  if (t' =? t) && (j' =? la) && (i' =? lo)
                  then get1 v (bidx (len1 v) k) else get4 ph t' k j' i') in
  let w := calc_half_level_Zg (mk1 nhalf (fun k => get4 ph1 t k la lo))
             (mk1 (d41 Tv) (fun k => get4 Tv t k la lo)) in
  let zh1 := mk4 ntime nhalf nlat nlon
               (fun t' k j' i' =>
                  if (t' =? t) && (j' =? la) && (i' =? lo)
                  then get1 w (bidx (len1 w) k) else get4 zh t' k j' i') in
  body (t, la, lo) (ph, zh) = Ok (ph1, zh1).
Proof.
  intros Ht Hla Hlo (p0 & p1 & p2 & p3) (z0 & z1 & z2 & z3) v ph1 w zh1.
  assert (Lw : len1 w = nhalf) by (unfold w; now apply Hz).
  unfold body, half_level_column, item3, setcol4, col4.
  rewrite ps0, ps1, ps2, p0, p1, p2, p3.
  destruct (Nat.ltb_spec t ntime) as [_|]; [|lia].
  destruct (Nat.ltb_spec la nlat) as [_|]; [|lia].
  destruct (Nat.ltb_spec lo nlon) as [_|]; [|lia].
  cbn [andb rbind]. fold v.
  assert (Lv : len1 v = nhalf) by (unfold v; apply Hp).
  replace (len1 v =? nhalf) with true by (symmetry; now apply Nat.eqb_eq).
  cbn [orb rbind]. fold ph1. cbn [d40 d41 d42 d43 ph1].
  destruct (Nat.ltb_spec t ntime) as [_|]; [|lia].
  destruct (Nat.ltb_spec la nlat) as [_|]; [|lia].
  destruct (Nat.ltb_spec lo nlon) as [_|]; [|lia].
  cbn [andb rbind]. rewrite Tv0, Tv2, Tv3.
  destruct (Nat.ltb_spec t ntime) as [_|]; [|lia].
  destruct (Nat.ltb_spec la nlat) as [_|]; [|lia].
  destruct (Nat.ltb_spec lo nlon) as [_|]; [|lia].
  cbn [andb rbind]. rewrite z0, z1, z2, z3.
  destruct (Nat.ltb_spec t ntime) as [_|]; [|lia].
  destruct (Nat.ltb_spec la nlat) as [_|]; [|lia].
  destruct (Nat.ltb_spec lo nlon) as [_|]; [|lia].
  cbn [andb rbind]. fold w.
  replace (len1 w =? nhalf) with true by (symmetry; now apply Nat.eqb_eq).
  cbn [orb rbind]. reflexivity.
Qed.

Lemma half_level_columns_filled l :
  Forall (fun x => fst (fst x) < ntime /\ snd (fst x) < nlat /\ snd x < nlon) l ->
  forall ph zh,
    has_shape4 ph ntime nhalf nlat nlon -> has_shape4 zh ntime nhalf nlat nlon ->
    exists ph' zh',
      for_in l body (ph, zh) = Ok (ph', zh') /\
      has_shape4 ph' ntime nhalf nlat nlon /\
      has_shape4 zh' ntime nhalf nlat nlon /\
      filled l ph zh ph' zh'.
Proof.
  induction 1 as [|[[t la] lo] l (Ht & Hla & Hlo) Hl IH]; intros ph zh Sp Sz.
  - exists ph, zh. split; [reflexivity|]. split; [exact Sp|]. split; [exact Sz|].
    intros t la lo _ _ _. split; [intros []|]. intros _ k. now split.
  - cbn [fst snd] in Ht, Hla, Hlo. cbn [for_in].
    pose (v := calc_half_level_pressure (get3 ps t la lo)).
    pose (ph1 := mk4 ntime nhalf nlat nlon
                   (fun t' k j' i' =>
                      if (t' =? t) && (j' =? la) && (i' =? lo)
                      then get1 v (bidx (len1 v) k) else get4 ph t' k j' i')).
    pose (c1 := mk1 nhalf (fun k => get4 ph1 t k la lo)).
    pose (tc := mk1 (d41 Tv) (fun k => get4 Tv t k la lo)).
    pose (w := calc_half_level_Zg c1 tc).
    pose (zh1 := mk4 ntime nhalf nlat nlon
                   (fun t' k j' i' =>
                      if (t' =? t) && (j' =? la) && (i' =? lo)
                      then get1 w (bidx (len1 w) k) else get4 zh t' k j' i')).
    assert (Estep : body (t, la, lo) (ph, zh) = Ok (ph1, zh1))
      by (apply half_level_column_ok; assumption).
    rewrite Estep. cbn [rbind].
    assert (Lv : len1 v = nhalf) by (unfold v; apply Hp).
    assert (Lw : len1 w = nhalf) by (unfold w; now apply Hz).
    destruct (IH ph1 zh1 ltac:(repeat split) ltac:(repeat split))
      as (ph' & zh' & E & Sp' & Sz' & HF).
    exists ph', zh'. split; [exact E|]. split; [exact Sp'|]. split; [exact Sz'|].
    intros t' la' lo' Ht' Hla' Hlo'.
    destruct (HF t' la' lo' Ht' Hla' Hlo') as [Hin Hout].
    destruct (in_dec (fun x y : nat * nat * nat =>
                        ltac:(decide equality; decide equality; apply Nat.eq_dec))
                (t', la', lo') l) as [I|NI].
    + split; [intros _; now apply Hin|].
      intros N. exfalso. apply N. now right.
    + specialize (Hout NI). split.
      * intros [[= <- <- <-]|I]; [|contradiction]. split.
        -- intros k Hk. rewrite (proj1 (Hout k)). unfold ph1. cbn [get4].
           rewrite !Nat.eqb_refl. cbn [andb]. rewrite bidx_lt; [reflexivity|].
           now rewrite Lv.
        -- exists c1. split; [reflexivity|]. split.
           ++ intros k. rewrite (proj1 (Hout k)). reflexivity.
           ++ intros k Hk. rewrite (proj2 (Hout k)). unfold zh1. cbn [get4].
              rewrite !Nat.eqb_refl. cbn [andb].
              rewrite bidx_lt; [reflexivity|]. now rewrite Lw.
      * intros N k. destruct (Hout k) as [E1 E2]. rewrite E1, E2.
        unfold ph1, zh1. cbn [get4].
        assert (Hne : (t' =? t) && (la' =? la) && (lo' =? lo) = false).
        { apply not_true_is_false. intros Hb.
          apply andb_prop in Hb. destruct Hb as [Hb Hb3].
          apply andb_prop in Hb. destruct Hb as [Hb1 Hb2].
          apply Nat.eqb_eq in Hb1, Hb2, Hb3. subst. apply N. now left. }
        rewrite Hne. now split.
Qed.

Lemma init_half_levels_flat :
  init_half_levels calc_half_level_pressure calc_half_level_Zg
    ntime nhalf nlat nlon ps Tv
  = for_in (grid_points ntime nlat nlon) body
      (zeros4 ntime nhalf nlat nlon, zeros4 ntime nhalf nlat nlon).
Proof.
  unfold init_half_levels, grid_points. rewrite for_in_flat_map.
  apply for_in_ext. intros t st. rewrite for_in_flat_map.
  apply for_in_ext. intros la st'. rewrite for_in_map. reflexivity.
Qed.

Lemma init_half_levels_spec :
  exists ph zh,
    init_half_levels calc_half_level_pressure calc_half_level_Zg
      ntime nhalf nlat nlon ps Tv = Ok (ph, zh) /\
    has_shape4 ph ntime nhalf nlat nlon /\
    has_shape4 zh ntime nhalf nlat nlon /\
    forall t la lo, t < ntime -> la < nlat -> lo < nlon ->
      (forall k, k < nhalf ->
         get4 ph t k la lo
         = get1 (calc_half_level_pressure (get3 ps t la lo)) k) /\
      exists ph_col Tv_col,
        col4 Tv t la lo = Ok Tv_col /\
        is1 ph_col nhalf (fun k => get4 ph t k la lo) /\
        forall k, k < nhalf ->
          get4 zh t k la lo = get1 (calc_half_level_Zg ph_col Tv_col) k.
Proof.
  rewrite init_half_levels_flat.
  destruct (half_level_columns_filled (grid_points ntime nlat nlon)
              ltac:(apply Forall_forall; intros [[t la] lo] Hx;
                    apply in_grid_points in Hx; exact Hx)
              (zeros4 ntime nhalf nlat nlon) (zeros4 ntime nhalf nlat nlon)
              ltac:(repeat split) ltac:(repeat split))
    as (ph & zh & E & Sp & Sz & HF).
  exists ph, zh. split; [exact E|]. split; [exact Sp|]. split; [exact Sz|].
  intros t la lo Ht Hla Hlo.
  destruct (HF t la lo Ht Hla Hlo) as [Hin _].
  destruct (Hin ltac:(apply in_grid_points; lia)) as (Hph & c & Lc & Hc & Hzh).
  split; [exact Hph|].
  exists c, (mk1 (d41 Tv) (fun k => get4 Tv t k la lo)). split.
  - unfold col4. rewrite Tv0, Tv2, Tv3.
    destruct (Nat.ltb_spec t ntime) as [_|]; [|lia].
    destruct (Nat.ltb_spec la nlat) as [_|]; [|lia].
    destruct (Nat.ltb_spec lo nlon) as [_|]; [|lia]. reflexivity.
  - split; [|exact Hzh]. split; [exact Lc|]. intros k _. apply Hc.
Qed.

End HalfLevelLoops.

(** X24.  For a surface pressure and a virtual temperature on the axes of
    the object and [IFS_tools] functions that return [nhalf] values, the
    loops over time, latitude and longitude complete and fill every
    column: none of the zeros the arrays are created with remains
    unassigned.  [ph[t,:,la,lo]] is the half level pressure computed from
    [ps[t,la,lo]], [zh[t,:,la,lo]] is the half level height computed from
    that column of [ph] and the column of [Tv], and the full level
    pressure is the mean of two half level pressures of the same column. *)
Theorem half_levels_are_filled_column_by_column
    (calc_half_level_pressure : R -> ndarray1)
    (calc_half_level_Zg : ndarray1 -> ndarray1 -> ndarray1)
    (ntime nhalf nlat nlon : nat) (ps : ndarray3) (Tv : ndarray4) :
  d30 ps = ntime -> d31 ps = nlat -> d32 ps = nlon ->
  d40 Tv = ntime -> d42 Tv = nlat -> d43 Tv = nlon ->
  (forall x, len1 (calc_half_level_pressure x) = nhalf) ->
  (forall a b, len1 a = nhalf -> len1 (calc_half_level_Zg a b) = nhalf) ->
  exists ph zh p,
    init_half_levels calc_half_level_pressure calc_half_level_Zg
      ntime nhalf nlat nlon ps Tv = Ok (ph, zh) /\
    has_shape4 ph ntime nhalf nlat nlon /\
    has_shape4 zh ntime nhalf nlat nlon /\
    full_level ph = Ok p /\ has_shape4 p ntime (nhalf - 1) nlat nlon /\
    forall t la lo, t < ntime -> la < nlat -> lo < nlon ->
      (forall k, k < nhalf ->
         get4 ph t k la lo
         = get1 (calc_half_level_pressure (get3 ps t la lo)) k) /\
      (exists ph_col Tv_col,
         col4 Tv t la lo = Ok Tv_col /\
         is1 ph_col nhalf (fun k => get4 ph t k la lo) /\
         forall k, k < nhalf ->
           get4 zh t k la lo = get1 (calc_half_level_Zg ph_col Tv_col) k) /\
      (forall k, k < nhalf - 1 ->
         get4 p t k la lo
         = ((get1 (calc_half_level_pressure (get3 ps t la lo)) k
             + get1 (calc_half_level_pressure (get3 ps t la lo)) (k + 1)) / 2)%R).
Proof.
  intros ps0 ps1 ps2 Tv0 Tv2 Tv3 Hp Hz.
  destruct (init_half_levels_spec calc_half_level_pressure calc_half_level_Zg
              ntime nhalf nlat nlon ps Tv ps0 ps1 ps2 Tv0 Tv2 Tv3 Hp Hz)
    as (ph & zh & E & Sp & Sz & H).
  destruct (full_level_value ph) as (p & Ep & Hpv).
  destruct Sp as (p0 & p1 & p2 & p3). rewrite p0, p1, p2, p3 in Hpv.
  destruct Hpv as (q0 & q1 & q2 & q3 & Hpv).
  exists ph, zh, p. split; [exact E|]. split; [repeat split; assumption|].
  split; [exact Sz|]. split; [exact Ep|]. split; [repeat split; assumption|].
  intros t la lo Ht Hla Hlo. destruct (H t la lo Ht Hla Hlo) as (Hph & Hzh).
  split; [exact Hph|]. split; [exact Hzh|].
  intros k Hk. rewrite Hpv by assumption.
  rewrite !Hph by lia. reflexivity.
Qed.

(** ** Concrete runs *)

Lemma hourly_nondecreasing n x0 :
  nondecreasing (mk1 n (fun t => x0 + Sample.num t)%R).
Proof.
  intros a b Hab Hb. cbn [get1]. unfold Sample.num.
  assert (IZR (Z.of_nat a) <= IZR (Z.of_nat b))%R by (apply IZR_le; lia).
  lra.
Qed.

Lemma nearest_witness :
  0 < len1 Sample.an_times /\
  exists k,
    nearest Sample.an_times 1019737.2 = Some k /\ k < len1 Sample.an_times /\
    (forall m, m < len1 Sample.an_times ->
       (distance Sample.an_times 1019737.2 k
        <= distance Sample.an_times 1019737.2 m)%R) /\
    (forall m, m < k ->
       (distance Sample.an_times 1019737.2 k
        < distance Sample.an_times 1019737.2 m)%R) /\
    (forall m, m < len1 Sample.an_times ->
       get1 Sample.an_times m = 1019737.2%R ->
       get1 Sample.an_times k = 1019737.2%R).
Proof.
  split; [cbn; lia|].
  apply (nearest_is_first_closest_position Sample.an_times 1019737.2).
  cbn; lia.
Defined.

Lemma all_equal_refl a : all_equal a a = Ok true.
Proof.
  unfold all_equal. rewrite bdim_same. f_equal.
  apply forallb_forall. intros k _.
  destruct (Req_dec_T _ _); [reflexivity|contradiction].
Qed.

(** The first of three values is the nearest when it is strictly nearer
    than the two others. *)
Lemma argmin_upto_3_first (f : nat -> R) :
  (f 0%nat <= f 1%nat)%R -> (f 0%nat <= f 2%nat)%R -> argmin_upto 3 f = 0.
Proof.
  intros H1 H2. cbn [argmin_upto].
  destruct (Rlt_dec (f 0) (f 0)) as [|_]; [lra|].
  destruct (Rlt_dec (f 1) (f 0)) as [|_]; [lra|].
  destruct (Rlt_dec (f 2) (f 0)) as [|_]; [lra|]. reflexivity.
Qed.

Lemma argmin_upto_3_last (f : nat -> R) :
  (f 2%nat < f 0%nat)%R -> (f 2%nat < f 1%nat)%R -> argmin_upto 3 f = 2.
Proof.
  intros H1 H2. cbn [argmin_upto].
  destruct (Rlt_dec (f 0) (f 0)) as [|_]; [lra|].
  destruct (Rlt_dec (f 1) (f 0)) as [H|H];
    (destruct (Rlt_dec (f 2) _) as [|N]; [reflexivity|lra]).
Qed.

Lemma sample_nearest_start : nearest Sample.an_times 1019736 = Some 0.
Proof.
  rewrite nearest_some by (cbn; lia). f_equal.
  apply argmin_upto_3_first; crunch;
    rewrite !Rabs_right by lra; lra.
Qed.

Lemma sample_nearest_end : nearest Sample.an_times 1019738 = Some 2.
Proof.
  rewrite nearest_some by (cbn; lia). f_equal.
  apply argmin_upto_3_last; crunch.
  - rewrite Rabs_right by lra. rewrite Rabs_left by lra. lra.
  - rewrite Rabs_right by lra. rewrite Rabs_left by lra. lra.
Qed.

Lemma time_slice_witness :
  (nondecreasing Sample.an_times /\ (1019736 <= 1019738)%R /\
   nearest Sample.an_times 1019736 = Some 0 /\
   nearest Sample.an_times 1019738 = Some 2) /\
  0 <= 2 /\
  is1 (getitem1 Sample.an_times (time_slice 0 2)) (2 - 0 + 1)
      (fun k => get1 Sample.an_times (0 + k)).
Proof.
  assert (H : nondecreasing Sample.an_times /\ (1019736 <= 1019738)%R /\
              nearest Sample.an_times 1019736 = Some 0 /\
              nearest Sample.an_times 1019738 = Some 2).
  { split; [apply hourly_nondecreasing|]. split; [lra|].
    split; [exact sample_nearest_start|exact sample_nearest_end]. }
  split; [exact H|]. destruct H as (H1 & H2 & H3 & H4).
  exact (time_slice_selects_start_to_end Sample.an_times 1019736 1019738 0 2
           H1 H2 H3 H4).
Defined.

Lemma sample_init_times :
  init_times Sample.an_times Sample.an_times
  = Ok (mk1 3 (fun k => (get1 Sample.an_times k - get1 Sample.an_times 0) * 3600)%R).
Proof.
  unfold init_times. rewrite item1_inside by (cbn; lia). cbn [rbind].
  rewrite all_equal_refl. reflexivity.
Qed.

Lemma time_sec_witness :
  init_times Sample.an_times Sample.an_times
  = Ok (mk1 3 (fun k => (get1 Sample.an_times k - get1 Sample.an_times 0) * 3600)%R) /\
  0 < len1 Sample.an_times /\
  get1 (mk1 3 (fun k => (get1 Sample.an_times k - get1 Sample.an_times 0) * 3600)%R) 0
  = 0%R.
Proof.
  split; [exact sample_init_times|].
  destruct (time_sec_counts_from_first_time Sample.an_times Sample.an_times _
              sample_init_times) as (H1 & _ & H3 & _).
  split; [exact H1|exact H3].
Defined.

Lemma reversed_time_slice_witness :
  0 < 2 /\
  read_times Examples.file_times Examples.file_times (time_slice 2 0) (time_slice 2 0)
  = Raise IndexError.
Proof.
  split; [lia|].
  apply (reversed_time_slice_raises_IndexError Examples.file_times Examples.file_times
           2 0 (time_slice 2 0)).
  lia.
Defined.

Lemma sample_levels_increasing : increasing Examples.file_levels.
Proof.
  intros a b Hab Hb. cbn [Examples.file_levels get1]. unfold Sample.num.
  assert (IZR (Z.of_nat a) < IZR (Z.of_nat b))%R by (apply IZR_lt; lia).
  lra.
Qed.

Lemma pressure_levels_witness :
  increasing Examples.file_levels /\
  decreasing (read_p_p Examples.file_levels) /\
  get1 (read_p_p Examples.file_levels) 0 = 100000%R.
Proof.
  split; [exact sample_levels_increasing|].
  destruct (pressure_levels_become_decreasing Examples.file_levels
              sample_levels_increasing) as (Hd & _ & _ & Hv).
  split; [exact Hd|]. rewrite Hv by (cbn; lia). crunch. lra.
Defined.

Lemma radiative_tendency_witness :
  (1 <= 2 /\ 2 < d40 Examples.forecast_field /\
   d40 Examples.exner = 2 - 1 + 1 /\ d41 Examples.exner = d41 Examples.forecast_field /\
   d42 Examples.exner = d42 Examples.forecast_field /\
   d43 Examples.exner = d43 Examples.forecast_field) /\
  exists dthldt,
    read_dthldt Examples.forecast_field (time_slice 1 2) Examples.exner = Ok dthldt /\
    get4 dthldt 0 0 2 2
    = (get4 Examples.forecast_field 1 1 2 2 / get4 Examples.exner 0 0 2 2)%R.
Proof.
  assert (H : 1 <= 2 /\ 2 < d40 Examples.forecast_field /\
              d40 Examples.exner = 2 - 1 + 1 /\
              d41 Examples.exner = d41 Examples.forecast_field /\
              d42 Examples.exner = d42 Examples.forecast_field /\
              d43 Examples.exner = d43 Examples.forecast_field).
  { split; [lia|]. split; [cbn; lia|]. repeat split. }
  split; [exact H|]. destruct H as (H1 & H2 & H3 & H4 & H5 & H6).
  destruct (radiative_tendency_read_at_analysis_index Examples.forecast_field
              Examples.exner 1 2 H1 H2 H3 H4 H5 H6)
    as (r & E & _ & _ & _ & _ & Hv).
  exists r. split; [exact E|].
  rewrite Hv by (cbn; lia). reflexivity.
Defined.

Lemma sample_same_shape c c' : same_shape4 (Sample.const4 2 c) (Sample.const4 2 c').
Proof. repeat split. Qed.

Lemma thl_witness :
  ((0 < 2500800)%R /\ (0 < 1004.7)%R /\
   same_shape4 Examples.temperature Examples.humidity /\
   same_shape4 Examples.temperature Examples.exner /\
   same_shape4 Examples.temperature Examples.cloud_water /\
   same_shape4 Examples.temperature Examples.no_water /\
   all4 (fun x => 0 < x)%R Examples.exner /\
   all4 (fun x => 0 <= x)%R Examples.cloud_water /\
   all4 (fun x => 0 <= x)%R Examples.no_water) /\
  exists ql th thl,
    init_ql Examples.cloud_water Examples.no_water Examples.no_water Examples.no_water
    = Ok ql /\
    init_th Examples.temperature Examples.exner = Ok th /\
    init_thl 2500800 1004.7 th Examples.exner ql = Ok thl /\
    (get4 thl 0 0 2 2 <= get4 th 0 0 2 2)%R.
Proof.
  assert (H : (0 < 2500800)%R /\ (0 < 1004.7)%R /\
              same_shape4 Examples.temperature Examples.humidity /\
              same_shape4 Examples.temperature Examples.exner /\
              same_shape4 Examples.temperature Examples.cloud_water /\
              same_shape4 Examples.temperature Examples.no_water /\
              all4 (fun x => 0 < x)%R Examples.exner /\
              all4 (fun x => 0 <= x)%R Examples.cloud_water /\
              all4 (fun x => 0 <= x)%R Examples.no_water).
  { split; [lra|]. split; [lra|].
    repeat (split; [apply sample_same_shape|]).
    split; [|split]; intros t k j i _ _ _ _; cbn; lra. }
  split; [exact H|].
  destruct H as (H1 & H2 & H3 & H4 & H5 & H6 & H7 & H8 & H9).
  destruct (thl_does_not_exceed_theta 2500800 1004.7 Examples.temperature
              Examples.humidity Examples.exner Examples.cloud_water Examples.no_water
              Examples.no_water Examples.no_water H1 H2 H3 H4 H5 H6 H6 H6 H7 H8 H9 H9 H9)
    as (ql & qt & th & thl & E1 & _ & E3 & E4 & _ & _ & _ & _ & Hv).
  exists ql, th, thl. repeat (split; [assumption|]).
  apply (Hv 0 0 2 2); cbn; lia.
Defined.

Lemma wls_witness :
  ((0 < 287.04)%R /\ (0 < 9.80665)%R /\
   same_shape4 Examples.pressure Examples.virtual_temperature /\
   same_shape4 Examples.pressure Examples.rising /\
   all4 (fun x => 0 < x)%R Examples.pressure /\
   all4 (fun x => 0 < x)%R Examples.virtual_temperature) /\
  exists rho wls,
    init_rho 287.04 Examples.pressure Examples.virtual_temperature = Ok rho /\
    init_wls 9.80665 Examples.rising rho = Ok wls /\
    (0 < get4 wls 0 0 2 2)%R.
Proof.
  assert (H : (0 < 287.04)%R /\ (0 < 9.80665)%R /\
              same_shape4 Examples.pressure Examples.virtual_temperature /\
              same_shape4 Examples.pressure Examples.rising /\
              all4 (fun x => 0 < x)%R Examples.pressure /\
              all4 (fun x => 0 < x)%R Examples.virtual_temperature).
  { split; [lra|]. split; [lra|].
    repeat (split; [apply sample_same_shape|]).
    split; intros t k j i _ _ _ _; cbn; lra. }
  split; [exact H|]. destruct H as (H1 & H2 & H3 & H4 & H5 & H6).
  destruct (wls_has_opposite_sign_of_pressure_velocity 287.04 9.80665
              Examples.pressure Examples.virtual_temperature Examples.rising
              H1 H2 H3 H4 H5 H6)
    as (rho & wls & E1 & E2 & _ & _ & Hv).
  exists rho, wls. split; [exact E1|]. split; [exact E2|].
  destruct (Hv 0 0 2 2) as (_ & _ & Hup & _); try (cbn; lia).
  apply Hup. cbn. lra.
Defined.

Lemma window_mean_witness :
  (in_bounds Sample.inner 0 0 /\ model_shape Sample.inner (thl Sample.inner)) /\
  get2 (mean23 (getitem4 (thl Sample.inner) (centre4 Sample.inner 0))) 0 0
  = get4 (thl Sample.inner) 0 0 2 2.
Proof.
  assert (H : in_bounds Sample.inner 0 0 /\
              model_shape Sample.inner (thl Sample.inner)).
  { split; [unfold in_bounds; cbn; lia|repeat split]. }
  split; [exact H|]. destruct H as (H1 & H2).
  destruct (model_level_mean_is_window_mean Sample.inner 0
              (thl Sample.inner) H1 H2) as (_ & _ & Hc).
  apply (Hc eq_refl 0 0); cbn; lia.
Defined.

Lemma sample_surface_shape c : surface_shape Sample.inner (Sample.const3 c).
Proof. repeat split. Qed.

Lemma surface_means_witness :
  (in_bounds Sample.inner 1 0 /\
   surface_shape Sample.inner (ps Sample.inner) /\
   surface_shape Sample.inner (wths Sample.inner) /\
   surface_shape Sample.inner (wqs Sample.inner) /\
   surface_shape Sample.inner (cc Sample.inner) /\
   surface_shape Sample.inner (z0m Sample.inner) /\
   surface_shape Sample.inner (z0h Sample.inner)) /\
  len1 (ps_mean Sample.inner_means) = 2 /\
  get1 (ps_mean Sample.inner_means) 0
  = window_mean (j0 Sample.inner 1) (i0 Sample.inner 1) (width 1)
      (get3 (ps Sample.inner) 0).
Proof.
  assert (H : in_bounds Sample.inner 1 0 /\
              surface_shape Sample.inner (ps Sample.inner) /\
              surface_shape Sample.inner (wths Sample.inner) /\
              surface_shape Sample.inner (wqs Sample.inner) /\
              surface_shape Sample.inner (cc Sample.inner) /\
              surface_shape Sample.inner (z0m Sample.inner) /\
              surface_shape Sample.inner (z0h Sample.inner)).
  { split; [unfold in_bounds; cbn; lia|].
    repeat (split; [apply sample_surface_shape|]). apply sample_surface_shape. }
  split; [exact H|]. destruct H as (H0 & H1 & H2 & H3 & H4 & H5 & H6).
  destruct (surface_means_are_window_means Sample.inner 1 H0 H1 H2 H3 H4 H5 H6)
    as ((L & Hv) & _).
  split; [exact L|]. apply Hv. cbn; lia.
Defined.


Lemma interpolation_between_witness :
  (means Sample.inner_averaged = Some Sample.inner_means /\
   0 < d20 Sample.wind_profile /\ 0 < d20 (p_mean Sample.inner_means) /\
   d21 Sample.wind_profile = len1 (p_p Sample.inner) /\
   2 <= len1 (p_p Sample.inner) /\ decreasing (p_p Sample.inner)) /\
  exists r,
    interp_row Sample.inner "ug_p" (Some Sample.wind_profile) 0
      Sample.inner_averaged
    = (Sample.inner_averaged, Ok r) /\
    get1 r 0 = on_line (p_p Sample.inner) Sample.wind_profile 0 1 92500.
Proof.
  assert (H : means Sample.inner_averaged = Some Sample.inner_means /\
              0 < d20 Sample.wind_profile /\
              0 < d20 (p_mean Sample.inner_means) /\
              d21 Sample.wind_profile = len1 (p_p Sample.inner) /\
              2 <= len1 (p_p Sample.inner) /\ decreasing (p_p Sample.inner)).
  { split; [reflexivity|]. split; [cbn; lia|]. split; [cbn; lia|].
    split; [reflexivity|]. split; [cbn; lia|apply sample_levels_decreasing]. }
  split; [exact H|]. destruct H as (H1 & H2 & H3 & H4 & H5 & H6).
  destruct (interpolation_between_levels_is_on_their_line Sample.inner
              Sample.inner_averaged Sample.inner_means Sample.wind_profile
              "ug_p" 0 H1 H2 H3 H4 H5 H6) as (r & E & _ & Hv).
  exists r. split; [exact E|].
  assert (P0 : get2 (p_mean Sample.inner_means) 0 0 = 92500%R)
    by (crunch; lra).
  specialize (Hv 0 1 ltac:(cbn; lia) ltac:(cbn; lia)).
  cbv zeta in Hv. rewrite P0 in Hv. apply Hv. crunch. lra.
Defined.





Lemma sample_run_completes :
  exists e', calculate_forcings Sample.grav Sample.dlon Sample.dlat 1 "2nd"
               (loaded Sample.inner) = (e', Ok tt).
Proof.
  destruct (calculate_forcings_run Sample.grav Sample.dlon Sample.dlat
              (loaded Sample.inner) 1 "2nd" (sample_wf _ _ _ _ _) eq_refl
              (sample_in_bounds_2nd _ _ _) ltac:(cbn; lia))
    as (a1 & a2 & a3 & a4 & ugp & vgp & ug_ & vg_ & du & dv & E & _).
  eexists. exact E.
Qed.

Lemma used_keeps_source : src Examples.used = src (loaded Sample.inner).
Proof.
  unfold Examples.used, Sample.run.
  exact (preserves_calculate_forcings Sample.grav Sample.dlon Sample.dlat 0
           "4th" (loaded Sample.inner)).
Qed.

Lemma earlier_call_witness :
  exists e',
    (supported "2nd" = true /\ src Examples.used = src (loaded Sample.inner) /\
     calculate_forcings Sample.grav Sample.dlon Sample.dlat 1 "2nd"
       (loaded Sample.inner) = (e', Ok tt)) /\
    calculate_forcings Sample.grav Sample.dlon Sample.dlat 1 "2nd" Examples.used
    = (e', Ok tt).
Proof.
  destruct sample_run_completes as (e' & E). exists e'.
  pose proof used_keeps_source as H2.
  assert (H1 : supported "2nd" = true) by reflexivity.
  pose proof (completed_call_does_not_depend_on_earlier_calls Sample.grav
                Sample.dlon Sample.dlat 1 "2nd" (loaded Sample.inner) Examples.used
                e' H1 H2 E) as H.
  split; [split; [exact H1|split; [exact H2|exact E]]|exact H].
Defined.


Lemma sample_download_queue :
  Examples.download_queue Examples.settings = (Examples.settings, Ok Examples.queue).
Proof. reflexivity. Qed.

Lemma download_queue_witness :
  Examples.download_queue Examples.settings = (Examples.settings, Ok Examples.queue) /\
  exists d1 d2 start end_ an fc lat lon size path case,
    dict_get Examples.settings "start_date" = Ok d1 /\
    Sample.lower_to_hour d1 = Ok start /\
    dict_get Examples.settings "end_date" = Ok d2 /\
    Sample.lower_to_hour d2 = Ok end_ /\
    Sample.required_days start end_ = Ok (map Datetime an) /\
    Sample.required_days start end_ = Ok (map Datetime fc) /\
    dict_get Examples.settings "central_lat" = Ok lat /\
    dict_get Examples.settings "central_lon" = Ok lon /\
    dict_get Examples.settings "area_size" = Ok size /\
    dict_get Examples.settings "ERA5_path" = Ok path /\
    dict_get Examples.settings "case_name" = Ok case /\
    Examples.queue
    = map (fun f =>
             Ecmwf.queue_entry
               [("lat", lat); ("lon", lon); ("size", size); ("path", path);
                ("case", case)]%string
               (Datetime (fst f)) (snd f))
          (filter (fun f =>
                     negb (Examples.isfile
                             (Examples.ERA5_file_path (Examples.year (fst f))
                                (Examples.month (fst f)) (Examples.day (fst f))
                                path case (Str (snd f)))))
                  (required_files an fc)) /\
    List.length Examples.queue <= 3 * List.length an + List.length fc.
Proof.
  split; [exact sample_download_queue|].
  exact (download_queue_holds_the_missing_files Examples.year Examples.month Examples.day
           Examples.ERA5_file_path Sample.all_dirs Examples.isfile
           Sample.lower_to_hour Sample.required_days Sample.required_days
           Examples.settings Examples.settings Examples.queue sample_download_queue).
Defined.

Lemma queued_entry_witness :
  (Examples.download_queue Examples.settings = (Examples.settings, Ok Examples.queue) /\
   In (Examples.entry "model_fc") Examples.queue) /\
  exists p case h ft,
    dict_get (Examples.entry "model_fc") "path" = Ok (Str p) /\
    ends_with_slash p /\
    dict_get (Examples.entry "model_fc") "lat"
    = dict_get Examples.settings "central_lat" /\
    dict_get (Examples.entry "model_fc") "lon"
    = dict_get Examples.settings "central_lon" /\
    dict_get (Examples.entry "model_fc") "size"
    = dict_get Examples.settings "area_size" /\
    dict_get (Examples.entry "model_fc") "case" = Ok case /\
    dict_get Examples.settings "case_name" = Ok case /\
    dict_get (Examples.entry "model_fc") "date" = Ok (Datetime h) /\
    dict_get (Examples.entry "model_fc") "ftype" = Ok (Str ft) /\
    In ft known_ftypes /\
    Examples.isfile
      (Examples.ERA5_file_path (Examples.year h) (Examples.month h) (Examples.day h)
         (Str p) case (Str ft))
    = false.
Proof.
  assert (Hin : In (Examples.entry "model_fc") Examples.queue)
    by (right; right; left; reflexivity).
  split; [split; [exact sample_download_queue|exact Hin]|].
  exact (queued_entry_is_complete_and_not_local Examples.year Examples.month Examples.day
           Examples.ERA5_file_path Sample.all_dirs Examples.isfile
           Sample.lower_to_hour Sample.required_days Sample.required_days
           Examples.settings Examples.settings Examples.queue (Examples.entry "model_fc")
           sample_download_queue Hin).
Defined.

Lemma text_date_has_no_final_slash : ~ ends_with_slash "/data/ERA5".
Proof. exact data_has_no_final_slash. Qed.

Lemma settings_stay_changed_witness :
  (dict_get Examples.settings_text_date "start_date" = Ok (Str "2016-05-01") /\
   dict_get Examples.settings_text_date "end_date" = Ok (Datetime 1019760) /\
   dict_get Examples.settings_text_date "ERA5_path" = Ok (Str "/data/ERA5") /\
   "/data/ERA5"%string <> ""%string /\ ~ ends_with_slash "/data/ERA5" /\
   Sample.all_dirs "/data/ERA5" = true) /\
  fst (Examples.download_queue Examples.settings_text_date)
  = dict_set Examples.settings_text_date "ERA5_path" (Str "/data/ERA5/") /\
  snd (Examples.download_queue Examples.settings_text_date) = Raise AttributeError.
Proof.
  assert (Hne : "/data/ERA5"%string <> ""%string) by discriminate.
  split.
  { repeat (split; [reflexivity|]).
    split; [exact Hne|]. split; [exact text_date_has_no_final_slash|reflexivity]. }
  destruct (settings_stay_changed_when_download_fails_later Examples.year
              Examples.month Examples.day Examples.ERA5_file_path Sample.all_dirs
              Examples.isfile Sample.lower_to_hour Sample.required_days
              Sample.required_days Examples.settings_text_date "/data/ERA5"
              (Str "2016-05-01") (Datetime 1019760) eq_refl eq_refl eq_refl
              Hne text_date_has_no_final_slash eq_refl)
    as (H1 & _ & H3).
  split; [exact H1|]. exact (H3 AttributeError eq_refl).
Defined.

Lemma request_update_witness :
  dict_get (Examples.entry "model_fc") "ftype" = Ok (Str "model_fc") /\
  exists request',
    Ecmwf.update_for_ftype (Examples.entry "model_fc") [("class"%string, Str "ea")]
    = Ok request' /\
    dict_get request' "class" = Ok (Str "ea") /\
    dict_get request' "type" = Ok (Str "fc").
Proof.
  split; [reflexivity|].
  destruct (request_update_by_file_type (Examples.entry "model_fc")
              [("class"%string, Str "ea")] (Str "model_fc") eq_refl)
    as (request' & E & Hkeep & Hknown & _).
  exists request'. split; [exact E|]. split.
  - rewrite Hkeep; [reflexivity|].
    unfold ftype_keys. cbn [In]. intros H.
    repeat (destruct H as [H|H]; [discriminate H|]). exact H.
  - destruct (Hknown "model_fc"%string) as (levtype & type & _ & Ht & Hfc);
      [unfold known_ftypes; cbn [In]; tauto|reflexivity|].
    rewrite Ht. f_equal. f_equal. now apply Hfc.
Defined.

Lemma request_date_witness :
  (2016 < 100 * 100 /\ 5 < 100 /\ 1 < 100) /\
  String.length (Ecmwf.format_date 2016 5 1) = 10 /\
  Ecmwf.format_date 2016 5 1 = "2016-05-01"%string /\
  forall y' m' d',
    y' < 100 * 100 -> m' < 100 -> d' < 100 ->
    Ecmwf.format_date 2016 5 1 = Ecmwf.format_date y' m' d' ->
    2016 = y' /\ 5 = m' /\ 1 = d'.
Proof.
  assert (Hy : 2016 < 100 * 100) by lia.
  assert (Hm : 5 < 100) by lia.
  assert (Hd : 1 < 100) by lia.
  split; [repeat split; assumption|].
  destruct (request_date_is_year_month_day 2016 5 1 Hy Hm Hd)
    as (H1 & _ & _ & H4).
  split; [exact H1|]. split; [reflexivity|exact H4].
Defined.

Lemma half_levels_witness :
  (d30 (Sample.const3 101000) = 2 /\ d31 (Sample.const3 101000) = 5 /\
   d32 (Sample.const3 101000) = 5 /\
   d40 (Sample.const4 2 289) = 2 /\ d42 (Sample.const4 2 289) = 5 /\
   d43 (Sample.const4 2 289) = 5 /\
   (forall x, len1 (Examples.calc_half_level_pressure x) = 3) /\
   (forall a b, len1 a = 3 -> len1 (Examples.calc_half_level_Zg a b) = 3)) /\
  exists ph zh p,
    init_half_levels Examples.calc_half_level_pressure Examples.calc_half_level_Zg
      2 3 5 5 (Sample.const3 101000) (Sample.const4 2 289) = Ok (ph, zh) /\
    full_level ph = Ok p /\
    get4 ph 1 2 4 4 = (101000 - 15000 * 2)%R /\
    get4 zh 1 2 4 4 = (1400 * 2)%R /\
    get4 p 1 1 4 4 = (((101000 - 15000 * 1) + (101000 - 15000 * 2)) / 2)%R.
Proof.
  assert (Hp : forall x, len1 (Examples.calc_half_level_pressure x) = 3)
    by reflexivity.
  assert (Hz : forall a b, len1 a = 3 ->
                           len1 (Examples.calc_half_level_Zg a b) = 3)
    by reflexivity.
  split; [repeat (split; [reflexivity|]); split; assumption|].
  destruct (half_levels_are_filled_column_by_column
              Examples.calc_half_level_pressure Examples.calc_half_level_Zg
              2 3 5 5 (Sample.const3 101000) (Sample.const4 2 289)
              eq_refl eq_refl eq_refl eq_refl eq_refl eq_refl Hp Hz)
    as (ph & zh & p & E & _ & _ & Ep & _ & H).
  exists ph, zh, p. split; [exact E|]. split; [exact Ep|].
  destruct (H 1 4 4) as (Hph & (ph_col & Tv_col & _ & _ & Hzh) & Hfull);
    try lia.
  rewrite Hph, Hzh, Hfull by lia.
  unfold Examples.calc_half_level_pressure, Examples.calc_half_level_Zg, Sample.const3,
    Sample.num.
  cbn. repeat split; lra.
Defined.
